(** * marstek-energy-trading: price-window analyzer, trading engine, trade ledger

    A shallow embedding of [service/analyzer.go], of the tick state machine
    and the recorder of [service/service.go], and the properties the
    specification states about them.

    Conventions of the embedding.
    - Go [float64] is Rocq's primitive binary64 [float]; every arithmetic
      operation is the IEEE operation the source performs, in source order.
    - Go [int] is [Z]; slice indices are [Z], read through [nthZ].
    - [time.Time] is an instant in nanoseconds since the Unix epoch together
      with the UTC offset of the location it carries. Locations are fixed
      offsets: zone transitions are outside the model. A [time.Duration]
      is an unbounded number of nanoseconds: [Sub] does not saturate as Go's
      does beyond 2^63 ns (about 292 years).
    - [decimal.Decimal] (shopspring) is the exact rational it denotes;
      [Add], [Sub], [Mul] are exact, [Div] rounds to 16 fractional digits.
    - Battery calls are recorded as a trace of commands; their error results
      and the clock are inputs of a tick. Notifications and logging are left
      out (the engine runs with no notifier configured). *)

From Stdlib Require Import ZArith QArith Qround Qabs Lqa Floats Lia List Bool.
From stdpp Require Import gmap list sorting.

Set Warnings "-inexact-float".
#[local] Open Scope Z_scope.

(** ** Loops *)

(** [forZ n i body s] runs [body i], [body (i+1)], ..., [n] times: the Go
    loop [for j := i; j < i+n; j++]. *)
Fixpoint forZ {St : Type} (n : nat) (i : Z) (body : Z -> St -> St) (s : St) : St :=
  match n with
  | O => s
  | S n' => forZ n' (i + 1) body (body i s)
  end.

(** ** float64 *)

Module F64.

Definition t := float.

Definition MaxFloat64 : float := 0x1.fffffffffffffp+1023%float.

(** [float64(n)] for an [int]. *)
Definition of_int (n : Z) : float :=
  if n <? 0 then PrimFloat.opp (PrimFloat.of_uint63 (Uint63.of_Z (- n)))
  else PrimFloat.of_uint63 (Uint63.of_Z n).

(** The integer part of a float toward zero and its ceiling, on the exact
    value [m * 2^e] of a finite float. *)
Definition truncZ (x : float) : option Z :=
  match Prim2SF x with
  | S754_zero _ => Some 0
  | S754_finite s m e =>
      let a := if 0 <=? e then Z.pos m * 2 ^ e else Z.pos m / 2 ^ (- e) in
      Some (if s then - a else a)
  | _ => None
  end.

Definition ceilZ (x : float) : option Z :=
  match Prim2SF x with
  | S754_zero _ => Some 0
  | S754_finite s m e =>
      if 0 <=? e then Some ((if s then -1 else 1) * (Z.pos m * 2 ^ e))
      else if s then Some (- (Z.pos m / 2 ^ (- e)))
      else Some (- ((- Z.pos m) / 2 ^ (- e)))
  | _ => None
  end.

(** [math.Ceil]: infinities, NaN and zeros are returned unchanged. *)
Definition Ceil (x : float) : float :=
  match Prim2SF x with
  | S754_finite s m e =>
      if 0 <=? e then x
      else match ceilZ x with
           | Some 0 => if s then (-0)%float else 0%float
           | Some c => of_int c
           | None => x
           end
  | _ => x
  end.

(** [int(x)]: truncation toward zero when the result fits an int64. Out of
    that range Go leaves the result to the implementation; amd64 yields
    the minimum int64, which is what the model returns. *)
Definition to_int (x : float) : Z :=
  match truncZ x with
  | Some z => if (- 2 ^ 63 <=? z) && (z <? 2 ^ 63) then z else - 2 ^ 63
  | None => - 2 ^ 63
  end.

Definition is_nan (x : float) : bool := PrimFloat.is_nan x.

End F64.

(** ** time.Time and time.Duration *)

Module time.

Definition Duration := Z.

Definition Second : Duration := 1000000000.
Definition Minute : Duration := 60 * Second.
Definition Hour : Duration := 60 * Minute.
Definition Day : Duration := 24 * Hour.

(** [d.Seconds()] and [d.Hours()], as the standard library computes them. *)
Definition Seconds (d : Duration) : float :=
  (F64.of_int (Z.quot d Second) + F64.of_int (Z.rem d Second) / 1e9)%float.

Definition Hours (d : Duration) : float :=
  (F64.of_int (Z.quot d Hour) + F64.of_int (Z.rem d Hour) / (60 * 60 * 1e9))%float.

Record Location := { zoneOffset : Z (* seconds east of UTC *) }.

Definition UTC : Location := {| zoneOffset := 0 |}.
Definition FixedZone (offset : Z) : Location := {| zoneOffset := offset |}.

Record Time := { unixNano : Z; location : Location }.

Definition Before (t u : Time) : bool := unixNano t <? unixNano u.
Definition After (t u : Time) : bool := unixNano u <? unixNano t.
Definition Add (t : Time) (d : Duration) : Time :=
  {| unixNano := unixNano t + d; location := location t |}.
Definition Sub (t u : Time) : Duration := unixNano t - unixNano u.
Definition In (t : Time) (loc : Location) : Time :=
  {| unixNano := unixNano t; location := loc |}.

(** The zero [time.Time]: January 1, year 1, 00:00:00 UTC. *)
Definition zero : Time :=
  {| unixNano := - 62135596800 * Second; location := UTC |}.
Definition IsZero (t : Time) : bool := unixNano t =? unixNano zero.

(** [t.Hour()] and [t.Minute()]: the hour and the minute the wall clock
    shows at [t] in the location [t] carries. ([Hour] and [Minute] name the
    durations.) *)
Definition hourOf (t : Time) : Z :=
  ((unixNano t + zoneOffset (location t) * Second) mod Day) / Hour.
Definition minuteOf (t : Time) : Z :=
  ((unixNano t + zoneOffset (location t) * Second) mod Hour) / Minute.

(** [t.Truncate(d)]: [t] rounded down to a multiple of [d] since the zero
    time; [t] itself when [d <= 0]. *)
Definition Truncate (t : Time) (d : Duration) : Time :=
  if d <=? 0 then t
  else {| unixNano := unixNano t - (unixNano t - unixNano zero) mod d;
          location := location t |}.

(** [t.Equal(u)]: the same instant, whatever the locations. *)
Definition Equal (t u : Time) : bool := unixNano t =? unixNano u.

(** The civil day [t] falls on in the location it carries, counted in days
    since 1970-01-01. [t.Format("2006-01-02")] prints this day; for years
    0000 to 9999 the printed strings are ordered as the day numbers are. *)
Definition civilDay (t : Time) : Z :=
  (unixNano t + zoneOffset (location t) * Second) / Day.

End time.

Abbreviation Time := time.Time.

(** The length of a price slot: [15 * time.Minute]. *)
Definition slot : time.Duration := 15 * time.Minute.

(** ** clients/nordpool: a price point *)

Record Price := { PTime : Time; Value : float (* EUR/kWh *) }.

Definition zeroPrice : Price := {| PTime := time.zero; Value := 0 |}.

(** [prices[i]]. Every index the analyzer reads is in range (the loops are
    guarded by [len(prices)]); outside it Go panics and the model reads the
    zero value. *)
Definition nthZ (prices : list Price) (i : Z) : Price :=
  if i <? 0 then zeroPrice else nth (Z.to_nat i) prices zeroPrice.

Definition len {A : Type} (l : list A) : Z := Z.of_nat (length l).

(** ** service/analyzer.go *)

(** [localMidnight]: midnight of [t]'s date in [t]'s own location. *)
Definition localMidnight (t : Time) : Time :=
  {| time.unixNano := time.civilDay t * time.Day
                      - time.zoneOffset (time.location t) * time.Second;
     time.location := time.location t |}.

Record TimeWindow := {
  Start : Time;
  End_ : Time;
  WPrice : float (* average price in this window *)
}.

Record TradeCycle := {
  ChargeWindow : TimeWindow;
  DischargeWindow : TimeWindow;
  Profit : float
}.

Record TradingPlan := {
  Date : Time;
  ChargeWindows : list TimeWindow;
  DischargeWindows : list TimeWindow;
  Cycles : list TradeCycle;
  MinPrice : float;
  MaxPrice : float;
  Spread : float;
  IsProfitable : bool
}.

Record AnalyzerConfig := {
  Efficiency : float;
  MinPriceSpread : float;
  BatteryCapacityKWh : float;
  BatteryMinSOC : float;
  ChargePowerW : Z;
  DischargePowerW : Z;
  MaxCyclesPerDay : Z
}.

(** Zero values, as [TimeWindow{}], [TradeCycle{}] and [&TradingPlan{}]. *)
Definition zeroWindow : TimeWindow :=
  {| Start := time.zero; End_ := time.zero; WPrice := 0 |}.
Definition zeroCycle : TradeCycle :=
  {| ChargeWindow := zeroWindow; DischargeWindow := zeroWindow; Profit := 0 |}.
Definition zeroPlan : TradingPlan :=
  {| Date := time.zero; ChargeWindows := []; DischargeWindows := [];
     Cycles := []; MinPrice := 0; MaxPrice := 0; Spread := 0;
     IsProfitable := false |}.

(** [sort.Slice(sortedByTime, less)] with [less] = [Time.Before]. On inputs
    with pairwise distinct timestamps every sort returns the same list.
    This one is insertion sort and keeps points with equal timestamps in
    input order, as the source sort does for the short slices it sorts by
    insertion. *)
Fixpoint insertByTime (p : Price) (l : list Price) : list Price :=
  match l with
  | [] => [p]
  | q :: l' => if time.Before q.(PTime) p.(PTime) then q :: insertByTime p l'
               else p :: q :: l'
  end.

Definition sortByTime (prices : list Price) : list Price :=
  fold_right insertByTime [] prices.

(** The min and max loops of [AnalyzePrices]. *)
Definition minPriceOf (sorted : list Price) : float :=
  fold_left (fun m p => if (p.(Value) <? m)%float then p.(Value) else m)
            sorted (nthZ sorted 0).(Value).

Definition maxPriceOf (sorted : list Price) : float :=
  fold_left (fun m p => if (m <? p.(Value))%float then p.(Value) else m)
            sorted (nthZ sorted 0).(Value).

(** [calculateWindowSize]: number of 15-minute slots for a full charge. *)
Definition calculateWindowSize (capacityKWh : float) (powerW : Z) : Z :=
  if powerW <=? 0 then 8
  else
    let powerKW := (F64.of_int powerW / 1000)%float in
    let hours := (capacityKWh / powerKW)%float in
    let slots := F64.to_int (F64.Ceil (hours * 4)%float) in
    if slots <? 1 then 1 else slots.

(** [windowAverage]. *)
Definition windowSum (prices : list Price) (startIdx windowSize : Z) : float :=
  forZ (Z.to_nat windowSize) startIdx
       (fun i sum => (sum + (nthZ prices i).(Value))%float) 0%float.

Definition windowAverage (prices : list Price) (startIdx windowSize : Z) : float :=
  (windowSum prices startIdx windowSize / F64.of_int windowSize)%float.

(** The comparison both branches of [findBestWindow] make against
    [bestAvg]. *)
Definition better (findLowest : bool) (avg bestAvg : float) : bool :=
  if findLowest then (avg <? bestAvg)%float else (bestAvg <? avg)%float.

(** State of the sliding loop of [findBestWindow]. *)
Record SlideState := {
  slSum : float;      (* windowSum *)
  slBestAvg : float;  (* bestAvg *)
  slBestStart : Z     (* bestStart *)
}.

Definition slideStep (prices : list Price) (windowSize : Z) (findLowest : bool)
    (i : Z) (st : SlideState) : SlideState :=
  let sum := (st.(slSum) - (nthZ prices (i - 1)).(Value))%float in
  let sum := (sum + (nthZ prices (i + windowSize - 1)).(Value))%float in
  let avg := (sum / F64.of_int windowSize)%float in
  if better findLowest avg st.(slBestAvg)
  then {| slSum := sum; slBestAvg := avg; slBestStart := i |}
  else {| slSum := sum; slBestAvg := st.(slBestAvg); slBestStart := st.(slBestStart) |}.

Definition slideInit (prices : list Price) (startIdx windowSize : Z)
    (findLowest : bool) : SlideState :=
  let bestAvg := if findLowest then F64.MaxFloat64
                 else PrimFloat.opp F64.MaxFloat64 in
  let sum := windowSum prices startIdx windowSize in
  let avg := (sum / F64.of_int windowSize)%float in
  if better findLowest avg bestAvg
  then {| slSum := sum; slBestAvg := avg; slBestStart := startIdx |}
  else {| slSum := sum; slBestAvg := bestAvg; slBestStart := -1 |}.

(** [findBestWindow]: start index, average and whether a window was found. *)
Definition findBestWindow (prices : list Price) (startIdx windowSize : Z)
    (findLowest : bool) : Z * float * bool :=
  if len prices <? startIdx + windowSize then (0, 0%float, false)
  else
    let st := forZ (Z.to_nat (len prices - windowSize - startIdx)) (startIdx + 1)
                   (slideStep prices windowSize findLowest)
                   (slideInit prices startIdx windowSize findLowest) in
    if st.(slBestStart) <? 0 then (0, 0%float, false)
    else (st.(slBestStart), st.(slBestAvg), true).

(** The test the source makes before it keeps a pair: the pair is skipped
    when [dischargeAvg <= breakEven || dischargeAvg - chargeAvg < minSpread]. *)
Definition qualifies (efficiency minSpread chargeAvg dischargeAvg : float) : bool :=
  let breakEvenPrice := (chargeAvg / efficiency)%float in
  negb ((dischargeAvg <=? breakEvenPrice)%float
        || (dischargeAvg - chargeAvg <? minSpread)%float).

Definition profitOf (efficiency chargeAvg dischargeAvg : float) : float :=
  (dischargeAvg * efficiency - chargeAvg)%float.

Definition mkCycle (prices : list Price) (chargeStart chargeWindowSize
    dischargeStart dischargeWindowSize : Z) (chargeAvg dischargeAvg profit : float)
    : TradeCycle :=
  {| ChargeWindow :=
       {| Start := (nthZ prices chargeStart).(PTime);
          End_ := time.Add (nthZ prices (chargeStart + chargeWindowSize - 1)).(PTime) slot;
          WPrice := chargeAvg |};
     DischargeWindow :=
       {| Start := (nthZ prices dischargeStart).(PTime);
          End_ := time.Add (nthZ prices (dischargeStart + dischargeWindowSize - 1)).(PTime) slot;
          WPrice := dischargeAvg |};
     Profit := profit |}.

(** What one iteration of the loop of [findBestCycle] offers for the charge
    window starting at [chargeStart]: nothing when the iteration ends in
    [continue], otherwise the profit and the cycle of the pair. *)
Definition candidate (prices : list Price) (chargeWindowSize dischargeWindowSize : Z)
    (efficiency minSpread : float) (chargeStart : Z) : option (float * TradeCycle) :=
  let chargeAvg := windowAverage prices chargeStart chargeWindowSize in
  let dischargeSearchStart := chargeStart + chargeWindowSize in
  if len prices <? dischargeSearchStart + dischargeWindowSize then None
  else
    match findBestWindow prices dischargeSearchStart dischargeWindowSize false with
    | (_, _, false) => None
    | (dischargeStart, dischargeAvg, true) =>
        if negb (qualifies efficiency minSpread chargeAvg dischargeAvg) then None
        else
          let profit := profitOf efficiency chargeAvg dischargeAvg in
          Some (profit, mkCycle prices chargeStart chargeWindowSize
                                dischargeStart dischargeWindowSize
                                chargeAvg dischargeAvg profit)
    end.

(** State of the loop of [findBestCycle]. *)
Record BestState := {
  bsCycle : TradeCycle;  (* bestCycle *)
  bsProfit : float;      (* bestProfit *)
  bsFound : bool         (* found *)
}.

Definition cycleStep (prices : list Price) (chargeWindowSize dischargeWindowSize : Z)
    (efficiency minSpread : float) (chargeStart : Z) (st : BestState) : BestState :=
  match candidate prices chargeWindowSize dischargeWindowSize efficiency minSpread
                  chargeStart with
  | None => st
  | Some (profit, cycle) =>
      if (st.(bsProfit) <? profit)%float
      then {| bsCycle := cycle; bsProfit := profit; bsFound := true |}
      else st
  end.

Definition bestInit : BestState :=
  {| bsCycle := zeroCycle; bsProfit := PrimFloat.opp F64.MaxFloat64; bsFound := false |}.

Definition findBestCycle (prices : list Price) (startIdx chargeWindowSize
    dischargeWindowSize : Z) (efficiency minSpread : float) : TradeCycle * bool :=
  let st := forZ (Z.to_nat (len prices - chargeWindowSize - startIdx + 1)) startIdx
                 (cycleStep prices chargeWindowSize dischargeWindowSize efficiency minSpread)
                 bestInit in
  (st.(bsCycle), st.(bsFound)).

(** [findSlotIndex]: index of the first slot that starts at or after [t],
    [-1] when there is none. *)
Fixpoint findSlotIndexFrom (i : Z) (prices : list Price) (t : Time) : Z :=
  match prices with
  | [] => -1
  | p :: rest => if negb (time.Before p.(PTime) t) then i
                 else findSlotIndexFrom (i + 1) rest t
  end.

Definition findSlotIndex (prices : list Price) (t : Time) : Z :=
  findSlotIndexFrom 0 prices t.

(** [GetCurrentPrice]. *)
Fixpoint GetCurrentPrice (prices : list Price) (t : Time) : float * bool :=
  match prices with
  | [] => (0%float, false)
  | p :: rest =>
      let slotEnd := time.Add p.(PTime) slot in
      if negb (time.Before t p.(PTime)) && time.Before t slotEnd
      then (p.(Value), true)
      else GetCurrentPrice rest t
  end.

Definition inWindow (t : Time) (w : TimeWindow) : bool :=
  negb (time.Before t w.(Start)) && time.Before t w.(End_).

Definition IsInChargeWindow (p : TradingPlan) (t : Time) : bool :=
  existsb (inWindow t) p.(ChargeWindows).

Definition IsInDischargeWindow (p : TradingPlan) (t : Time) : bool :=
  existsb (inWindow t) p.(DischargeWindows).

Definition ShouldTrade (p : TradingPlan) : bool :=
  p.(IsProfitable)
  && ((0 <? len p.(ChargeWindows)) || (0 <? len p.(DischargeWindows))).

(** The cycle loop of [AnalyzePrices]: at most [n] rounds from
    [searchStartIdx], each appending the cycle it finds; the loop is left
    when a round finds nothing or the next start falls off the list. *)
Fixpoint searchCycles (sorted : list Price) (chargeWindowSize dischargeWindowSize : Z)
    (efficiency minSpread : float) (n : nat) (searchStartIdx : Z)
    (cycles : list TradeCycle) : list TradeCycle :=
  match n with
  | O => cycles
  | S n' =>
      let '(cycle, found) := findBestCycle sorted searchStartIdx chargeWindowSize
                                           dischargeWindowSize efficiency minSpread in
      if negb found then cycles
      else
        let cycles := cycles ++ [cycle] in
        let searchStartIdx := findSlotIndex sorted cycle.(DischargeWindow).(End_) in
        if (searchStartIdx <? 0) || (len sorted <=? searchStartIdx) then cycles
        else searchCycles sorted chargeWindowSize dischargeWindowSize efficiency
                          minSpread n' searchStartIdx cycles
  end.

Definition usableCapacity (cfg : AnalyzerConfig) : float :=
  (cfg.(BatteryCapacityKWh) * (1 - cfg.(BatteryMinSOC)))%float.

Definition chargeWindowSizeOf (cfg : AnalyzerConfig) : Z :=
  calculateWindowSize (usableCapacity cfg) cfg.(ChargePowerW).

Definition dischargeWindowSizeOf (cfg : AnalyzerConfig) : Z :=
  calculateWindowSize (usableCapacity cfg) cfg.(DischargePowerW).

(** [maxCycles]: the configured value, 2 when it is not positive. *)
Definition maxCyclesOf (cfg : AnalyzerConfig) : Z :=
  if cfg.(MaxCyclesPerDay) <=? 0 then 2 else cfg.(MaxCyclesPerDay).

Definition AnalyzePrices (prices : list Price) (cfg : AnalyzerConfig) : TradingPlan :=
  if len prices =? 0 then zeroPlan
  else
    let sortedByTime := sortByTime prices in
    let minPrice := minPriceOf sortedByTime in
    let maxPrice := maxPriceOf sortedByTime in
    let spread := (maxPrice - minPrice)%float in
    let chargeWindowSize := chargeWindowSizeOf cfg in
    let dischargeWindowSize := dischargeWindowSizeOf cfg in
    if (len sortedByTime <? chargeWindowSize)
       || (len sortedByTime <? dischargeWindowSize)
    then {| Date := localMidnight (nthZ sortedByTime 0).(PTime);
            ChargeWindows := []; DischargeWindows := []; Cycles := [];
            MinPrice := minPrice; MaxPrice := maxPrice; Spread := spread;
            IsProfitable := false |}
    else
      let cycles := searchCycles sortedByTime chargeWindowSize dischargeWindowSize
                                 cfg.(Efficiency) cfg.(MinPriceSpread)
                                 (Z.to_nat (maxCyclesOf cfg)) 0 [] in
      {| Date := localMidnight (nthZ sortedByTime 0).(PTime);
         ChargeWindows := map ChargeWindow cycles;
         DischargeWindows := map DischargeWindow cycles;
         Cycles := cycles;
         MinPrice := minPrice; MaxPrice := maxPrice; Spread := spread;
         IsProfitable := 0 <? len cycles |}.

(** Test fixtures of [analyzer_test.go]. *)
Definition makePrices (baseTime : Time) (values : list float) : list Price :=
  imap (fun i v => {| PTime := time.Add baseTime (Z.of_nat i * slot); Value := v |}) values.

Definition baseTime : Time := {| time.unixNano := 1705276800 * time.Second; time.location := time.UTC |}.

Definition defaultTestConfig : AnalyzerConfig :=
  {| Efficiency := 0.90; MinPriceSpread := 0.05; BatteryCapacityKWh := 5.12;
     BatteryMinSOC := 0.11; ChargePowerW := 2500; DischargePowerW := 2500;
     MaxCyclesPerDay := 2 |}.

Definition smallWindowConfig : AnalyzerConfig :=
  {| Efficiency := 0.90; MinPriceSpread := 0.01; BatteryCapacityKWh := 0.5;
     BatteryMinSOC := 0.0; ChargePowerW := 2000; DischargePowerW := 2000;
     MaxCyclesPerDay := 2 |}.

(** ** shopspring/decimal *)

Module decimal.

(** A decimal is modelled by the rational it denotes. *)
Definition Decimal := Q.

Definition Zero : Decimal := 0%Q.
Definition Add (a b : Decimal) : Decimal := (a + b)%Q.
Definition Sub (a b : Decimal) : Decimal := (a - b)%Q.
Definition Mul (a b : Decimal) : Decimal := (a * b)%Q.
Definition IsZero (a : Decimal) : bool := Qnum a =? 0.
Definition GreaterThan (a b : Decimal) : bool :=
  match (a ?= b)%Q with Gt => true | _ => false end.
Definition LessThan (a b : Decimal) : bool :=
  match (a ?= b)%Q with Lt => true | _ => false end.

Definition pow10 (k : Z) : Q :=
  if 0 <=? k then inject_Z (10 ^ k) else (1 # Z.to_pos (10 ^ (- k)))%Q.

Definition pow2 (k : Z) : Q :=
  if 0 <=? k then inject_Z (2 ^ k) else (1 # Z.to_pos (2 ^ (- k)))%Q.

(** The integer nearest to [x], halves away from zero. *)
Definition roundHalfAway (x : Q) : Z :=
  let d := Z.pos (Qden x) in
  Z.sgn (Qnum x) * ((2 * Z.abs (Qnum x) + d) / (2 * d)).

Definition DivisionPrecision : Z := 16.

(** [a.DivRound(b, precision)]: the quotient rounded to [precision]
    fractional digits, halves away from zero. The library panics when
    [b] is zero; callers in the model test the divisor first. *)
Definition DivRound (a b : Decimal) (precision : Z) : Decimal :=
  Qred (inject_Z (roundHalfAway (a / b * pow10 precision)) / pow10 precision)%Q.

Definition Div (a b : Decimal) : Decimal := DivRound a b DivisionPrecision.

(** *** NewFromFloat

    The library converts a float to the shortest decimal that reads back
    as the same float (the digit generation of [strconv]); NaN and the
    infinities make it panic, which the model reports as [None]. *)

Definition exact (m : Z) (e : Z) : Q := (inject_Z m * pow2 e)%Q.

Fixpoint adjustUp (fuel : nat) (v : Q) (k : Z) : Z :=
  match fuel with
  | O => k
  | S fuel' => if Qle_bool (pow10 k) v then adjustUp fuel' v (k + 1) else k
  end.

Fixpoint adjustDown (fuel : nat) (v : Q) (k : Z) : Z :=
  match fuel with
  | O => k
  | S fuel' => if Qle_bool (pow10 (k - 1)) v then k else adjustDown fuel' v (k - 1)
  end.

(** The [k] with [10^(k-1) <= v < 10^k], for [v = m * 2^e > 0]. *)
Definition decimalExponent (m e : Z) : Z :=
  let v := exact m e in
  let k0 := (Z.log2 m + e) * 30103 / 100000 in
  adjustDown 4 v (adjustUp 4 v k0).

Definition Qltb (a b : Q) : bool := negb (Qle_bool b a).

(** With [n] digits: the truncation of [v] and its successor, whichever
    lies in the rounding interval of the float; the nearer when both do. *)
Definition tryDigits (v lo hi : Q) (inclusive : bool) (k n : Z) : option Q :=
  let ulp := pow10 (k - n) in
  let q := Qfloor (v / ulp) in
  let down := (inject_Z q * ulp)%Q in
  let up := (down + ulp)%Q in
  let okdown := Qltb lo down || (inclusive && Qeq_bool lo down) in
  let okup := Qltb up hi || (inclusive && Qeq_bool up hi) in
  match okdown, okup with
  | true, true =>
      match ((v - down) ?= (up - v))%Q with
      | Lt => Some down
      | Gt => Some up
      | Eq => Some (if Z.even q then down else up)
      end
  | true, false => Some down
  | false, true => Some up
  | false, false => None
  end.

Fixpoint shortestFrom (fuel : nat) (v lo hi : Q) (inclusive : bool) (k n : Z) : Q :=
  match fuel with
  | O => v
  | S fuel' =>
      match tryDigits v lo hi inclusive k n with
      | Some d => d
      | None => shortestFrom fuel' v lo hi inclusive k (n + 1)
      end
  end.

Definition shortest (m e : Z) : Q :=
  let v := exact m e in
  let hi := exact (2 * m + 1) (e - 1) in
  let lo := if (m =? 2 ^ 52) && (-1074 <? e) then exact (4 * m - 1) (e - 2)
            else exact (2 * m - 1) (e - 1) in
  shortestFrom 17 v lo hi (Z.even m) (decimalExponent m e) 1.

Definition NewFromFloat (x : float) : option Decimal :=
  match Prim2SF x with
  | S754_zero _ => Some Zero
  | S754_finite s m e =>
      let d := Qred (shortest (Z.pos m) e) in
      Some (if s then (- d)%Q else d)
  | _ => None
  end.

End decimal.

Abbreviation Decimal := decimal.Decimal.

(** ** service/recorder: the trade ledger *)

Module Ledger.

Inductive TradeAction :=
| ActionCharge
| ActionDischarge
| ActionOther. (* any other string read back from the trade file *)

Record Trade := {
  Timestamp : Time;
  Action : TradeAction;
  PriceEUR : Decimal;   (* EUR/kWh *)
  PowerW : Z;
  DurationS : Z;
  EnergyKWh : Decimal;
  StartSOC : Z;
  EndSOC : Z
}.

(** [Date] is the day the key ["2006-01-02"] denotes, see [time.civilDay]. *)
Record DailySummary := {
  Date : Z;
  ChargedKWh : Decimal;
  DischargedKWh : Decimal;
  ChargeCycles : Z;
  DischargeCycles : Z;
  PnLEUR : Decimal;
  AvgChargePrice : Decimal;
  MinChargePrice : Decimal;
  AvgDischargePrice : Decimal;
  MaxDischargePrice : Decimal;
  Trades : list Trade
}.

Record History := {
  Days : list DailySummary;
  TotalPnL : Decimal;
  TotalDays : Z;
  FirstTrade : option Time;
  LastTrade : option Time
}.

Record Recorder := {
  efficiency : Decimal;
  trades : list Trade;
  loc : time.Location
}.

(** [RecordTrade]: the trade joins the in-memory list; writing the file is
    I/O whose failure the engine only logs. *)
Definition RecordTrade (r : Recorder) (trade : Trade) : Recorder :=
  {| efficiency := r.(efficiency); trades := r.(trades) ++ [trade]; loc := r.(loc) |}.

(** [t.Timestamp.Format("2006-01-02")]. *)
Definition dayKey (t : Trade) : Z := time.civilDay t.(Timestamp).

(** The map [dayTrades] after the grouping loop. *)
Definition groupByDay (ts : list Trade) : gmap Z (list Trade) :=
  fold_left (fun (m : gmap Z (list Trade)) t =>
               <[dayKey t := default [] (m !! dayKey t) ++ [t]]> m) ts ∅.

(** The accumulators of the per-day loop. *)
Record DayAcc := {
  chargedKWh : Decimal;
  dischargedKWh : Decimal;
  chargeCost : Decimal;
  dischargeRevenue : Decimal;
  chargeCycles : Z;
  dischargeCycles : Z;
  minChargePrice : Decimal;
  maxDischargePrice : Decimal
}.

Definition accInit : DayAcc :=
  {| chargedKWh := decimal.Zero; dischargedKWh := decimal.Zero;
     chargeCost := decimal.Zero; dischargeRevenue := decimal.Zero;
     chargeCycles := 0; dischargeCycles := 0;
     minChargePrice := decimal.Zero; maxDischargePrice := decimal.Zero |}.

Definition accStep (a : DayAcc) (t : Trade) : DayAcc :=
  match t.(Action) with
  | ActionCharge =>
      {| chargedKWh := decimal.Add a.(chargedKWh) t.(EnergyKWh);
         dischargedKWh := a.(dischargedKWh);
         chargeCost := decimal.Add a.(chargeCost) (decimal.Mul t.(PriceEUR) t.(EnergyKWh));
         dischargeRevenue := a.(dischargeRevenue);
         chargeCycles := a.(chargeCycles) + 1;
         dischargeCycles := a.(dischargeCycles);
         minChargePrice :=
           if decimal.IsZero a.(minChargePrice)
              || decimal.LessThan t.(PriceEUR) a.(minChargePrice)
           then t.(PriceEUR) else a.(minChargePrice);
         maxDischargePrice := a.(maxDischargePrice) |}
  | ActionDischarge =>
      {| chargedKWh := a.(chargedKWh);
         dischargedKWh := decimal.Add a.(dischargedKWh) t.(EnergyKWh);
         chargeCost := a.(chargeCost);
         dischargeRevenue := decimal.Add a.(dischargeRevenue) (decimal.Mul t.(PriceEUR) t.(EnergyKWh));
         chargeCycles := a.(chargeCycles);
         dischargeCycles := a.(dischargeCycles) + 1;
         minChargePrice := a.(minChargePrice);
         maxDischargePrice :=
           if decimal.GreaterThan t.(PriceEUR) a.(maxDischargePrice)
           then t.(PriceEUR) else a.(maxDischargePrice) |}
  | ActionOther => a
  end.

(** The body of the loop over [dayTrades]: the summary of one day. *)
Definition summarize (key : Z) (ts : list Trade) : DailySummary :=
  let a := fold_left accStep ts accInit in
  let avgChargePrice :=
    if negb (decimal.IsZero a.(chargedKWh))
    then decimal.Div a.(chargeCost) a.(chargedKWh) else decimal.Zero in
  let avgDischargePrice :=
    if negb (decimal.IsZero a.(dischargedKWh))
    then decimal.Div a.(dischargeRevenue) a.(dischargedKWh) else decimal.Zero in
  let pnl := decimal.Sub a.(dischargeRevenue) a.(chargeCost) in
  {| Date := key;
     ChargedKWh := a.(chargedKWh);
     DischargedKWh := a.(dischargedKWh);
     ChargeCycles := a.(chargeCycles);
     DischargeCycles := a.(dischargeCycles);
     PnLEUR := pnl;
     AvgChargePrice := avgChargePrice;
     MinChargePrice := a.(minChargePrice);
     AvgDischargePrice := avgDischargePrice;
     MaxDischargePrice := a.(maxDischargePrice);
     Trades := ts |}.

(** The exchange sort that orders the days by date, latest first:
    [if days[j].Date > days[i].Date { swap }] for every [i < j]. *)
Definition swapIfLater (i j : nat) (days : list DailySummary) : list DailySummary :=
  match days !! i, days !! j with
  | Some di, Some dj =>
      if di.(Date) <? dj.(Date) then <[i := dj]> (<[j := di]> days) else days
  | _, _ => days
  end.

Definition sortDays (days : list DailySummary) : list DailySummary :=
  let n := length days in
  fold_left (fun ds i =>
               fold_left (fun ds j => swapIfLater i j ds) (seq (i + 1) (n - (i + 1))) ds)
            (seq 0 (n - 1)) days.

Definition firstTradeOf (ts : list Trade) : Time :=
  fold_left (fun first t =>
               if time.IsZero first || time.Before t.(Timestamp) first
               then t.(Timestamp) else first) ts time.zero.

Definition lastTradeOf (ts : list Trade) : Time :=
  fold_left (fun last t =>
               if time.IsZero last || time.After t.(Timestamp) last
               then t.(Timestamp) else last) ts time.zero.

(** [GetHistory]. Go ranges over [dayTrades] in an unspecified order; the
    model ranges in the order of [map_to_list]. The keys are distinct, so
    the sorted list of days does not depend on that order, and [TotalPnL]
    is an exact sum. *)
Definition GetHistory (r : Recorder) : History :=
  if len r.(trades) =? 0
  then {| Days := []; TotalPnL := decimal.Zero; TotalDays := 0;
          FirstTrade := None; LastTrade := None |}
  else
    let dayTrades := groupByDay r.(trades) in
    let days := map (fun kv => summarize kv.1 kv.2) (map_to_list dayTrades) in
    let totalPnL :=
      fold_left (fun acc d => decimal.Add acc d.(PnLEUR)) days decimal.Zero in
    let days := sortDays days in
    {| Days := days; TotalPnL := totalPnL; TotalDays := len days;
       FirstTrade := Some (firstTradeOf r.(trades));
       LastTrade := Some (lastTradeOf r.(trades)) |}.

(** [GetTodaySummary], with [time.Now()] as an argument. *)
Definition GetTodaySummary (r : Recorder) (now : Time) : DailySummary :=
  let history := GetHistory r in
  let today := time.civilDay (time.In now r.(loc)) in
  match find (fun day => day.(Date) =? today) history.(Days) with
  | Some day => day
  | None => summarize today []
  end.

Definition totalsStep (acc : Decimal * Decimal) (t : Trade) : Decimal * Decimal :=
  let '(totalRevenue, totalCost) := acc in
  match t.(Action) with
  | ActionCharge =>
      (totalRevenue, decimal.Add totalCost (decimal.Mul t.(PriceEUR) t.(EnergyKWh)))
  | ActionDischarge =>
      (decimal.Add totalRevenue (decimal.Mul t.(PriceEUR) t.(EnergyKWh)), totalCost)
  | ActionOther => acc
  end.

(** [GetTotalPnL]. *)
Definition GetTotalPnL (r : Recorder) : Decimal :=
  let '(totalRevenue, totalCost) :=
    fold_left totalsStep r.(trades) (decimal.Zero, decimal.Zero) in
  decimal.Sub totalRevenue totalCost.

(** [GetLastChargeTrade]. *)
Definition GetLastChargeTrade (r : Recorder) : option Trade :=
  find (fun t => match t.(Action) with ActionCharge => true | _ => false end)
       (rev r.(trades)).

End Ledger.

(** ** service/service.go: the trading engine *)

Module Engine.
Import Ledger.

Inductive State := StateIdle | StateCharging | StateDischarging.

Definition State_eqb (a b : State) : bool :=
  match a, b with
  | StateIdle, StateIdle | StateCharging, StateCharging
  | StateDischarging, StateDischarging => true
  | _, _ => false
  end.

(** The fields of [config.Config] the engine reads. *)
Record Config := {
  MinPriceSpread : float;
  BatteryEfficiency : float;
  BatteryCapacityKWh : float;
  BatteryMinSOC : float;
  MaxCyclesPerDay : Z;
  ChargePowerW : Z;
  DischargePowerW : Z;
  PassiveModeTimeoutS : Z
}.

(** [marstek.BatteryStatus], the fields the engine reads. *)
Record BatteryStatus := {
  SOC : Z;
  ChargingFlag : bool;
  DischargFlag : bool
}.

(** Calls the engine makes on its [BatteryController]. *)
Inductive Command :=
| Charge (powerW timeoutS : Z)
| Discharge (powerW timeoutS : Z)
| SetPassiveMode (power cdTime : Z)
| Idle.

(** What the outside world answers during one tick: the clock, the
    battery status ([None] when the query fails) and whether each command
    fails. A failing [Idle] is only logged. The tick is taken as
    instantaneous: every clock read in it returns the same instant. *)
Record Env := {
  clock : Time;      (* s.nowFunc() *)
  wallClock : Time;  (* time.Now() *)
  batteryStatus : option BatteryStatus;
  chargeFails : bool;
  dischargeFails : bool;
  passiveFails : bool
}.

Record Service := {
  cfg : Config;
  recorder : Recorder;
  sloc : time.Location;
  state : State;
  currentPlan : option TradingPlan;
  todayPrices : list Price;
  lastPassiveRefresh : Time;
  currentTradeStart : Time;
  currentTradePrice : Decimal;
  currentTradeSOC : Z;
  lastChargePrice : Decimal
}.

Definition withState (s : Service) (st : State) : Service :=
  {| cfg := s.(cfg); recorder := s.(recorder); sloc := s.(sloc); state := st;
     currentPlan := s.(currentPlan); todayPrices := s.(todayPrices);
     lastPassiveRefresh := s.(lastPassiveRefresh);
     currentTradeStart := s.(currentTradeStart);
     currentTradePrice := s.(currentTradePrice);
     currentTradeSOC := s.(currentTradeSOC);
     lastChargePrice := s.(lastChargePrice) |}.

(** [s.now()]. *)
Definition now (env : Env) (s : Service) : Time := time.In env.(clock) s.(sloc).

(** [time.Since(t)]. *)
Definition Since (env : Env) (t : Time) : time.Duration := time.Sub env.(wallClock) t.

Definition analyzerConfig (s : Service) : AnalyzerConfig :=
  Build_AnalyzerConfig
    s.(cfg).(BatteryEfficiency) s.(cfg).(MinPriceSpread)
    s.(cfg).(BatteryCapacityKWh) s.(cfg).(BatteryMinSOC)
    s.(cfg).(ChargePowerW) s.(cfg).(DischargePowerW) s.(cfg).(MaxCyclesPerDay).

(** One iteration of the loop of [calculateAveragePrice] over
    [(weightedSum, totalDuration)]. *)
Definition averageStep (start end_ : Time) (acc : float * time.Duration) (p : Price)
    : float * time.Duration :=
  let '(weightedSum, totalDuration) := acc in
  let slotEnd := time.Add p.(PTime) slot in
  if time.Before p.(PTime) end_ && time.After slotEnd start then
    let overlapStart := if time.After start p.(PTime) then start else p.(PTime) in
    let overlapEnd := if time.Before end_ slotEnd then end_ else slotEnd in
    let overlap := time.Sub overlapEnd overlapStart in
    if 0 <? overlap
    then ((weightedSum + p.(Value) * time.Seconds overlap)%float, totalDuration + overlap)
    else acc
  else acc.

(** [calculateAveragePrice]; [None] when [decimal.NewFromFloat] panics. *)
Definition calculateAveragePrice (s : Service) (start end_ : Time) : option Decimal :=
  if len s.(todayPrices) =? 0 then Some decimal.Zero
  else
    let '(weightedSum, totalDuration) :=
      fold_left (averageStep start end_) s.(todayPrices) (0%float, 0) in
    if totalDuration =? 0 then Some decimal.Zero
    else decimal.NewFromFloat (weightedSum / time.Seconds totalDuration)%float.

(** [isDischargeProfitiable]; [None] when the decimal library panics
    (an efficiency that is NaN, infinite or zero). *)
Definition isDischargeProfitiable (s : Service) (dischargePrice : Decimal) : option bool :=
  if decimal.IsZero s.(lastChargePrice) then Some false
  else
    efficiency ← decimal.NewFromFloat s.(cfg).(BatteryEfficiency);
    if decimal.IsZero efficiency then None
    else
      let breakEvenPrice := decimal.Div s.(lastChargePrice) efficiency in
      Some (decimal.GreaterThan dischargePrice breakEvenPrice).

(** [transitionToIdleLocked]. *)
Definition transitionToIdleLocked (s : Service) : Service * list Command :=
  (withState s StateIdle, [Idle]).

(** [startChargingLocked]. *)
Definition startChargingLocked (env : Env) (price : Decimal) (soc : Z) (s : Service)
    : Service * list Command :=
  let cmd := Charge s.(cfg).(ChargePowerW) s.(cfg).(PassiveModeTimeoutS) in
  if env.(chargeFails) then (s, [cmd])
  else
    ({| cfg := s.(cfg); recorder := s.(recorder); sloc := s.(sloc);
        state := StateCharging;
        currentPlan := s.(currentPlan); todayPrices := s.(todayPrices);
        lastPassiveRefresh := now env s;
        currentTradeStart := now env s;
        currentTradePrice := price;
        currentTradeSOC := soc;
        lastChargePrice := price |}, [cmd]).

(** [startDischargingLocked]. *)
Definition startDischargingLocked (env : Env) (price : Decimal) (soc : Z) (s : Service)
    : Service * list Command :=
  let cmd := Discharge s.(cfg).(DischargePowerW) s.(cfg).(PassiveModeTimeoutS) in
  if env.(dischargeFails) then (s, [cmd])
  else
    ({| cfg := s.(cfg); recorder := s.(recorder); sloc := s.(sloc);
        state := StateDischarging;
        currentPlan := s.(currentPlan); todayPrices := s.(todayPrices);
        lastPassiveRefresh := now env s;
        currentTradeStart := now env s;
        currentTradePrice := price;
        currentTradeSOC := soc;
        lastChargePrice := s.(lastChargePrice) |}, [cmd]).

(** The trade [stopChargingLocked] records; its price is the average
    price of the session, or the start price when that average is zero. *)
Definition chargeTrade (env : Env) (endSOC : Z) (s : Service) : option Trade :=
  let duration := time.Sub (now env s) s.(currentTradeStart) in
  energyKWh ← decimal.NewFromFloat
                (F64.of_int s.(cfg).(ChargePowerW) * time.Hours duration / 1000)%float;
  avgPrice ← calculateAveragePrice s s.(currentTradeStart) (now env s);
  let avgPrice := if decimal.IsZero avgPrice then s.(currentTradePrice) else avgPrice in
  Some {| Timestamp := s.(currentTradeStart);
          Action := ActionCharge;
          PriceEUR := avgPrice;
          PowerW := s.(cfg).(ChargePowerW);
          DurationS := F64.to_int (time.Seconds duration);
          EnergyKWh := energyKWh;
          StartSOC := s.(currentTradeSOC);
          EndSOC := endSOC |}.

Definition withLastChargePrice (s : Service) (price : Decimal) : Service :=
  {| cfg := s.(cfg); recorder := s.(recorder); sloc := s.(sloc); state := s.(state);
     currentPlan := s.(currentPlan); todayPrices := s.(todayPrices);
     lastPassiveRefresh := s.(lastPassiveRefresh);
     currentTradeStart := s.(currentTradeStart);
     currentTradePrice := s.(currentTradePrice);
     currentTradeSOC := s.(currentTradeSOC);
     lastChargePrice := price |}.

Definition withRecorder (s : Service) (r : Recorder) : Service :=
  {| cfg := s.(cfg); recorder := r; sloc := s.(sloc); state := s.(state);
     currentPlan := s.(currentPlan); todayPrices := s.(todayPrices);
     lastPassiveRefresh := s.(lastPassiveRefresh);
     currentTradeStart := s.(currentTradeStart);
     currentTradePrice := s.(currentTradePrice);
     currentTradeSOC := s.(currentTradeSOC);
     lastChargePrice := s.(lastChargePrice) |}.

(** [stopChargingLocked]: the cost basis becomes the price of the trade,
    the trade is recorded, the engine goes idle. *)
Definition stopChargingLocked (env : Env) (endSOC : Z) (s : Service)
    : option (Service * list Command) :=
  trade ← chargeTrade env endSOC s;
  let s := withLastChargePrice s trade.(PriceEUR) in
  let s := withRecorder s (RecordTrade s.(recorder) trade) in
  Some (transitionToIdleLocked s).

(** [stopDischargingLocked]. *)
Definition stopDischargingLocked (env : Env) (endSOC : Z) (s : Service)
    : option (Service * list Command) :=
  let duration := Since env s.(currentTradeStart) in
  energyKWh ← decimal.NewFromFloat
                (F64.of_int s.(cfg).(DischargePowerW) * time.Hours duration / 1000)%float;
  let trade := {| Timestamp := s.(currentTradeStart);
                  Action := ActionDischarge;
                  PriceEUR := s.(currentTradePrice);
                  PowerW := s.(cfg).(DischargePowerW);
                  DurationS := F64.to_int (time.Seconds duration);
                  EnergyKWh := energyKWh;
                  StartSOC := s.(currentTradeSOC);
                  EndSOC := endSOC |} in
  let s := withRecorder s (RecordTrade s.(recorder) trade) in
  Some (transitionToIdleLocked s).

(** [refreshPassiveModeLocked]. *)
Definition refreshPassiveModeLocked (env : Env) (power : Z) (s : Service)
    : Service * list Command :=
  let refreshThreshold :=
    F64.to_int (F64.of_int s.(cfg).(PassiveModeTimeoutS) * 0.8)%float * time.Second in
  if Since env s.(lastPassiveRefresh) <? refreshThreshold then (s, [])
  else
    let cmd := SetPassiveMode power s.(cfg).(PassiveModeTimeoutS) in
    if env.(passiveFails) then (s, [cmd])
    else
      ({| cfg := s.(cfg); recorder := s.(recorder); sloc := s.(sloc);
          state := s.(state);
          currentPlan := s.(currentPlan); todayPrices := s.(todayPrices);
          lastPassiveRefresh := env.(wallClock);
          currentTradeStart := s.(currentTradeStart);
          currentTradePrice := s.(currentTradePrice);
          currentTradeSOC := s.(currentTradeSOC);
          lastChargePrice := s.(lastChargePrice) |}, [cmd]).

(** [int(s.cfg.BatteryMinSOC * 100)]. *)
Definition minSOCOf (s : Service) : Z :=
  F64.to_int (s.(cfg).(BatteryMinSOC) * 100)%float.

(** The [StateIdle] case of [tick]. *)
Definition tickIdle (env : Env) (bat : BatteryStatus) (plan : TradingPlan)
    (currentPrice : Decimal) (s : Service) : option (Service * list Command) :=
  if IsInChargeWindow plan (now env s) then
    if 100 <=? bat.(SOC) then Some (s, [])
    else if negb bat.(ChargingFlag) then Some (s, [])
    else Some (startChargingLocked env currentPrice bat.(SOC) s)
  else if IsInDischargeWindow plan (now env s) then
    let minSOC := minSOCOf s in
    if bat.(SOC) <=? minSOC then Some (s, [])
    else if negb bat.(DischargFlag) then Some (s, [])
    else
      profitable ← isDischargeProfitiable s currentPrice;
      if negb profitable then
        (* the log line of this branch divides by the efficiency again *)
        efficiency ← decimal.NewFromFloat s.(cfg).(BatteryEfficiency);
        if decimal.IsZero efficiency then None else Some (s, [])
      else Some (startDischargingLocked env currentPrice bat.(SOC) s)
  else Some (s, []).

(** The [StateCharging] case of [tick]. *)
Definition tickCharging (env : Env) (bat : BatteryStatus) (plan : TradingPlan)
    (s : Service) : option (Service * list Command) :=
  if negb (IsInChargeWindow plan (now env s)) then stopChargingLocked env bat.(SOC) s
  else if 100 <=? bat.(SOC) then stopChargingLocked env bat.(SOC) s
  else Some (refreshPassiveModeLocked env (- s.(cfg).(ChargePowerW)) s).

(** The [StateDischarging] case of [tick]. *)
Definition tickDischarging (env : Env) (bat : BatteryStatus) (plan : TradingPlan)
    (s : Service) : option (Service * list Command) :=
  let minSOC := minSOCOf s in
  if negb (IsInDischargeWindow plan (now env s)) then stopDischargingLocked env bat.(SOC) s
  else if bat.(SOC) <=? minSOC then stopDischargingLocked env bat.(SOC) s
  else Some (refreshPassiveModeLocked env s.(cfg).(DischargePowerW) s).

(** The plan [tick] trades on: [s.currentPlan] unless it is nil or
    [ShouldTrade] is false. *)
Definition planTrades (s : Service) : option TradingPlan :=
  match s.(currentPlan) with
  | Some plan => if ShouldTrade plan then Some plan else None
  | None => None
  end.

(** [tick]: the new engine state and the commands sent to the battery, in
    order; [None] when the tick panics, which happens before any command
    is sent. *)
Definition tick (env : Env) (s : Service) : option (Service * list Command) :=
  match env.(batteryStatus) with
  | None => Some (s, [])
  | Some batStatus =>
      match planTrades s with
      | None =>
          if negb (State_eqb s.(state) StateIdle)
          then Some (transitionToIdleLocked s) else Some (s, [])
      | Some plan =>
          match GetCurrentPrice s.(todayPrices) (now env s) with
          | (_, false) => Some (s, [])
          | (currentPriceF, true) =>
              currentPrice ← decimal.NewFromFloat currentPriceF;
              match s.(state) with
              | StateIdle => tickIdle env batStatus plan currentPrice s
              | StateCharging => tickCharging env batStatus plan s
              | StateDischarging => tickDischarging env batStatus plan s
              end
          end
      end
  end.

(** A command that makes the battery take energy: [Charge], or the passive
    mode refresh with a negative power (negative = charge). *)
Definition isChargeCommand (c : Command) : bool :=
  match c with
  | Charge _ _ => true
  | SetPassiveMode power _ => power <? 0
  | _ => false
  end.

(** A command that makes the battery give energy. *)
Definition isDischargeCommand (c : Command) : bool :=
  match c with
  | Discharge _ _ => true
  | SetPassiveMode power _ => 0 <? power
  | _ => false
  end.

(** Test fixtures of the engine tests. *)
Definition testConfig : Config :=
  {| MinPriceSpread := 0.05; BatteryEfficiency := 0.90; BatteryCapacityKWh := 5.12;
     BatteryMinSOC := 0.11; MaxCyclesPerDay := 2; ChargePowerW := 2500;
     DischargePowerW := 2500; PassiveModeTimeoutS := 300 |}.

Definition testConfigSmallBattery : Config :=
  {| MinPriceSpread := 0.05; BatteryEfficiency := 0.90; BatteryCapacityKWh := 0.5;
     BatteryMinSOC := 0.11; MaxCyclesPerDay := 2; ChargePowerW := 2000;
     DischargePowerW := 2000; PassiveModeTimeoutS := 300 |}.

Definition NewRecorder (efficiency : Decimal) (loc : time.Location) : Recorder :=
  {| Ledger.efficiency := efficiency; trades := []; loc := loc |}.

Definition protoService (config : Config) (prices : list Price) : Service :=
  {| cfg := config;
     recorder := NewRecorder (default decimal.Zero (decimal.NewFromFloat config.(BatteryEfficiency))) time.UTC;
     sloc := time.UTC; state := StateIdle; currentPlan := None;
     todayPrices := prices;
     lastPassiveRefresh := time.zero; currentTradeStart := time.zero;
     currentTradePrice := decimal.Zero; currentTradeSOC := 0;
     lastChargePrice := decimal.Zero |}.

Definition withPlan (s : Service) (plan : option TradingPlan) : Service :=
  {| cfg := s.(cfg); recorder := s.(recorder); sloc := s.(sloc); state := s.(state);
     currentPlan := plan;
     todayPrices := s.(todayPrices);
     lastPassiveRefresh := s.(lastPassiveRefresh);
     currentTradeStart := s.(currentTradeStart);
     currentTradePrice := s.(currentTradePrice);
     currentTradeSOC := s.(currentTradeSOC);
     lastChargePrice := s.(lastChargePrice) |}.

(** [newTestService]. *)
Definition newTestService (config : Config) (prices : list Price) : Service :=
  let s := protoService config prices in
  withPlan s (Some (AnalyzePrices prices (analyzerConfig s))).

Definition envAt (t : Time) (soc : Z) : Env :=
  {| clock := t; wallClock := t;
     batteryStatus := Some {| SOC := soc; ChargingFlag := true; DischargFlag := true |};
     chargeFails := false; dischargeFails := false; passiveFails := false |}.

End Engine.


(** ** service/service.go: prices and plans over the days *)

Module Scheduler.
Import Ledger Engine.

(** The engine together with the fields [checkPriceFetch] works on:
    [tomorrowPrices] and [lastMidnightSwap]. *)
Record Scheduler := {
  svc : Service;
  tomorrowPrices : list Price;
  lastMidnightSwap : Time
}.

(** What the price provider answers during one call; [None] is an error. *)
Record Provider := {
  FetchTodayPrices : option (list Price);
  FetchTomorrowPrices : option (list Price)
}.

(** The engine with [todayPrices] and [currentPlan] replaced. *)
Definition withPrices (s : Service) (prices : list Price) (plan : TradingPlan) : Service :=
  {| cfg := s.(cfg); recorder := s.(recorder); sloc := s.(sloc); state := s.(state);
     currentPlan := Some plan; todayPrices := prices;
     lastPassiveRefresh := s.(lastPassiveRefresh);
     currentTradeStart := s.(currentTradeStart);
     currentTradePrice := s.(currentTradePrice);
     currentTradeSOC := s.(currentTradeSOC);
     lastChargePrice := s.(lastChargePrice) |}.

(** The slots [fetchTodayPrices] analyses: those that have not ended
    before [now]. *)
Definition futurePrices (now : Time) (prices : list Price) : list Price :=
  List.filter (fun p => negb (time.Before (time.Add p.(PTime) slot) now)) prices.

(** [fetchTodayPrices]: the scheduler after the call and whether the call
    succeeded. *)
Definition fetchTodayPrices (env : Env) (np : Provider) (sch : Scheduler)
    : Scheduler * bool :=
  match np.(FetchTodayPrices) with
  | None => (sch, false)
  | Some prices =>
      let now := now env sch.(svc) in
      let future := futurePrices now prices in
      ({| svc := withPrices sch.(svc) prices
                   (AnalyzePrices future (analyzerConfig sch.(svc)));
          tomorrowPrices := sch.(tomorrowPrices);
          lastMidnightSwap := sch.(lastMidnightSwap) |}, true)
  end.

(** [fetchTomorrowPrices]. *)
Definition fetchTomorrowPrices (np : Provider) (sch : Scheduler) : Scheduler * bool :=
  match np.(FetchTomorrowPrices) with
  | None => (sch, false)
  | Some prices =>
      ({| svc := sch.(svc); tomorrowPrices := prices;
          lastMidnightSwap := sch.(lastMidnightSwap) |}, true)
  end.

(** [checkPriceFetch]. Errors of the provider are logged and notified,
    nothing else. *)
Definition checkPriceFetch (env : Env) (np : Provider) (sch : Scheduler) : Scheduler :=
  let now := now env sch.(svc) in
  let sch :=
    if (time.hourOf now =? 13) && (len sch.(tomorrowPrices) =? 0)
    then fst (fetchTomorrowPrices np sch) else sch in
  let today := time.Truncate now (24 * time.Hour) in
  let alreadySwappedToday :=
    time.Equal (time.Truncate sch.(lastMidnightSwap) (24 * time.Hour)) today in
  if (time.hourOf now =? 0) && (time.minuteOf now <? 15) && negb alreadySwappedToday
  then
    if 0 <? len sch.(tomorrowPrices) then
      let todayPrices := sch.(tomorrowPrices) in
      {| svc := withPrices sch.(svc) todayPrices
                  (AnalyzePrices todayPrices (analyzerConfig sch.(svc)));
         tomorrowPrices := [];
         lastMidnightSwap := now |}
    else
      fst (fetchTodayPrices env np
             {| svc := sch.(svc); tomorrowPrices := sch.(tomorrowPrices);
                lastMidnightSwap := now |})
  else sch.

(** The lines of [Start] that restore the cost basis from the ledger. *)
Definition restoreLastChargePrice (s : Service) : Service :=
  match GetLastChargeTrade s.(recorder) with
  | Some lastCharge => withLastChargePrice s lastCharge.(PriceEUR)
  | None => s
  end.

(** [Start] from the point where the trades are loaded up to the main
    loop, for a battery that connects: the cost basis is restored, today's
    and tomorrow's prices are fetched. *)
Definition Start (env : Env) (np : Provider) (sch : Scheduler) : Scheduler :=
  let sch := {| svc := restoreLastChargePrice sch.(svc);
                tomorrowPrices := sch.(tomorrowPrices);
                lastMidnightSwap := sch.(lastMidnightSwap) |} in
  let sch := fst (fetchTodayPrices env np sch) in
  fst (fetchTomorrowPrices np sch).

End Scheduler.
(** * Vocabulary of the properties *)

(** A price list made of contiguous 15-minute slots, in time order. *)
Fixpoint contiguous (l : list Price) : bool :=
  match l with
  | p :: (q :: _) as rest =>
      (time.unixNano q.(PTime) =? time.unixNano p.(PTime) + slot) && contiguous rest
  | _ => true
  end.

Definition startsAt (w : TimeWindow) : Z := time.unixNano w.(Start).
Definition endsAt (w : TimeWindow) : Z := time.unixNano w.(End_).

(** Both windows of a cycle are proper intervals and the charge window ends
    no later than the discharge window starts. *)
Definition cycleOrdered (c : TradeCycle) : Prop :=
  startsAt c.(ChargeWindow) < endsAt c.(ChargeWindow)
  /\ endsAt c.(ChargeWindow) <= startsAt c.(DischargeWindow)
  /\ startsAt c.(DischargeWindow) < endsAt c.(DischargeWindow).

(** Every cycle starts charging at or after the end of the discharge window
    of the cycle before it. *)
Definition chained (cycles : list TradeCycle) : Prop :=
  forall (i : nat) c d,
    cycles !! i = Some c -> cycles !! S i = Some d ->
    endsAt c.(DischargeWindow) <= startsAt d.(ChargeWindow).

(** The window sum the sliding loop of [findBestWindow] holds when it looks
    at the window starting at [i], and the average it derives from it. *)
Definition slidingSum (prices : list Price) (startIdx windowSize i : Z) : float :=
  forZ (Z.to_nat (i - startIdx)) (startIdx + 1)
       (fun j sum => (sum - (nthZ prices (j - 1)).(Value)
                          + (nthZ prices (j + windowSize - 1)).(Value))%float)
       (windowSum prices startIdx windowSize).

Definition slidingAverage (prices : list Price) (startIdx windowSize i : Z) : float :=
  (slidingSum prices startIdx windowSize i / F64.of_int windowSize)%float.

(** What the sliding loop knows when it is about to look at window [j]. *)
Definition slideInv (prices : list Price) (s w j : Z) (st : SlideState) : Prop :=
  st.(slSum) = slidingSum prices s w (j - 1)
  /\ (forall i, s <= i < j ->
        (st.(slBestAvg) <? slidingAverage prices s w i)%float = false)
  /\ ((st.(slBestStart) = -1 /\ st.(slBestAvg) = PrimFloat.opp F64.MaxFloat64)
      \/ (s <= st.(slBestStart) < j
          /\ st.(slBestAvg) = slidingAverage prices s w st.(slBestStart)
          /\ forall i, s <= i < st.(slBestStart) ->
               (st.(slBestAvg) <=? slidingAverage prices s w i)%float = false)).


(** What the loop of [findBestCycle] knows when it is about to look at the
    charge window starting at [j], having started at [s]. *)
Definition bestInv (cand : Z -> option (float * TradeCycle)) (s j : Z)
    (st : BestState) : Prop :=
  (forall i p c, s <= i < j -> cand i = Some (p, c) ->
     (st.(bsProfit) <? p)%float = false)
  /\ ((st.(bsFound) = false /\ st = bestInit)
      \/ (st.(bsFound) = true
          /\ exists k, s <= k < j
               /\ cand k = Some (st.(bsProfit), st.(bsCycle))
               /\ forall i p c, s <= i < k -> cand i = Some (p, c) ->
                    (st.(bsProfit) <=? p)%float = false)).

(** The cycles are ordered one after the other, the first not before [lo]. *)
Fixpoint orderedFrom (lo : Z) (cycles : list TradeCycle) : Prop :=
  match cycles with
  | [] => True
  | c :: rest =>
      lo <= startsAt c.(ChargeWindow) /\ cycleOrdered c
      /\ orderedFrom (endsAt c.(DischargeWindow)) rest
  end.

(** The end of the last discharge window, [lo] when there is no cycle. *)
Definition lastEnd (lo : Z) (cycles : list TradeCycle) : Z :=
  fold_left (fun _ c => endsAt c.(DischargeWindow)) cycles lo.

(** *** Window means and the pairs of a round, from the words of the
    specification *)

(** The prices of the window of [n] slots at index [i]. *)
Definition windowValues (prices : list Price) (i n : Z) : list float :=
  map Value (firstn (Z.to_nat n) (skipn (Z.to_nat i) prices)).

(** A float sum, accumulated from zero in list order. *)
Definition floatSum (vs : list float) : float := fold_left PrimFloat.add vs 0%float.

(** The mean price of a window: the sum of its prices over their number. *)
Definition meanOf (prices : list Price) (i n : Z) : float :=
  (floatSum (windowValues prices i n) / F64.of_int n)%float.

(** The running sum of the sliding-sum technique over the windows of [n]
    slots from index [lo] on, after [k] shifts: the sum of the first
    window, then at every shift the price that leaves subtracted and the
    price that enters added. *)
Fixpoint runningSum (prices : list Price) (n lo : Z) (k : nat) : float :=
  match k with
  | O => floatSum (windowValues prices lo n)
  | S k' => (runningSum prices n lo k'
             - (nthZ prices (lo + Z.of_nat k')).(Value)
             + (nthZ prices (lo + Z.of_nat k' + n)).(Value))%float
  end.

(** The running average of the window at [j], slid to from [lo]. *)
Definition runningMean (prices : list Price) (n lo j : Z) : float :=
  (runningSum prices n lo (Z.to_nat (j - lo)) / F64.of_int n)%float.

(** The discharge mean of the window at [ds] for the charge window of [cw]
    slots at [cs]: the running average slid to from the end of the charge
    window. *)
Definition dischargeMean (prices : list Price) (cw dw cs ds : Z) : float :=
  runningMean prices dw (cs + cw) ds.

(** The discharge window considered for the charge window at [cs]: it
    starts at or after the end of the charge window and fits the list, its
    discharge mean is above [-MaxFloat64], strictly above that of every
    window to its left and not below that of any window to its right. *)
Definition consideredDischarge (prices : list Price) (cw dw cs ds : Z) : Prop :=
  cs + cw <= ds /\ ds + dw <= len prices
  /\ (PrimFloat.opp F64.MaxFloat64 <? dischargeMean prices cw dw cs ds)%float = true
  /\ (forall j, cs + cw <= j < ds ->
        (dischargeMean prices cw dw cs ds <=? dischargeMean prices cw dw cs j)%float = false)
  /\ (forall j, ds <= j -> j + dw <= len prices ->
        (dischargeMean prices cw dw cs ds <? dischargeMean prices cw dw cs j)%float = false).

(** [profit = discharge_mean * efficiency - charge_mean]. *)
Definition pairProfit (prices : list Price) (cw dw : Z) (eff : float) (cs ds : Z) : float :=
  (dischargeMean prices cw dw cs ds * eff - meanOf prices cs cw)%float.

(** The pair of the charge window at [cs] and the discharge window at [ds]
    is offered to the round: [ds] is the discharge window considered for
    [cs] and the pair passes the qualification test. *)
Definition offered (prices : list Price) (cw dw : Z) (eff ms : float) (cs ds : Z) : Prop :=
  consideredDischarge prices cw dw cs ds
  /\ qualifies eff ms (meanOf prices cs cw) (dischargeMean prices cw dw cs ds) = true.

(** The cycle of a pair: each window from the start of its first slot to
    the end of its last, priced at its mean. *)
Definition pairCycle (prices : list Price) (cw dw : Z) (eff : float) (cs ds : Z)
    : TradeCycle :=
  {| ChargeWindow :=
       {| Start := (nthZ prices cs).(PTime);
          End_ := time.Add (nthZ prices (cs + cw - 1)).(PTime) (15 * time.Minute);
          WPrice := meanOf prices cs cw |};
     DischargeWindow :=
       {| Start := (nthZ prices ds).(PTime);
          End_ := time.Add (nthZ prices (ds + dw - 1)).(PTime) (15 * time.Minute);
          WPrice := dischargeMean prices cw dw cs ds |};
     Profit := pairProfit prices cw dw eff cs ds |}.

(** *** The date of a plan

    The wall clock of [t] in the location it carries, in nanoseconds since
    1970-01-01 00:00 of that location. *)
Definition localNanos (t : Time) : Z :=
  time.unixNano t + time.zoneOffset (time.location t) * time.Second.

(** [d] is the start of the calendar day of [t]: it carries the location of
    [t], its wall clock reads 00:00:00, and [t] lies in the 24 hours that
    start at [d]. *)
Definition midnightOf (t d : Time) : Prop :=
  time.location d = time.location t
  /\ localNanos d mod time.Day = 0
  /\ localNanos d <= localNanos t < localNanos d + time.Day.

(** ** Fixtures *)

(** Six slots with alternating low and high prices, as in
    [TestAnalyzePrices_SmallWindow]. *)
Definition prices6 : list Price :=
  makePrices baseTime [0.05; 0.20; 0.06; 0.18; 0.04; 0.22]%float.

(** Seven slots in which the windows of two slots at 00:45 and 01:00 hold
    the same two prices, 0.15 and 0.30. *)
Definition pricesTie : list Price :=
  makePrices baseTime [0; 0; 0.05; 0.15; 0.3; 0.15; 0.05]%float.

(** A battery of 1 kWh at 2000 W for the analyzer: windows of two slots. *)
Definition twoSlotAnalyzer : AnalyzerConfig :=
  {| Efficiency := 0.90; MinPriceSpread := 0.05; BatteryCapacityKWh := 1.0;
     BatteryMinSOC := 0.11; ChargePowerW := 2000; DischargePowerW := 2000;
     MaxCyclesPerDay := 2 |}.

(** Four slots, as in [TestAnalyzePrices_ShortPriceList]. *)
Definition prices4short : list Price :=
  makePrices baseTime [0.05; 0.06; 0.15; 0.20]%float.

(** Four slots from 22:30 on 2024-01-15 at UTC+1. *)
Definition eveningCET : Time :=
  {| time.unixNano := 1705354200 * time.Second; time.location := time.FixedZone 3600 |}.

Definition pricesEvening : list Price :=
  makePrices eveningCET [0.05; 0.06; 0.15; 0.20]%float.

(** The small-window configuration with the cycle limit left unset. *)
Definition unsetMaxConfig : AnalyzerConfig :=
  {| Efficiency := 0.90; MinPriceSpread := 0.01; BatteryCapacityKWh := 0.5;
     BatteryMinSOC := 0.0; ChargePowerW := 2000; DischargePowerW := 2000;
     MaxCyclesPerDay := 0 |}.

(** Engine fixtures: a service with efficiency 0.90 whose cost basis is
    [lastCharge]. *)
Definition serviceWithCostBasis (lastCharge : Decimal) : Engine.Service :=
  Engine.withLastChargePrice (Engine.protoService Engine.testConfig []) lastCharge.

(** A battery of 1 kWh at 2000 W: windows of two slots. *)
Definition twoSlotConfig : Engine.Config :=
  {| Engine.MinPriceSpread := 0.05; Engine.BatteryEfficiency := 0.90;
     Engine.BatteryCapacityKWh := 1.0; Engine.BatteryMinSOC := 0.11;
     Engine.MaxCyclesPerDay := 2; Engine.ChargePowerW := 2000;
     Engine.DischargePowerW := 2000; Engine.PassiveModeTimeoutS := 300 |}.

(** Prices with the 00:15 slot missing: 00:00, 00:30, 00:45, 01:00. *)
Definition gapPrices : list Price :=
  [ {| PTime := baseTime; Value := 0.05 |};
    {| PTime := time.Add baseTime (2 * slot); Value := 0.05 |};
    {| PTime := time.Add baseTime (3 * slot); Value := 0.25 |};
    {| PTime := time.Add baseTime (4 * slot); Value := 0.25 |} ].

(** Prices whose first two slots average to zero. *)
Definition zeroMeanPrices : list Price :=
  makePrices baseTime [-0.01; 0.01; 0.25; 0.25]%float.

(** Prices whose first two slots differ: 0.05 and 0.07. *)
Definition risingPrices : list Price :=
  makePrices baseTime [0.05; 0.07; 0.25; 0.25]%float.

(** The engine state after a tick that does not panic. *)
Definition after (r : option (Engine.Service * list Engine.Command)) : Engine.Service :=
  match r with
  | Some (s, _) => s
  | None => Engine.protoService Engine.testConfig []
  end.

(** *** The time-weighted average, from the words of the specification

    Every slot is weighted by the time it shares with the session
    [start, end]. *)
Definition overlapWith (start end_ : Time) (p : Price) : time.Duration :=
  Z.max 0 (Z.min (time.unixNano end_) (time.unixNano p.(PTime) + slot)
           - Z.max (time.unixNano start) (time.unixNano p.(PTime))).

Definition timeWeightedAverage (prices : list Price) (start end_ : Time)
    : option Decimal :=
  let shared := filter (fun p => 0 < overlapWith start end_ p) prices in
  let weighted :=
    fold_left (fun sum p => (sum + p.(Value) * time.Seconds (overlapWith start end_ p))%float)
              shared 0%float in
  let total := fold_left (fun sum p => sum + overlapWith start end_ p) shared 0 in
  if total =? 0 then Some decimal.Zero
  else decimal.NewFromFloat (weighted / time.Seconds total)%float.

(** The engine of [twoSlotConfig] on [gapPrices] after its first tick, at
    00:00 with the battery at 50%. *)
Definition gapCharging : Engine.Service :=
  after (Engine.tick (Engine.envAt baseTime 50)
                     (Engine.newTestService twoSlotConfig gapPrices)).

(** The engine of [twoSlotConfig] on [zeroMeanPrices] after its first tick,
    at 00:00:30 with the battery at 50%. *)
Definition zeroMeanCharging : Engine.Service :=
  after (Engine.tick (Engine.envAt (time.Add baseTime (30 * time.Second)) 50)
                     (Engine.newTestService twoSlotConfig zeroMeanPrices)).

(** The engine of [twoSlotConfig] on [risingPrices] after its first tick,
    at 00:00 with the battery at 50%. *)
Definition risingCharging : Engine.Service :=
  after (Engine.tick (Engine.envAt baseTime 50)
                     (Engine.newTestService twoSlotConfig risingPrices)).

(** The four slots of the engine tests and the engine they start from. *)
Definition prices4 : list Price :=
  makePrices baseTime [0.05; 0.15; 0.25; 0.10]%float.

Definition smallService : Engine.Service :=
  Engine.newTestService Engine.testConfigSmallBattery prices4.

(** *** The configured floor

    A minimum state of charge configured as the whole percentage [P]: the
    configuration value is the float64 nearest to [P / 100], which is what
    the quotient of the two integers rounds to. *)
Definition percentFraction (P : Z) : float := (F64.of_int P / 100)%float.

(** The percentages for which [int(fraction * 100)] is one less than the
    percentage configured: the product rounds just below the integer. *)
Definition truncatesShort (P : Z) : bool := (P =? 29) || (P =? 57) || (P =? 58).

(** The small battery with the floor configured at 29%, its plan on
    [prices4] (charge at 00:00, discharge at 00:30) and a cost basis of
    0.05. *)
Definition floor29Config : Engine.Config :=
  {| Engine.MinPriceSpread := 0.05; Engine.BatteryEfficiency := 0.90;
     Engine.BatteryCapacityKWh := 0.5; Engine.BatteryMinSOC := 0.29;
     Engine.MaxCyclesPerDay := 2; Engine.ChargePowerW := 2000;
     Engine.DischargePowerW := 2000; Engine.PassiveModeTimeoutS := 300 |}.

Definition floor29Service : Engine.Service :=
  Engine.withLastChargePrice (Engine.newTestService floor29Config prices4) (5 # 100)%Q.

(** The small battery of the engine tests (floor 11%) with a cost basis of
    0.05. *)
Definition smallServiceCharged : Engine.Service :=
  Engine.withLastChargePrice smallService (5 # 100)%Q.

(** ** Ledger vocabulary *)

Definition isCharge (t : Ledger.Trade) : bool :=
  match t.(Ledger.Action) with Ledger.ActionCharge => true | _ => false end.

Definition isDischarge (t : Ledger.Trade) : bool :=
  match t.(Ledger.Action) with Ledger.ActionDischarge => true | _ => false end.

(** What a trade cost or earned: price times energy. *)
Definition tradeValue (t : Ledger.Trade) : Decimal :=
  decimal.Mul t.(Ledger.PriceEUR) t.(Ledger.EnergyKWh).

(** A decimal sum, accumulated from zero in list order. *)
Definition decimalSum (xs : list Decimal) : Decimal :=
  fold_left decimal.Add xs decimal.Zero.

(** The trades whose timestamp prints as day [k], in ledger order. *)
Definition tradesOn (k : Z) (ts : list Ledger.Trade) : list Ledger.Trade :=
  filter (fun t => Ledger.dayKey t = k) ts.

(** The sum of a list of rationals, and what a trade adds to the profit. *)
Definition sumQ (xs : list Q) : Q := fold_right Qplus 0%Q xs.

Definition signedValue (t : Ledger.Trade) : Q :=
  match t.(Ledger.Action) with
  | Ledger.ActionCharge => (- tradeValue t)%Q
  | Ledger.ActionDischarge => tradeValue t
  | Ledger.ActionOther => 0%Q
  end.

(** Ledger fixtures. The recorder is configured for UTC+1. Trade [tradeA]
    was stamped 2024-01-15 23:30 UTC and carries UTC; [tradeB] was stamped
    2024-01-16 00:45 at UTC+1 and carries that offset. *)
Definition tradeA : Ledger.Trade :=
  {| Ledger.Timestamp := {| time.unixNano := 1705361400 * time.Second;
                            time.location := time.UTC |};
     Ledger.Action := Ledger.ActionCharge;
     Ledger.PriceEUR := (5 # 100)%Q; Ledger.PowerW := 2000; Ledger.DurationS := 900;
     Ledger.EnergyKWh := (1 # 2)%Q; Ledger.StartSOC := 50; Ledger.EndSOC := 60 |}.

Definition tradeB : Ledger.Trade :=
  {| Ledger.Timestamp := {| time.unixNano := 1705362300 * time.Second;
                            time.location := time.FixedZone 3600 |};
     Ledger.Action := Ledger.ActionDischarge;
     Ledger.PriceEUR := (25 # 100)%Q; Ledger.PowerW := 2000; Ledger.DurationS := 900;
     Ledger.EnergyKWh := (1 # 2)%Q; Ledger.StartSOC := 60; Ledger.EndSOC := 50 |}.

Definition recorderCET : Ledger.Recorder :=
  {| Ledger.efficiency := (9 # 10)%Q; Ledger.trades := [tradeA; tradeB];
     Ledger.loc := time.FixedZone 3600 |}.

(** 2024-01-16 08:00 at UTC+1. *)
Definition morningCET : Time :=
  {| time.unixNano := 1705388400 * time.Second; time.location := time.FixedZone 3600 |}.

(** ** Further vocabulary *)

(** The slot of [p] contains the instant [t]. *)
Definition covers (p : Price) (t : Time) : bool :=
  (time.unixNano p.(PTime) <=? time.unixNano t)
  && (time.unixNano t <? time.unixNano p.(PTime) + slot).

(** [c] is the cycle of a pair offered on [sorted] for a charge window at
    or after index [lo]. *)
Definition offeredCycle (sorted : list Price) (cw dw : Z) (eff ms : float)
    (lo : Z) (c : TradeCycle) : Prop :=
  exists k ds,
    lo <= k /\ offered sorted cw dw eff ms k ds
    /\ c = pairCycle sorted cw dw eff k ds.

(** The small battery with a cost basis of 0.05 after a tick at 00:30 with
    the battery at 50%: it is discharging. *)
Definition smallDischarging : Engine.Service :=
  after (Engine.tick (Engine.envAt (time.Add baseTime (2 * slot)) 50) smallServiceCharged).

(** The plan of the small battery on [prices4]. *)
Definition smallPlan : TradingPlan :=
  AnalyzePrices prices4 (Engine.analyzerConfig smallService).

(** [p] starts before [q]. *)
Definition earlier (p q : Price) : Prop :=
  time.unixNano p.(PTime) < time.unixNano q.(PTime).

(** The instants at which the slots of a price list start. *)
Definition instants (prices : list Price) : list Z :=
  map (fun p => time.unixNano p.(PTime)) prices.

(** What the sliding loop of [findBestWindow] knows when it searches for
    the lowest average and is about to look at window [j]. *)
Definition slideInvLow (prices : list Price) (s w j : Z) (st : SlideState) : Prop :=
  st.(slSum) = slidingSum prices s w (j - 1)
  /\ (forall i, s <= i < j ->
        (slidingAverage prices s w i <? st.(slBestAvg))%float = false)
  /\ ((st.(slBestStart) = -1 /\ st.(slBestAvg) = F64.MaxFloat64)
      \/ (s <= st.(slBestStart) < j
          /\ st.(slBestAvg) = slidingAverage prices s w st.(slBestStart)
          /\ (st.(slBestAvg) <? F64.MaxFloat64)%float = true
          /\ forall i, s <= i < st.(slBestStart) ->
               (slidingAverage prices s w i <=? st.(slBestAvg))%float = false)).

(** The eight slots of [TestFindBestWindow]. *)
Definition pricesFindBest : list Price :=
  makePrices baseTime [0.10; 0.08; 0.05; 0.06; 0.15; 0.20; 0.18; 0.12]%float.

(** The instant [now] falls in the quarter of an hour after midnight in
    which [checkPriceFetch] rolls the day over. *)
Definition inRolloverWindow (now : Time) : Prop :=
  localNanos now mod time.Day < 15 * time.Minute.

(** The day [t] falls on in UTC, counted in days since 1970-01-01. *)
Definition utcDay (t : Time) : Z := time.unixNano t / time.Day.

(** A scheduler for the small battery, its plan made on [prices4], with
    [prices6] fetched for tomorrow and no rollover yet. *)
Definition schedulerEve : Scheduler.Scheduler :=
  {| Scheduler.svc := smallService;
     Scheduler.tomorrowPrices := makePrices (time.Add baseTime time.Day)
                                   [0.05; 0.20; 0.06; 0.18; 0.04; 0.22]%float;
     Scheduler.lastMidnightSwap := time.zero |}.

(** A provider that answers with [prices4] for today and fails for
    tomorrow. *)
Definition providerToday : Scheduler.Provider :=
  {| Scheduler.FetchTodayPrices := Some prices4;
     Scheduler.FetchTomorrowPrices := None |}.

(** The slot of [p] has not ended before [now]. *)
Definition notEndedBefore (now : Time) (p : Price) : bool :=
  time.unixNano now <=? time.unixNano p.(PTime) + 15 * time.Minute.

(** The session, the ledger and the cost basis of the engine. *)
Definition sameEngine (s s' : Engine.Service) : Prop :=
  s'.(Engine.cfg) = s.(Engine.cfg) /\ s'.(Engine.sloc) = s.(Engine.sloc)
  /\ s'.(Engine.state) = s.(Engine.state)
  /\ s'.(Engine.recorder) = s.(Engine.recorder)
  /\ s'.(Engine.lastChargePrice) = s.(Engine.lastChargePrice)
  /\ s'.(Engine.lastPassiveRefresh) = s.(Engine.lastPassiveRefresh)
  /\ s'.(Engine.currentTradeStart) = s.(Engine.currentTradeStart)
  /\ s'.(Engine.currentTradePrice) = s.(Engine.currentTradePrice)
  /\ s'.(Engine.currentTradeSOC) = s.(Engine.currentTradeSOC).
(** * Properties *)

(** ** IEEE comparisons

    The comparisons of [float] are those of the specification floats; the
    facts below hold for every value, NaN included. *)

Section SpecFloatOrder.

Local Ltac sf_cases :=
  repeat match goal with
         | s : bool |- _ => destruct s
         end;
  simpl; try congruence;
  repeat match goal with
         | |- context [Z.compare ?a ?b] =>
             let H := fresh in destruct (Z.compare_spec a b) as [H|H|H]; simpl
         | |- context [Pos.compare_cont Eq ?a ?b] =>
             change (Pos.compare_cont Eq a b) with (Pos.compare a b);
             let H := fresh in destruct (Pos.compare_spec a b) as [H|H|H]; simpl
         end;
  try congruence; try lia.

Lemma SFltb_irrefl x : SFltb x x = false.
Proof. unfold SFltb. destruct x; sf_cases. Qed.

Lemma SFltb_SFleb x y : SFltb x y = true -> SFleb x y = true.
Proof. unfold SFltb, SFleb. destruct (SFcompare x y) as [[]|]; congruence. Qed.

Lemma SFltb_trans_neg b p x :
  SFltb b p = true -> SFltb b x = false -> SFleb p x = false.
Proof.
  unfold SFltb, SFleb. destruct b, p, x; sf_cases.
Qed.

Lemma SFltb_trans_neg' m p x :
  SFltb p m = true -> SFltb x m = false -> SFleb x p = false.
Proof.
  unfold SFltb, SFleb. destruct m, p, x; sf_cases.
Qed.

Lemma SFleb_total x y :
  x <> S754_nan -> y <> S754_nan -> negb (SFleb x y) = SFltb y x.
Proof.
  unfold SFltb, SFleb. destruct x, y; sf_cases.
Qed.

Lemma SFltb_above_total b x y :
  SFltb b x = true -> SFltb b y = true -> SFleb x y = false -> SFltb y x = true.
Proof.
  unfold SFltb, SFleb. destruct b, x, y; sf_cases.
Qed.

End SpecFloatOrder.

Module F64Facts.

Lemma ltb_irrefl x : (x <? x)%float = false.
Proof. rewrite ltb_spec. apply SFltb_irrefl. Qed.

Lemma ltb_leb x y : (x <? y)%float = true -> (x <=? y)%float = true.
Proof. rewrite ltb_spec, leb_spec. apply SFltb_SFleb. Qed.

Lemma nleb_nltb x y : (x <=? y)%float = false -> (x <? y)%float = false.
Proof.
  intros H. destruct (x <? y)%float eqn:E; [|reflexivity].
  apply ltb_leb in E. congruence.
Qed.

(** Something above [b] is above everything [b] is not below. *)
Lemma above_best b p x :
  (b <? p)%float = true -> (b <? x)%float = false -> (p <=? x)%float = false.
Proof. rewrite !ltb_spec, leb_spec. apply SFltb_trans_neg. Qed.

Lemma below_best m p x :
  (p <? m)%float = true -> (x <? m)%float = false -> (x <=? p)%float = false.
Proof. rewrite !ltb_spec, leb_spec. apply SFltb_trans_neg'. Qed.

(** Two values above a third are comparable. *)
Lemma above_total b x y :
  (b <? x)%float = true -> (b <? y)%float = true ->
  (x <=? y)%float = false -> (y <? x)%float = true.
Proof. rewrite !ltb_spec, leb_spec. apply SFltb_above_total. Qed.

Lemma is_nan_spec x : F64.is_nan x = false -> Prim2SF x <> S754_nan.
Proof.
  unfold F64.is_nan, PrimFloat.is_nan. rewrite FloatAxioms.eqb_spec. intros H E.
  rewrite E in H. discriminate.
Qed.

(** Away from NaN the negation of a comparison is the converse one. *)
Lemma nleb_ltb x y :
  F64.is_nan x = false -> F64.is_nan y = false ->
  negb (x <=? y)%float = (y <? x)%float.
Proof.
  intros Hx Hy. rewrite ltb_spec, leb_spec.
  apply SFleb_total; now apply is_nan_spec.
Qed.

Lemma nltb_leb x y :
  F64.is_nan x = false -> F64.is_nan y = false ->
  negb (x <? y)%float = (y <=? x)%float.
Proof.
  intros Hx Hy. rewrite <- (nleb_ltb y x) by assumption.
  now rewrite negb_involutive.
Qed.

End F64Facts.

(** ** Loops and indices *)

Lemma forZ_ind {St : Type} (P : Z -> St -> Prop) (body : Z -> St -> St) :
  forall (n : nat) (i : Z) (s : St),
    P i s ->
    (forall j s', i <= j < i + Z.of_nat n -> P j s' -> P (j + 1) (body j s')) ->
    P (i + Z.of_nat n) (forZ n i body s).
Proof.
  induction n as [|n IH]; intros i s H0 Hstep; simpl forZ.
  - replace (i + Z.of_nat 0) with i by lia. exact H0.
  - replace (i + Z.of_nat (S n)) with ((i + 1) + Z.of_nat n) by lia.
    apply IH.
    + apply Hstep; [lia | exact H0].
    + intros j s' Hj. apply Hstep. lia.
Qed.

Lemma forZ_snoc {St : Type} (body : Z -> St -> St) :
  forall (n : nat) (i : Z) (s : St),
    forZ (S n) i body s = body (i + Z.of_nat n) (forZ n i body s).
Proof.
  induction n as [|n IH]; intros i s.
  - simpl. f_equal. lia.
  - change (forZ (S (S n)) i body s)
      with (forZ (S n) (i + 1) body (body i s)).
    rewrite IH. simpl forZ. f_equal. lia.
Qed.

Ltac zbool :=
  repeat match goal with
         | |- context [?a <? ?b] => destruct (Z.ltb_spec a b)
         | |- context [?a <=? ?b] => destruct (Z.leb_spec a b)
         | |- context [?a =? ?b] => destruct (Z.eqb_spec a b)
         end.

Ltac zbool_in H :=
  repeat match type of H with
         | context [?a <? ?b] => destruct (Z.ltb_spec a b)
         | context [?a <=? ?b] => destruct (Z.leb_spec a b)
         | context [?a =? ?b] => destruct (Z.eqb_spec a b)
         end.

Lemma len_nil {A} : len (@nil A) = 0.
Proof. reflexivity. Qed.

Lemma len_nonneg {A} (l : list A) : 0 <= len l.
Proof. unfold len. lia. Qed.

Lemma len_cons {A} (a : A) (l : list A) : len (a :: l) = len l + 1.
Proof. unfold len. cbn [length]. lia. Qed.

Lemma len_app {A} (l k : list A) : len (l ++ k) = len l + len k.
Proof. unfold len. rewrite length_app. lia. Qed.

Lemma nthZ_cons (p : Price) (l : list Price) (i : Z) :
  0 < i -> nthZ (p :: l) i = nthZ l (i - 1).
Proof.
  intros Hi. unfold nthZ.
  destruct (i <? 0) eqn:E1; [lia|]. destruct (i - 1 <? 0) eqn:E2; [lia|].
  replace (Z.to_nat i) with (S (Z.to_nat (i - 1))) by lia. reflexivity.
Qed.

(** ** Contiguous slots *)

Lemma contiguous_tail p l : contiguous (p :: l) = true -> contiguous l = true.
Proof.
  destruct l as [|q l]; [reflexivity|]. simpl.
  intros H. apply andb_prop in H. tauto.
Qed.

Lemma contiguous_nth (l : list Price) :
  contiguous l = true ->
  forall i, 0 <= i < len l ->
    time.unixNano (nthZ l i).(PTime) = time.unixNano (nthZ l 0).(PTime) + i * slot.
Proof.
  induction l as [|p l IH]; intros Hc i Hi.
  - unfold len in Hi. simpl in Hi. lia.
  - destruct (Z.eq_dec i 0) as [->|Hne]; [lia|].
    rewrite nthZ_cons by lia. rewrite len_cons in Hi.
    rewrite IH; [|eapply contiguous_tail; eassumption|lia].
    destruct l as [|q l]; [unfold len in Hi; simpl in Hi; lia|].
    simpl in Hc. apply andb_prop in Hc. destruct Hc as [Hq _].
    apply Z.eqb_eq in Hq.
    change (nthZ (q :: l) 0) with q. change (nthZ (p :: q :: l) 0) with p. lia.
Qed.

Lemma findSlotIndexFrom_contiguous (l : list Price) :
  contiguous l = true ->
  forall (k j : Z) (t : Time),
    0 <= j ->
    time.unixNano t = time.unixNano (nthZ l 0).(PTime) + j * slot ->
    findSlotIndexFrom k l t = if j <? len l then k + j else -1.
Proof.
  assert (Hslot : 0 < slot) by reflexivity.
  induction l as [|p l IH]; intros Hc k j t Hj Ht.
  - simpl. change (len (@nil Price)) with 0. zbool; [lia|reflexivity].
  - simpl findSlotIndexFrom. unfold time.Before.
    rewrite len_cons. pose proof (len_nonneg l) as Hl.
    change (nthZ (p :: l) 0) with p in Ht.
    destruct (Z.eq_dec j 0) as [->|Hne].
    + zbool; simpl; try lia.
    + destruct (Z.ltb_spec (time.unixNano (PTime p)) (time.unixNano t)) as [_|Hge]; [|nia].
      simpl negb. cbv iota.
      destruct l as [|q l].
      * simpl. change (len (@nil Price)) with 0. zbool; [lia|reflexivity].
      * rewrite (IH (contiguous_tail _ _ Hc) (k + 1) (j - 1) t); [|lia|].
        -- zbool; lia.
        -- simpl in Hc. apply andb_prop in Hc. destruct Hc as [Hq _].
           apply Z.eqb_eq in Hq. change (nthZ (q :: l) 0) with q. lia.
Qed.

Lemma findSlotIndex_contiguous (l : list Price) (j : Z) (t : Time) :
  contiguous l = true -> 0 <= j ->
  time.unixNano t = time.unixNano (nthZ l 0).(PTime) + j * slot ->
  findSlotIndex l t = if j <? len l then j else -1.
Proof.
  intros Hc Hj Ht. unfold findSlotIndex.
  rewrite (findSlotIndexFrom_contiguous l Hc 0 j t Hj Ht).
  zbool; lia.
Qed.

(** ** findBestWindow, searching for the highest average *)

Lemma slidingSum_start prices s w : slidingSum prices s w s = windowSum prices s w.
Proof. unfold slidingSum. now replace (s - s) with 0 by lia. Qed.

Lemma slidingSum_step prices s w j :
  s < j ->
  slidingSum prices s w j
  = (slidingSum prices s w (j - 1) - (nthZ prices (j - 1)).(Value)
     + (nthZ prices (j + w - 1)).(Value))%float.
Proof.
  intros Hj. unfold slidingSum.
  replace (Z.to_nat (j - s)) with (S (Z.to_nat (j - 1 - s))) by lia.
  rewrite forZ_snoc.
  replace (s + 1 + Z.of_nat (Z.to_nat (j - 1 - s))) with j by lia.
  reflexivity.
Qed.

Lemma slideInit_inv prices s w :
  slideInv prices s w (s + 1) (slideInit prices s w false).
Proof.
  unfold slideInv, slideInit, better.
  fold (windowAverage prices s w).
  assert (Havg : slidingAverage prices s w s = windowAverage prices s w).
  { unfold slidingAverage, windowAverage. now rewrite slidingSum_start. }
  destruct (PrimFloat.ltb (PrimFloat.opp F64.MaxFloat64) (windowAverage prices s w)) eqn:E;
    cbn [slSum slBestAvg slBestStart];
    replace (s + 1 - 1) with s by lia; rewrite slidingSum_start.
  - split; [reflexivity|]. split.
    + intros i Hi. replace i with s by lia. rewrite Havg. apply F64Facts.ltb_irrefl.
    + right. split; [lia|]. split; [now rewrite Havg|]. intros i Hi. lia.
  - split; [reflexivity|]. split.
    + intros i Hi. replace i with s by lia. now rewrite Havg.
    + left. split; reflexivity.
Qed.

Lemma slideStep_inv prices s w j st :
  s < j -> slideInv prices s w j st ->
  slideInv prices s w (j + 1) (slideStep prices w false j st).
Proof.
  intros Hj (Hsum & Hall & Hbest).
  unfold slideStep, better. rewrite Hsum, <- (slidingSum_step prices s w j Hj).
  fold (slidingAverage prices s w j).
  destruct (PrimFloat.ltb (slBestAvg st) (slidingAverage prices s w j)) eqn:E;
    unfold slideInv; cbn [slSum slBestAvg slBestStart];
    replace (j + 1 - 1) with j by lia.
  - split; [reflexivity|].
    assert (Hbefore : forall i, s <= i < j ->
              (slidingAverage prices s w j <=? slidingAverage prices s w i)%float = false).
    { intros i Hi. eapply F64Facts.above_best; [exact E | now apply Hall]. }
    split.
    + intros i Hi. destruct (Z.eq_dec i j) as [->|Hne].
      * apply F64Facts.ltb_irrefl.
      * apply F64Facts.nleb_nltb, Hbefore. lia.
    + right. split; [lia|]. split; [reflexivity|]. exact Hbefore.
  - split; [reflexivity|]. split.
    + intros i Hi. destruct (Z.eq_dec i j) as [->|Hne]; [exact E|]. apply Hall. lia.
    + destruct Hbest as [Hb|(Hr & Hb & Hlt)]; [now left|].
      right. split; [lia|]. now split.
Qed.

Lemma slide_loop_inv prices s w (n : nat) :
  slideInv prices s w (s + 1 + Z.of_nat n)
           (forZ n (s + 1) (slideStep prices w false) (slideInit prices s w false)).
Proof.
  apply (forZ_ind (slideInv prices s w)).
  - apply slideInit_inv.
  - intros j st Hj Hinv. apply slideStep_inv; [lia | exact Hinv].
Qed.

(** [findBestWindow] for the highest average: the window it returns lies in
    the searched range, carries the average the loop computed for it, is
    strictly above every window scanned before it and not below any window
    scanned after it. *)
Lemma findBestWindow_highest prices s w i avg :
  0 <= s ->
  findBestWindow prices s w false = (i, avg, true) ->
  s <= i /\ i + w <= len prices
  /\ avg = slidingAverage prices s w i
  /\ (forall j, s <= j < i -> (avg <=? slidingAverage prices s w j)%float = false)
  /\ (forall j, i <= j -> j + w <= len prices ->
        (avg <? slidingAverage prices s w j)%float = false).
Proof.
  intros Hs. unfold findBestWindow.
  destruct (Z.ltb_spec (len prices) (s + w)) as [|Hlen]; [discriminate|].
  pose proof (slide_loop_inv prices s w (Z.to_nat (len prices - w - s))) as Hinv.
  replace (s + 1 + Z.of_nat (Z.to_nat (len prices - w - s)))
    with (len prices - w + 1) in Hinv by lia.
  destruct Hinv as (_ & Hall & Hbest).
  set (st := forZ _ _ _ _) in *.
  destruct (Z.ltb_spec (slBestStart st) 0) as [|Hnn]; [discriminate|].
  intros [= <- <-].
  destruct Hbest as [[Hb _]|(Hr & Hb & Hlt)]; [lia|].
  split; [lia|]. split; [lia|]. split; [exact Hb|]. split; [exact Hlt|].
  intros j Hj1 Hj2. apply Hall. lia.
Qed.

(** When it reports no window, either there is no room for one or no
    average the loop computed exceeds [-MaxFloat64]. *)
Lemma findBestWindow_none prices s w r :
  0 <= s ->
  findBestWindow prices s w false = (r, false) ->
  len prices < s + w
  \/ forall j, s <= j -> j + w <= len prices ->
       (PrimFloat.opp F64.MaxFloat64 <? slidingAverage prices s w j)%float = false.
Proof.
  intros Hs. unfold findBestWindow.
  destruct (Z.ltb_spec (len prices) (s + w)) as [|Hlen]; [now left|].
  pose proof (slide_loop_inv prices s w (Z.to_nat (len prices - w - s))) as Hinv.
  replace (s + 1 + Z.of_nat (Z.to_nat (len prices - w - s)))
    with (len prices - w + 1) in Hinv by lia.
  destruct Hinv as (_ & Hall & Hbest).
  set (st := forZ _ _ _ _) in *.
  destruct (Z.ltb_spec (slBestStart st) 0) as [Hneg|Hnn]; [|discriminate].
  intros _. right. intros j Hj1 Hj2.
  destruct Hbest as [[_ Hb]|(Hr & _)]; [|lia].
  rewrite <- Hb. apply Hall. lia.
Qed.

(** ** findBestCycle *)

Lemma cycleStep_inv prices cw dw eff ms s j st :
  s <= j ->
  bestInv (candidate prices cw dw eff ms) s j st ->
  bestInv (candidate prices cw dw eff ms) s (j + 1)
          (cycleStep prices cw dw eff ms j st).
Proof.
  intros Hj (Hall & Hbest). unfold cycleStep.
  destruct (candidate prices cw dw eff ms j) as [[profit cycle]|] eqn:Ec.
  - destruct (PrimFloat.ltb (bsProfit st) profit) eqn:E.
    + assert (Hbefore : forall i p c, s <= i < j ->
                candidate prices cw dw eff ms i = Some (p, c) ->
                (profit <=? p)%float = false).
      { intros i p c Hi Hc. eapply F64Facts.above_best; [exact E|]. eapply Hall; eauto. }
      split; cbn [bsProfit bsCycle bsFound].
      * intros i p c Hi Hc. destruct (Z.eq_dec i j) as [->|Hne].
        -- rewrite Ec in Hc. injection Hc as <- <-. apply F64Facts.ltb_irrefl.
        -- apply F64Facts.nleb_nltb. eapply Hbefore; [|exact Hc]. lia.
      * right. split; [reflexivity|]. exists j. split; [lia|]. split; [exact Ec|].
        exact Hbefore.
    + split.
      * intros i p c Hi Hc. destruct (Z.eq_dec i j) as [->|Hne].
        -- rewrite Ec in Hc. injection Hc as <- <-. exact E.
        -- eapply Hall; [|exact Hc]. lia.
      * destruct Hbest as [Hb|(Hf & k & Hk & Hck & Hlt)]; [now left|].
        right. split; [exact Hf|]. exists k. split; [lia|]. now split.
  - split.
    + intros i p c Hi Hc. destruct (Z.eq_dec i j) as [->|Hne]; [congruence|].
      eapply Hall; [|exact Hc]. lia.
    + destruct Hbest as [Hb|(Hf & k & Hk & Hck & Hlt)]; [now left|].
      right. split; [exact Hf|]. exists k. split; [lia|]. now split.
Qed.

Lemma cycle_loop_inv prices cw dw eff ms s (n : nat) :
  bestInv (candidate prices cw dw eff ms) s (s + Z.of_nat n)
          (forZ n s (cycleStep prices cw dw eff ms) bestInit).
Proof.
  apply (forZ_ind (bestInv (candidate prices cw dw eff ms) s)).
  - split; [intros; lia|]. left. split; reflexivity.
  - intros j st Hj Hinv. apply cycleStep_inv; [lia | exact Hinv].
Qed.

(** The cycle [findBestCycle] returns is the candidate of some charge start
    [k] in the searched range; its profit is strictly above the profit of
    every candidate scanned before [k] and not below that of any candidate
    scanned after. *)
Lemma findBestCycle_found prices s cw dw eff ms cycle :
  findBestCycle prices s cw dw eff ms = (cycle, true) ->
  exists k,
    s <= k /\ k + cw <= len prices
    /\ candidate prices cw dw eff ms k = Some (cycle.(Profit), cycle)
    /\ (forall i p c, s <= i < k -> candidate prices cw dw eff ms i = Some (p, c) ->
          (cycle.(Profit) <=? p)%float = false)
    /\ (forall i p c, k <= i -> i + cw <= len prices ->
          candidate prices cw dw eff ms i = Some (p, c) ->
          (cycle.(Profit) <? p)%float = false).
Proof.
  unfold findBestCycle. intros H.
  pose proof (cycle_loop_inv prices cw dw eff ms s
                (Z.to_nat (len prices - cw - s + 1))) as (Hall & Hbest).
  set (st := forZ _ _ _ _) in *. clearbody st.
  injection H as Hc Hf.
  destruct Hbest as [[Hnf _]|(_ & k & Hk & Hck & Hlt)]; [congruence|].
  assert (Hp : bsProfit st = Profit cycle).
  { unfold candidate in Hck.
    destruct (len prices <? k + cw + dw); [discriminate|].
    destruct (findBestWindow prices (k + cw) dw false) as [[ds davg] []]; [|discriminate].
    destruct (negb _); [discriminate|].
    injection Hck as Hp1 Hp2. rewrite <- Hc, <- Hp2. cbn [Profit].
    now rewrite Hp1. }
  rewrite Hp, Hc in *.
  exists k. split; [lia|]. split; [lia|]. split; [exact Hck|]. split; [exact Hlt|].
  intros i p c Hi1 Hi2 Hci. eapply Hall; [|exact Hci]. lia.
Qed.

(** When it finds nothing it returns the zero cycle, and no candidate of
    the range has a profit above [-MaxFloat64]. *)
Lemma findBestCycle_none prices s cw dw eff ms cycle :
  findBestCycle prices s cw dw eff ms = (cycle, false) ->
  cycle = zeroCycle
  /\ forall i p c, s <= i -> i + cw <= len prices ->
       candidate prices cw dw eff ms i = Some (p, c) ->
       (PrimFloat.opp F64.MaxFloat64 <? p)%float = false.
Proof.
  unfold findBestCycle. intros H.
  pose proof (cycle_loop_inv prices cw dw eff ms s
                (Z.to_nat (len prices - cw - s + 1))) as (Hall & Hbest).
  set (st := forZ _ _ _ _) in *. clearbody st.
  injection H as Hc Hf.
  destruct Hbest as [[_ Hst]|(Hfound & _)]; [|congruence].
  subst st. split; [now rewrite <- Hc|].
  intros i p c Hi1 Hi2 Hci.
  change (PrimFloat.opp F64.MaxFloat64) with (bsProfit bestInit).
  eapply Hall; [|exact Hci]. lia.
Qed.

(** A candidate is a qualifying pair: the charge window at [cs] with the
    window [findBestWindow] returns for the range after it. *)
Lemma candidate_spec prices cw dw eff ms cs p c :
  candidate prices cw dw eff ms cs = Some (p, c) <->
  exists ds davg,
    findBestWindow prices (cs + cw) dw false = (ds, davg, true)
    /\ qualifies eff ms (windowAverage prices cs cw) davg = true
    /\ p = profitOf eff (windowAverage prices cs cw) davg
    /\ c = mkCycle prices cs cw ds dw (windowAverage prices cs cw) davg p.
Proof.
  unfold candidate. split.
  - destruct (len prices <? cs + cw + dw); [discriminate|].
    destruct (findBestWindow prices (cs + cw) dw false) as [[ds davg] []]; [|discriminate].
    destruct (qualifies eff ms (windowAverage prices cs cw) davg) eqn:Eq; [|discriminate].
    simpl. intros [= <- <-]. exists ds, davg. auto.
  - intros (ds & davg & Hw & Hq & -> & ->).
    destruct (Z.ltb_spec (len prices) (cs + cw + dw)) as [Hlt|_].
    + unfold findBestWindow in Hw.
      destruct (Z.ltb_spec (len prices) (cs + cw + dw)); [discriminate|lia].
    + rewrite Hw, Hq. reflexivity.
Qed.

(** ** The cycles of a plan *)

Lemma calculateWindowSize_pos cap powerW : 1 <= calculateWindowSize cap powerW.
Proof. unfold calculateWindowSize. zbool; lia. Qed.

Lemma orderedFrom_snoc lo cycles c :
  orderedFrom lo cycles ->
  lastEnd lo cycles <= startsAt c.(ChargeWindow) ->
  cycleOrdered c ->
  orderedFrom lo (cycles ++ [c]).
Proof.
  revert lo. induction cycles as [|d cycles IH]; intros lo Ho Hl Hc; simpl.
  - unfold lastEnd in Hl. simpl in Hl. auto.
  - destruct Ho as (H1 & H2 & H3). split; [exact H1|]. split; [exact H2|].
    apply IH; [exact H3 | | exact Hc].
    unfold lastEnd in *. simpl in Hl. exact Hl.
Qed.

Lemma lastEnd_snoc lo cycles c :
  lastEnd lo (cycles ++ [c]) = endsAt c.(DischargeWindow).
Proof. unfold lastEnd. now rewrite fold_left_app. Qed.

Lemma orderedFrom_Forall lo cycles : orderedFrom lo cycles -> Forall cycleOrdered cycles.
Proof.
  revert lo. induction cycles as [|c cycles IH]; intros lo H; constructor.
  - apply H.
  - apply (IH (endsAt c.(DischargeWindow))), H.
Qed.

Lemma orderedFrom_chained lo cycles : orderedFrom lo cycles -> chained cycles.
Proof.
  revert lo. induction cycles as [|c cycles IH]; intros lo H i x y Hx Hy.
  - discriminate.
  - destruct H as (_ & _ & H). destruct i as [|i].
    + simpl in Hx, Hy. injection Hx as <-.
      destruct cycles as [|d cycles]; [discriminate|]. injection Hy as <-.
      apply H.
    + simpl in Hx, Hy. exact (IH _ H i x y Hx Hy).
Qed.

Lemma mkCycle_ordered prices cs cw ds dw cavg davg p :
  contiguous prices = true ->
  0 <= cs -> 1 <= cw -> cs + cw <= ds -> 1 <= dw -> ds + dw <= len prices ->
  let c := mkCycle prices cs cw ds dw cavg davg p in
  let t0 := time.unixNano (nthZ prices 0).(PTime) in
  cycleOrdered c
  /\ startsAt c.(ChargeWindow) = t0 + cs * slot
  /\ endsAt c.(DischargeWindow) = t0 + (ds + dw) * slot.
Proof.
  intros Hc Hcs Hcw Hds Hdw Hlen c t0.
  assert (Hslot : 0 < slot) by reflexivity.
  unfold cycleOrdered, startsAt, endsAt, c, mkCycle, time.Add.
  cbn [ChargeWindow DischargeWindow Start End_ time.unixNano].
  rewrite (contiguous_nth prices Hc cs), (contiguous_nth prices Hc (cs + cw - 1)),
    (contiguous_nth prices Hc ds), (contiguous_nth prices Hc (ds + dw - 1)) by lia.
  fold t0. repeat split; nia.
Qed.

(** A round of the search started at [start] yields a cycle whose charge
    window starts at slot [start] or later; the windows are in order and
    the discharge window ends at the start of a slot or of the slot after
    the last one. *)
Lemma findBestCycle_ordered prices start cw dw eff ms cycle :
  contiguous prices = true -> 0 <= start -> 1 <= cw -> 1 <= dw ->
  findBestCycle prices start cw dw eff ms = (cycle, true) ->
  let t0 := time.unixNano (nthZ prices 0).(PTime) in
  cycleOrdered cycle
  /\ t0 + start * slot <= startsAt cycle.(ChargeWindow)
  /\ exists e, 0 <= e <= len prices
       /\ time.unixNano cycle.(DischargeWindow).(End_) = t0 + e * slot.
Proof.
  intros Hc Hs Hcw Hdw Hf t0.
  assert (Hslot : 0 < slot) by reflexivity.
  apply findBestCycle_found in Hf as (k & Hk1 & Hk2 & Hcand & _).
  apply candidate_spec in Hcand as (ds & davg & Hw & _ & _ & Hcy).
  apply findBestWindow_highest in Hw as (Hd1 & Hd2 & _); [|lia].
  destruct (mkCycle_ordered prices k cw ds dw (windowAverage prices k cw) davg
              (Profit cycle) Hc) as (Ho & Hst & Hen); try lia.
  rewrite <- Hcy in Ho, Hst, Hen. fold t0 in Hst, Hen.
  split; [exact Ho|]. split; [rewrite Hst; nia|].
  exists (ds + dw). split; [lia | exact Hen].
Qed.

Lemma searchCycles_ordered sorted cw dw eff ms :
  contiguous sorted = true -> 1 <= cw -> 1 <= dw ->
  forall (n : nat) (start lo : Z) (cycles : list TradeCycle),
    0 <= start ->
    orderedFrom lo cycles ->
    lastEnd lo cycles <= time.unixNano (nthZ sorted 0).(PTime) + start * slot ->
    let r := searchCycles sorted cw dw eff ms n start cycles in
    orderedFrom lo r /\ (length r <= length cycles + n)%nat.
Proof.
  intros Hc Hcw Hdw. induction n as [|n IH]; intros start lo cycles Hs Ho Hl.
  - simpl. split; [exact Ho | lia].
  - cbv zeta. cbn [searchCycles].
    destruct (findBestCycle sorted start cw dw eff ms) as [cycle found] eqn:Ef.
    destruct found; cbn [negb]; cbv iota; [|split; [exact Ho | lia]].
    destruct (findBestCycle_ordered sorted start cw dw eff ms cycle Hc Hs Hcw Hdw Ef)
      as (Hco & Hst & e & He & Hen).
    assert (Ho' : orderedFrom lo (cycles ++ [cycle])).
    { apply orderedFrom_snoc; [exact Ho | lia | exact Hco]. }
    rewrite (findSlotIndex_contiguous sorted e _ Hc (proj1 He) Hen).
    destruct (Z.ltb_spec e (len sorted)) as [Hlt|Hge].
    + destruct (Z.ltb_spec e 0); [lia|]. destruct (Z.leb_spec (len sorted) e); [lia|].
      cbn [orb]. cbv iota.
      specialize (IH e lo (cycles ++ [cycle]) (proj1 He) Ho').
      rewrite lastEnd_snoc in IH. unfold endsAt in IH.
      destruct IH as (H1 & H2); [lia|]. split; [exact H1|].
      rewrite length_app in H2. simpl in H2. lia.
    + cbn [Z.ltb Z.compare orb]. cbv iota. split; [exact Ho'|].
      rewrite length_app. simpl. lia.
Qed.
(** ** The averages of the analyzer are the means of the specification *)

Lemma skipn_nthZ (prices : list Price) (i : Z) :
  0 <= i < len prices ->
  skipn (Z.to_nat i) prices = nthZ prices i :: skipn (Z.to_nat (i + 1)) prices.
Proof.
  intros Hi. unfold nthZ. destruct (Z.ltb_spec i 0); [lia|].
  replace (Z.to_nat (i + 1)) with (S (Z.to_nat i)) by lia.
  assert (Hn : (Z.to_nat i < length prices)%nat) by (unfold len in Hi; lia).
  clear Hi H. revert Hn. generalize (Z.to_nat i) as n.
  induction prices as [|p l IH]; intros n Hn; [simpl in Hn; lia|].
  destruct n as [|n]; [reflexivity|].
  simpl in Hn. cbn [skipn nth]. rewrite (IH n) by lia. reflexivity.
Qed.

Lemma windowLoop_floatSum (prices : list Price) (n : nat) :
  forall (i : Z) (acc : float),
    0 <= i -> i + Z.of_nat n <= len prices ->
    forZ n i (fun j sum => (sum + (nthZ prices j).(Value))%float) acc
    = fold_left PrimFloat.add
                (map Value (firstn n (skipn (Z.to_nat i) prices))) acc.
Proof.
  induction n as [|n IH]; intros i acc Hi Hlen; [reflexivity|].
  cbn [forZ]. rewrite (skipn_nthZ prices i) by lia.
  cbn [firstn map fold_left]. apply IH; lia.
Qed.

(** [windowAverage] is the mean of the window. *)
Lemma windowAverage_meanOf (prices : list Price) (i n : Z) :
  0 <= i -> 0 <= n -> i + n <= len prices ->
  windowAverage prices i n = meanOf prices i n.
Proof.
  intros Hi Hn Hlen. unfold windowAverage, meanOf, windowSum, windowValues, floatSum.
  rewrite windowLoop_floatSum by lia. reflexivity.
Qed.

(** The averages the sliding loop of [findBestWindow] computes are the
    running averages. *)
Lemma slidingSum_runningSum (prices : list Price) (lo n : Z) (k : nat) :
  0 <= lo -> 0 <= n -> lo + n <= len prices ->
  slidingSum prices lo n (lo + Z.of_nat k) = runningSum prices n lo k.
Proof.
  intros Hlo Hn Hlen. induction k as [|k IH].
  - replace (lo + Z.of_nat 0) with lo by lia. rewrite slidingSum_start.
    cbn [runningSum]. unfold windowSum, windowValues, floatSum.
    rewrite windowLoop_floatSum by lia. reflexivity.
  - rewrite slidingSum_step by lia.
    replace (lo + Z.of_nat (S k) - 1) with (lo + Z.of_nat k) by lia.
    rewrite IH. cbn [runningSum].
    replace (lo + Z.of_nat (S k) + n - 1) with (lo + Z.of_nat k + n) by lia.
    reflexivity.
Qed.

Lemma slidingAverage_runningMean (prices : list Price) (lo n j : Z) :
  0 <= lo -> 0 <= n -> lo + n <= len prices -> lo <= j ->
  slidingAverage prices lo n j = runningMean prices n lo j.
Proof.
  intros Hlo Hn Hlen Hj. unfold slidingAverage, runningMean.
  rewrite <- (slidingSum_runningSum prices lo n (Z.to_nat (j - lo))) by lia.
  now replace (lo + Z.of_nat (Z.to_nat (j - lo))) with j by lia.
Qed.

(** ** The window [findBestWindow] returns is above [-MaxFloat64] *)

Lemma slide_loop_above prices s w (n : nat) :
  let st := forZ n (s + 1) (slideStep prices w false) (slideInit prices s w false) in
  (st.(slBestStart) < 0 /\ st.(slBestAvg) = PrimFloat.opp F64.MaxFloat64)
  \/ (PrimFloat.opp F64.MaxFloat64 <? st.(slBestAvg))%float = true.
Proof.
  cbv zeta.
  apply (forZ_ind (fun _ st =>
           (st.(slBestStart) < 0 /\ st.(slBestAvg) = PrimFloat.opp F64.MaxFloat64)
           \/ (PrimFloat.opp F64.MaxFloat64 <? st.(slBestAvg))%float = true)).
  - unfold slideInit, better.
    destruct (PrimFloat.ltb _ _) eqn:E; cbn [slBestStart slBestAvg].
    + right. exact E.
    + left. split; [lia | reflexivity].
  - intros j st _ Hst. unfold slideStep, better.
    set (avg := PrimFloat.div _ _).
    destruct (PrimFloat.ltb (slBestAvg st) avg) eqn:E; cbn [slBestStart slBestAvg];
      [|exact Hst].
    right. destruct Hst as [(_ & Hb)|Hb]; [now rewrite Hb in E|].
    destruct (PrimFloat.ltb (PrimFloat.opp F64.MaxFloat64) avg) eqn:E'; [reflexivity|].
    pose proof (F64Facts.above_best _ _ _ Hb E') as Hle.
    apply F64Facts.ltb_leb in E. congruence.
Qed.

Lemma findBestWindow_above prices s w i avg :
  findBestWindow prices s w false = (i, avg, true) ->
  (PrimFloat.opp F64.MaxFloat64 <? avg)%float = true.
Proof.
  unfold findBestWindow.
  destruct (Z.ltb_spec (len prices) (s + w)) as [|Hlen]; [discriminate|].
  pose proof (slide_loop_above prices s w (Z.to_nat (len prices - w - s))) as Hab.
  cbv zeta in Hab. set (st := forZ _ _ _ _) in *.
  destruct (Z.ltb_spec (slBestStart st) 0) as [|Hnn]; [discriminate|].
  intros [= <- <-]. destruct Hab as [(Hneg & _)|Hab]; [lia | exact Hab].
Qed.

(** ** The candidates of a round are the offered pairs *)

(** At most one discharge window is considered for a charge window. *)
Lemma consideredDischarge_unique prices cw dw cs d1 d2 :
  consideredDischarge prices cw dw cs d1 ->
  consideredDischarge prices cw dw cs d2 ->
  d1 = d2.
Proof.
  assert (Hlt : forall a b,
            consideredDischarge prices cw dw cs a ->
            consideredDischarge prices cw dw cs b -> a < b -> False).
  { intros a b (A1 & A2 & A3 & A4 & A5) (B1 & B2 & B3 & B4 & B5) Hab.
    pose proof (B4 a ltac:(lia)) as Hle.
    pose proof (A5 b ltac:(lia) B2) as Hnlt.
    pose proof (F64Facts.above_total _ _ _ B3 A3 Hle). congruence. }
  intros H1 H2. destruct (Z.lt_trichotomy d1 d2) as [H|[H|H]]; [|exact H|].
  - destruct (Hlt d1 d2 H1 H2 H).
  - destruct (Hlt d2 d1 H2 H1 H).
Qed.

(** What [findBestWindow] returns for the range after a charge window is
    the discharge window considered for it. *)
Lemma findBestWindow_considered prices cw dw cs ds davg :
  0 <= cs -> 0 <= cw -> 0 <= dw ->
  findBestWindow prices (cs + cw) dw false = (ds, davg, true) ->
  consideredDischarge prices cw dw cs ds
  /\ davg = dischargeMean prices cw dw cs ds.
Proof.
  intros Hcs Hcw Hdw Hw.
  pose proof (findBestWindow_above _ _ _ _ _ Hw) as Hab.
  apply findBestWindow_highest in Hw as (H1 & H2 & H3 & H4 & H5); [|lia].
  assert (Hm : forall j, cs + cw <= j ->
            slidingAverage prices (cs + cw) dw j = dischargeMean prices cw dw cs j).
  { intros j Hj. apply slidingAverage_runningMean; lia. }
  rewrite Hm in H3 by lia. subst davg.
  split; [|reflexivity].
  split; [lia|]. split; [exact H2|]. split; [exact Hab|]. split.
  - intros j Hj. rewrite <- (Hm j) by lia. apply H4. lia.
  - intros j Hj1 Hj2. rewrite <- (Hm j) by lia. apply H5; lia.
Qed.

(** A candidate of the loop of [findBestCycle] is an offered pair, with
    its profit and its cycle; and every offered pair is a candidate. *)
Lemma candidate_offered prices cw dw eff ms cs p c :
  0 <= cs -> 0 <= cw -> 0 <= dw ->
  candidate prices cw dw eff ms cs = Some (p, c) ->
  exists ds,
    offered prices cw dw eff ms cs ds
    /\ p = pairProfit prices cw dw eff cs ds
    /\ c = pairCycle prices cw dw eff cs ds.
Proof.
  intros Hcs Hcw Hdw Hcand.
  apply candidate_spec in Hcand as (ds & davg & Hw & Hq & Hp & Hc).
  destruct (findBestWindow_considered _ _ _ _ _ _ Hcs Hcw Hdw Hw) as (Hcons & Hd).
  assert (Hmean : windowAverage prices cs cw = meanOf prices cs cw).
  { destruct Hcons as (C1 & C2 & _). apply windowAverage_meanOf; lia. }
  rewrite Hmean in *. subst davg. exists ds.
  split; [split; assumption|]. split; [exact Hp|].
  rewrite Hc, Hp. reflexivity.
Qed.

Lemma offered_candidate prices cw dw eff ms cs ds :
  0 <= cs -> 0 <= cw -> 0 <= dw ->
  offered prices cw dw eff ms cs ds ->
  candidate prices cw dw eff ms cs
  = Some (pairProfit prices cw dw eff cs ds, pairCycle prices cw dw eff cs ds).
Proof.
  intros Hcs Hcw Hdw (Hcons & Hq).
  assert (Hmean : windowAverage prices cs cw = meanOf prices cs cw).
  { destruct Hcons as (C1 & C2 & _). apply windowAverage_meanOf; lia. }
  destruct (findBestWindow prices (cs + cw) dw false) as [[ds' davg] found] eqn:Hw.
  destruct found.
  - destruct (findBestWindow_considered _ _ _ _ _ _ Hcs Hcw Hdw Hw) as (Hcons' & Hd).
    assert (ds' = ds) by (eapply consideredDischarge_unique; eassumption).
    subst ds' davg. apply candidate_spec. exists ds, (dischargeMean prices cw dw cs ds).
    rewrite Hmean. repeat split; [exact Hw | exact Hq].
  - exfalso. destruct Hcons as (C1 & C2 & C3 & _).
    apply findBestWindow_none in Hw as [Hw|Hw]; [lia | | lia].
    unfold dischargeMean in C3.
    rewrite <- (slidingAverage_runningMean prices (cs + cw) dw ds) in C3 by lia.
    rewrite (Hw ds) in C3 by lia. discriminate.
Qed.

(** ** Sorting and the price range *)

Lemma insertByTime_perm p l : Permutation (insertByTime p l) (p :: l).
Proof.
  induction l as [|q l IH]; simpl; [reflexivity|].
  destruct (time.Before (PTime q) (PTime p)); [|reflexivity].
  rewrite IH. apply perm_swap.
Qed.

Lemma sortByTime_perm prices : Permutation (sortByTime prices) prices.
Proof.
  induction prices as [|p l IH]; simpl; [reflexivity|].
  rewrite insertByTime_perm. now constructor.
Qed.

Lemma len_sortByTime prices : len (sortByTime prices) = len prices.
Proof. unfold len. now rewrite (Permutation_length (sortByTime_perm prices)). Qed.

Lemma minLoop_spec (l : list Price) (m0 : float) :
  let r := fold_left (fun m p => if (p.(Value) <? m)%float then p.(Value) else m) l m0 in
  (r = m0 \/ exists p, List.In p l /\ r = p.(Value))
  /\ (forall x, (x <? m0)%float = false -> (x <? r)%float = false)
  /\ (forall p, List.In p l -> (p.(Value) <? r)%float = false).
Proof.
  revert m0. induction l as [|q l IH]; intros m0; simpl.
  - split; [now left|]. split; [auto|]. intros p [].
  - destruct (IH (if (Value q <? m0)%float then Value q else m0)) as (H1 & H2 & H3).
    split; [|split].
    + destruct H1 as [H1|(p & Hp & H1)].
      * rewrite H1. destruct (Value q <? m0)%float; [right; exists q; auto | now left].
      * right. exists p. auto.
    + intros x Hx. apply H2. destruct (Value q <? m0)%float eqn:E; [|exact Hx].
      apply F64Facts.nleb_nltb. eapply F64Facts.below_best; eassumption.
    + intros p [<-|Hp]; [|now apply H3].
      apply H2. destruct (Value q <? m0)%float eqn:E; [|exact E].
      apply F64Facts.ltb_irrefl.
Qed.

Lemma maxLoop_spec (l : list Price) (m0 : float) :
  let r := fold_left (fun m p => if (m <? p.(Value))%float then p.(Value) else m) l m0 in
  (r = m0 \/ exists p, List.In p l /\ r = p.(Value))
  /\ (forall x, (m0 <? x)%float = false -> (r <? x)%float = false)
  /\ (forall p, List.In p l -> (r <? p.(Value))%float = false).
Proof.
  revert m0. induction l as [|q l IH]; intros m0; simpl.
  - split; [now left|]. split; [auto|]. intros p [].
  - destruct (IH (if (m0 <? Value q)%float then Value q else m0)) as (H1 & H2 & H3).
    split; [|split].
    + destruct H1 as [H1|(p & Hp & H1)].
      * rewrite H1. destruct (m0 <? Value q)%float; [right; exists q; auto | now left].
      * right. exists p. auto.
    + intros x Hx. apply H2. destruct (m0 <? Value q)%float eqn:E; [|exact Hx].
      apply F64Facts.nleb_nltb. eapply F64Facts.above_best; eassumption.
    + intros p [<-|Hp]; [|now apply H3].
      apply H2. destruct (m0 <? Value q)%float eqn:E; [|exact E].
      apply F64Facts.ltb_irrefl.
Qed.

(** The minimum the analyzer reports is the price of one of the points and
    no point is priced below it; likewise for the maximum. *)
Lemma minPriceOf_spec prices :
  prices <> [] ->
  (exists p, List.In p prices /\ minPriceOf (sortByTime prices) = p.(Value))
  /\ forall p, List.In p prices ->
       (p.(Value) <? minPriceOf (sortByTime prices))%float = false.
Proof.
  intros Hne. pose proof (sortByTime_perm prices) as Hperm.
  destruct (sortByTime prices) as [|q l] eqn:Es.
  { apply Permutation_nil in Hperm. congruence. }
  unfold minPriceOf. change (nthZ (q :: l) 0) with q.
  destruct (minLoop_spec (q :: l) (Value q)) as (H1 & _ & H3).
  split.
  - destruct H1 as [H1|(p & Hp & H1)].
    + exists q. split; [|exact H1]. eapply Permutation_in; [exact Hperm | now left].
    + exists p. split; [|exact H1]. eapply Permutation_in; eassumption.
  - intros p Hp. apply H3. eapply Permutation_in; [symmetry; exact Hperm | exact Hp].
Qed.

Lemma maxPriceOf_spec prices :
  prices <> [] ->
  (exists p, List.In p prices /\ maxPriceOf (sortByTime prices) = p.(Value))
  /\ forall p, List.In p prices ->
       (maxPriceOf (sortByTime prices) <? p.(Value))%float = false.
Proof.
  intros Hne. pose proof (sortByTime_perm prices) as Hperm.
  destruct (sortByTime prices) as [|q l] eqn:Es.
  { apply Permutation_nil in Hperm. congruence. }
  unfold maxPriceOf. change (nthZ (q :: l) 0) with q.
  destruct (maxLoop_spec (q :: l) (Value q)) as (H1 & _ & H3).
  split.
  - destruct H1 as [H1|(p & Hp & H1)].
    + exists q. split; [|exact H1]. eapply Permutation_in; [exact Hperm | now left].
    + exists p. split; [|exact H1]. eapply Permutation_in; eassumption.
  - intros p Hp. apply H3. eapply Permutation_in; [symmetry; exact Hperm | exact Hp].
Qed.

(** The first slot of the sorted list is a point of the input and no point
    of the input is earlier. *)
Lemma insertByTime_head p l :
  (forall q, List.In q l -> time.Before q.(PTime) (nthZ l 0).(PTime) = false) ->
  forall q, List.In q (p :: l) ->
    time.Before q.(PTime) (nthZ (insertByTime p l) 0).(PTime) = false.
Proof.
  intros Hl q Hq. unfold time.Before in *.
  setoid_rewrite Z.ltb_ge in Hl. rewrite Z.ltb_ge.
  destruct l as [|h l]; simpl.
  - destruct Hq as [<-|[]]. change (nthZ [p] 0) with p. lia.
  - change (nthZ (h :: l) 0) with h in Hl. unfold time.Before.
    destruct (Z.ltb_spec (time.unixNano (PTime h)) (time.unixNano (PTime p))) as [Hlt|Hge].
    + change (nthZ (h :: insertByTime p l) 0) with h.
      destruct Hq as [<-|Hq]; [lia|]. exact (Hl q Hq).
    + change (nthZ (p :: h :: l) 0) with p.
      destruct Hq as [<-|Hq]; [lia|]. specialize (Hl q Hq). lia.
Qed.

Lemma sortByTime_head prices :
  forall q, List.In q prices ->
    time.Before q.(PTime) (nthZ (sortByTime prices) 0).(PTime) = false.
Proof.
  induction prices as [|p l IH]; intros q Hq; [destruct Hq|].
  simpl sortByTime. apply insertByTime_head.
  - intros r Hr. apply IH. eapply Permutation_in; [apply sortByTime_perm | exact Hr].
  - destruct Hq as [<-|Hq]; [now left|]. right.
    eapply Permutation_in; [symmetry; apply sortByTime_perm | exact Hq].
Qed.

Lemma sortByTime_first_In prices :
  prices <> [] -> List.In (nthZ (sortByTime prices) 0) prices.
Proof.
  intros Hne. eapply Permutation_in; [apply sortByTime_perm|].
  unfold nthZ. simpl. apply nth_In.
  rewrite (Permutation_length (sortByTime_perm prices)).
  destruct prices; [congruence | simpl; lia].
Qed.

(** [localMidnight] is the start of the calendar day, in the location the
    instant carries. *)
Lemma localMidnight_spec (t : Time) : midnightOf t (localMidnight t).
Proof.
  assert (Hday : 0 < time.Day) by reflexivity.
  unfold midnightOf, localMidnight, localNanos, time.civilDay.
  cbn [time.unixNano time.location].
  set (w := time.unixNano t + time.zoneOffset (time.location t) * time.Second).
  replace (w / time.Day * time.Day
           - time.zoneOffset (time.location t) * time.Second
           + time.zoneOffset (time.location t) * time.Second)
    with (w / time.Day * time.Day) by lia.
  split; [reflexivity|]. split; [apply Z.mod_mul; lia|].
  pose proof (Z.div_mod w time.Day ltac:(lia)).
  pose proof (Z.mod_pos_bound w time.Day Hday). lia.
Qed.

(** ** The shape of a plan *)

Lemma AnalyzePrices_empty cfg : AnalyzePrices [] cfg = zeroPlan.
Proof. reflexivity. Qed.

Lemma AnalyzePrices_insufficient prices cfg :
  prices <> [] ->
  len prices < chargeWindowSizeOf cfg \/ len prices < dischargeWindowSizeOf cfg ->
  AnalyzePrices prices cfg =
    {| Date := localMidnight (nthZ (sortByTime prices) 0).(PTime);
       ChargeWindows := []; DischargeWindows := []; Cycles := [];
       MinPrice := minPriceOf (sortByTime prices);
       MaxPrice := maxPriceOf (sortByTime prices);
       Spread := (maxPriceOf (sortByTime prices) - minPriceOf (sortByTime prices))%float;
       IsProfitable := false |}.
Proof.
  intros Hne Hshort. unfold AnalyzePrices.
  destruct (Z.eqb_spec (len prices) 0) as [H0|_].
  { destruct prices; [congruence|]. rewrite len_cons in H0. pose proof (len_nonneg prices). lia. }
  rewrite len_sortByTime.
  destruct (Z.ltb_spec (len prices) (chargeWindowSizeOf cfg));
    destruct (Z.ltb_spec (len prices) (dischargeWindowSizeOf cfg)); simpl; try reflexivity.
  lia.
Qed.

Lemma AnalyzePrices_profitable prices cfg :
  IsProfitable (AnalyzePrices prices cfg) = true <-> Cycles (AnalyzePrices prices cfg) <> [].
Proof.
  unfold AnalyzePrices.
  destruct (len prices =? 0); [simpl; split; [discriminate | congruence]|].
  destruct (_ || _); [simpl; split; [discriminate | congruence]|].
  cbn [IsProfitable Cycles].
  destruct (searchCycles _ _ _ _ _ _ _ _) as [|c l].
  - simpl. split; [discriminate | congruence].
  - rewrite len_cons. pose proof (len_nonneg l). split; [discriminate|].
    intros _. apply Z.ltb_lt. lia.
Qed.

(** ** Claims about the plan *)

(** C1 (amended). For a price list that, sorted by time, is made of
    contiguous 15-minute slots, and for every configuration: in every cycle
    of the plan the charge window ends no later than the discharge window
    starts (and both windows are proper intervals), every cycle starts
    charging at or after the end of the discharge window of the cycle before
    it, and the number of cycles is at most the cycle limit in force: the
    configured maximum when it is positive, 2 when it is not. *)
Theorem plan_cycles_ordered (prices : list Price) (cfg : AnalyzerConfig) :
  contiguous (sortByTime prices) = true ->
  Forall cycleOrdered (Cycles (AnalyzePrices prices cfg))
  /\ chained (Cycles (AnalyzePrices prices cfg))
  /\ len (Cycles (AnalyzePrices prices cfg)) <= maxCyclesOf cfg
  /\ (0 < MaxCyclesPerDay cfg -> maxCyclesOf cfg = MaxCyclesPerDay cfg)
  /\ (MaxCyclesPerDay cfg <= 0 -> maxCyclesOf cfg = 2).
Proof.
  intros Hc.
  assert (Hmax : (0 < MaxCyclesPerDay cfg -> maxCyclesOf cfg = MaxCyclesPerDay cfg)
                 /\ (MaxCyclesPerDay cfg <= 0 -> maxCyclesOf cfg = 2)).
  { unfold maxCyclesOf. zbool; split; intros; lia. }
  assert (Hpos : 0 < maxCyclesOf cfg) by (unfold maxCyclesOf; zbool; lia).
  unfold AnalyzePrices.
  destruct (len prices =? 0).
  { cbn [Cycles zeroPlan]. split; [constructor|]. split; [intros i c d H; discriminate|].
    split; [|exact Hmax]. change (len (@nil TradeCycle)) with 0. lia. }
  destruct (_ || _).
  { cbn [Cycles zeroPlan]. split; [constructor|]. split; [intros i c d H; discriminate|].
    split; [|exact Hmax]. change (len (@nil TradeCycle)) with 0. lia. }
  cbn [Cycles].
  destruct (searchCycles_ordered (sortByTime prices)
              (chargeWindowSizeOf cfg) (dischargeWindowSizeOf cfg)
              (Efficiency cfg) (MinPriceSpread cfg) Hc
              (calculateWindowSize_pos _ _) (calculateWindowSize_pos _ _)
              (Z.to_nat (maxCyclesOf cfg)) 0
              (time.unixNano (nthZ (sortByTime prices) 0).(PTime)) [])
    as (Ho & Hn); [lia | exact I | unfold lastEnd; simpl; lia |].
  split; [eapply orderedFrom_Forall; exact Ho|].
  split; [eapply orderedFrom_chained; exact Ho|].
  split; [|exact Hmax].
  unfold len. simpl in Hn. lia.
Qed.

Lemma plan_cycles_ordered_witness :
  contiguous (sortByTime prices6) = true
  /\ Forall cycleOrdered (Cycles (AnalyzePrices prices6 smallWindowConfig))
  /\ len (Cycles (AnalyzePrices prices6 smallWindowConfig)) <= maxCyclesOf smallWindowConfig.
Proof.
  split; [reflexivity|].
  pose proof (plan_cycles_ordered prices6 smallWindowConfig eq_refl) as (H1 & _ & H3 & _).
  split; [exact H1 | exact H3].
Defined.

(** C1 as stated fails where no cycle limit is configured: with
    [MaxCyclesPerDay = 0] the analyzer falls back to two rounds and returns
    a cycle, which is more than the configured zero. *)
Lemma cycles_exceed_unset_max :
  contiguous (sortByTime prices6) = true
  /\ len (Cycles (AnalyzePrices prices6 unsetMaxConfig)) = 1
  /\ ~ len (Cycles (AnalyzePrices prices6 unsetMaxConfig)) <= MaxCyclesPerDay unsetMaxConfig.
Proof.
  split; [reflexivity|]. split; [vm_compute; reflexivity|].
  vm_compute. intros H. apply H. reflexivity.
Qed.

(** C6. A non-empty price list shorter than the charge or the discharge
    window yields a plan with the date of its earliest slot, its minimum,
    maximum and spread, no windows, no cycles and [IsProfitable] false. The
    date is the start of the calendar day of the earliest slot, in the
    location that slot carries: its wall clock reads 00:00:00 and the slot
    lies in the 24 hours after it. The minimum and the maximum are prices
    of the input that no price of the input is below, respectively above.
    And for every input [IsProfitable] is true exactly when the plan has a
    cycle. *)
Theorem insufficient_data_plan :
  (forall prices cfg,
     prices <> [] ->
     len prices < chargeWindowSizeOf cfg \/ len prices < dischargeWindowSizeOf cfg ->
     let plan := AnalyzePrices prices cfg in
     plan = {| Date := localMidnight (nthZ (sortByTime prices) 0).(PTime);
               ChargeWindows := []; DischargeWindows := []; Cycles := [];
               MinPrice := minPriceOf (sortByTime prices);
               MaxPrice := maxPriceOf (sortByTime prices);
               Spread := (maxPriceOf (sortByTime prices)
                          - minPriceOf (sortByTime prices))%float;
               IsProfitable := false |}
     /\ (exists e, List.In e prices
           /\ (forall p, List.In p prices -> time.Before p.(PTime) e.(PTime) = false)
           /\ midnightOf e.(PTime) (Date plan))
     /\ Spread plan = (MaxPrice plan - MinPrice plan)%float
     /\ (forall p, List.In p prices ->
           time.Before p.(PTime) (nthZ (sortByTime prices) 0).(PTime) = false)
     /\ (exists p, List.In p prices /\ MinPrice plan = p.(Value))
     /\ (forall p, List.In p prices -> (p.(Value) <? MinPrice plan)%float = false)
     /\ (exists p, List.In p prices /\ MaxPrice plan = p.(Value))
     /\ (forall p, List.In p prices -> (MaxPrice plan <? p.(Value))%float = false))
  /\ (forall prices cfg,
        IsProfitable (AnalyzePrices prices cfg) = true
        <-> Cycles (AnalyzePrices prices cfg) <> []).
Proof.
  split; [|exact AnalyzePrices_profitable].
  intros prices cfg Hne Hshort plan.
  assert (Hplan := AnalyzePrices_insufficient prices cfg Hne Hshort).
  fold plan in Hplan. split; [exact Hplan|].
  split.
  { exists (nthZ (sortByTime prices) 0).
    split; [apply sortByTime_first_In, Hne|].
    split; [apply sortByTime_head|].
    rewrite Hplan. cbn [Date]. apply localMidnight_spec. }
  split; [rewrite Hplan; reflexivity|].
  split; [apply sortByTime_head|].
  rewrite Hplan. cbn [MinPrice MaxPrice].
  destruct (minPriceOf_spec prices Hne) as (H1 & H2).
  destruct (maxPriceOf_spec prices Hne) as (H3 & H4).
  auto.
Qed.

(** Four slots from 22:30 at UTC+1 are too few for the default windows of
    eight: the plan is dated 2024-01-15 00:00 at UTC+1, not 22:30. *)
Lemma insufficient_data_plan_witness :
  pricesEvening <> []
  /\ (len pricesEvening < chargeWindowSizeOf defaultTestConfig
      \/ len pricesEvening < dischargeWindowSizeOf defaultTestConfig)
  /\ (exists e, List.In e pricesEvening
        /\ midnightOf e.(PTime) (Date (AnalyzePrices pricesEvening defaultTestConfig)))
  /\ Date (AnalyzePrices pricesEvening defaultTestConfig)
     = {| time.unixNano := 1705273200 * time.Second;
          time.location := time.FixedZone 3600 |}
  /\ Cycles (AnalyzePrices pricesEvening defaultTestConfig) = []
  /\ IsProfitable (AnalyzePrices pricesEvening defaultTestConfig) = false.
Proof.
  assert (Hne : pricesEvening <> []) by discriminate.
  assert (Hshort : len pricesEvening < chargeWindowSizeOf defaultTestConfig
                   \/ len pricesEvening < dischargeWindowSizeOf defaultTestConfig)
    by (left; vm_compute; reflexivity).
  split; [exact Hne|]. split; [exact Hshort|].
  destruct (proj1 insufficient_data_plan pricesEvening defaultTestConfig Hne Hshort)
    as (Hplan & (e & He & _ & Hmid) & _).
  split; [exists e; split; [exact He | exact Hmid]|].
  rewrite Hplan. split; [vm_compute; reflexivity|]. split; reflexivity.
Defined.

(** C10. The empty price list yields the zero plan: zero date, no windows,
    no cycles, minimum, maximum and spread 0, [IsProfitable] false. The
    plan of a non-empty list that is too short differs: it has the date of
    the earliest slot and the minimum, maximum and spread of the input. *)
Theorem empty_input_plan :
  (forall cfg,
     AnalyzePrices [] cfg =
       {| Date := time.zero; ChargeWindows := []; DischargeWindows := [];
          Cycles := []; MinPrice := 0; MaxPrice := 0; Spread := 0;
          IsProfitable := false |})
  /\ (forall prices cfg,
        prices <> [] ->
        len prices < chargeWindowSizeOf cfg \/ len prices < dischargeWindowSizeOf cfg ->
        let plan := AnalyzePrices prices cfg in
        Date plan = localMidnight (nthZ (sortByTime prices) 0).(PTime)
        /\ MinPrice plan = minPriceOf (sortByTime prices)
        /\ MaxPrice plan = maxPriceOf (sortByTime prices)
        /\ Spread plan = (maxPriceOf (sortByTime prices)
                          - minPriceOf (sortByTime prices))%float
        /\ Cycles plan = [] /\ IsProfitable plan = false)
  /\ AnalyzePrices prices4short defaultTestConfig <> AnalyzePrices [] defaultTestConfig.
Proof.
  split; [intros cfg; apply AnalyzePrices_empty|]. split.
  - intros prices cfg Hne Hshort plan. unfold plan.
    rewrite (AnalyzePrices_insufficient prices cfg Hne Hshort). repeat split.
  - intros H. apply (f_equal (fun p => time.unixNano (Date p))) in H.
    vm_compute in H. discriminate.
Qed.

Lemma empty_input_plan_witness :
  prices4short <> []
  /\ (len prices4short < chargeWindowSizeOf defaultTestConfig
      \/ len prices4short < dischargeWindowSizeOf defaultTestConfig)
  /\ Date (AnalyzePrices prices4short defaultTestConfig) = baseTime.
Proof.
  assert (Hne : prices4short <> []) by discriminate.
  assert (Hshort : len prices4short < chargeWindowSizeOf defaultTestConfig
                   \/ len prices4short < dischargeWindowSizeOf defaultTestConfig)
    by (left; vm_compute; reflexivity).
  split; [exact Hne|]. split; [exact Hshort|].
  destruct (proj1 (proj2 empty_input_plan) prices4short defaultTestConfig Hne Hshort)
    as (Hdate & _).
  rewrite Hdate. vm_compute. reflexivity.
Defined.

(** ** Window sizing *)

(** [F64.ceilZ] is the ceiling of the exact value [±m * 2^e] of a finite
    float. *)
Lemma ceilZ_finite (x : float) (s : bool) (m : positive) (e : Z) :
  Prim2SF x = S754_finite s m e ->
  exists c, F64.ceilZ x = Some c
    /\ let n := if s then - Z.pos m else Z.pos m in
       if 0 <=? e then c = n * 2 ^ e
       else (c - 1) * 2 ^ (- e) < n <= c * 2 ^ (- e).
Proof.
  intros H. unfold F64.ceilZ. rewrite H.
  destruct (Z.leb_spec 0 e) as [He|He].
  - eexists. split; [reflexivity|]. destruct s; simpl; lia.
  - assert (Hp : 0 < 2 ^ (- e)) by (apply Z.pow_pos_nonneg; lia).
    destruct s; eexists; (split; [reflexivity|]); simpl.
    + pose proof (Z.mul_div_le (Z.pos m) _ Hp).
      pose proof (Z.mul_succ_div_gt (Z.pos m) _ Hp). nia.
    + pose proof (Z.mul_div_le (- Z.pos m) _ Hp).
      pose proof (Z.mul_succ_div_gt (- Z.pos m) _ Hp). nia.
Qed.



(** ** Cycle selection *)

Lemma qualifies_away_from_nan eff ms c d :
  F64.is_nan d = false -> F64.is_nan (c / eff)%float = false ->
  F64.is_nan (d - c)%float = false -> F64.is_nan ms = false ->
  qualifies eff ms c d = ((c / eff <? d)%float && (ms <=? d - c)%float).
Proof.
  intros H1 H2 H3 H4. unfold qualifies. rewrite negb_orb.
  rewrite F64Facts.nleb_ltb, F64Facts.nltb_leb by assumption. reflexivity.
Qed.

(** C2 (amended). In a round of the cycle search from [s], over windows of
    [cw] and [dw] slots:
    - away from NaN, a pair qualifies exactly when
      [discharge_mean > charge_mean / efficiency] and
      [discharge_mean - charge_mean >= min_spread];
    - the charge mean of a pair is the mean of the prices of the charge
      window; its discharge mean is the running average of the sliding-sum
      technique, slid from the end of the charge window;
    - for a charge window one discharge window at most is considered: the
      one at or after its end whose discharge mean is highest (and above
      [-MaxFloat64]), the leftmost on equal discharge means; the pair is
      offered when it qualifies;
    - the cycle returned is an offered pair: its windows run from the start
      of their first slot to the end of their last and carry their means,
      its profit is [discharge_mean * efficiency - charge_mean], strictly
      above the profit of every pair offered for an earlier charge window
      and not below that of any pair offered for a later one: the most
      profitable offered pair, the leftmost on equal profit;
    - when nothing is returned, no offered pair of the range has a profit
      above [-MaxFloat64]. *)
Theorem best_cycle_selection (prices : list Price) (s cw dw : Z) (eff ms : float) :
  0 <= s -> 0 <= cw -> 0 <= dw ->
  (forall c d,
     F64.is_nan d = false -> F64.is_nan (c / eff)%float = false ->
     F64.is_nan (d - c)%float = false -> F64.is_nan ms = false ->
     qualifies eff ms c d = ((c / eff <? d)%float && (ms <=? d - c)%float))
  /\ (forall cs d1 d2,
        consideredDischarge prices cw dw cs d1 ->
        consideredDischarge prices cw dw cs d2 -> d1 = d2)
  /\ (forall cycle,
        findBestCycle prices s cw dw eff ms = (cycle, true) ->
        exists k ds,
          s <= k /\ offered prices cw dw eff ms k ds
          /\ cycle = pairCycle prices cw dw eff k ds
          /\ (forall i di, s <= i < k ->
                offered prices cw dw eff ms i di ->
                (pairProfit prices cw dw eff k ds
                 <=? pairProfit prices cw dw eff i di)%float = false)
          /\ (forall i di, k <= i ->
                offered prices cw dw eff ms i di ->
                (pairProfit prices cw dw eff k ds
                 <? pairProfit prices cw dw eff i di)%float = false))
  /\ (forall cycle,
        findBestCycle prices s cw dw eff ms = (cycle, false) ->
        cycle = zeroCycle
        /\ forall i di, s <= i ->
             offered prices cw dw eff ms i di ->
             (PrimFloat.opp F64.MaxFloat64
              <? pairProfit prices cw dw eff i di)%float = false).
Proof.
  intros Hs Hcw Hdw. split; [|split; [|split]].
  - intros c d. apply qualifies_away_from_nan.
  - intros cs d1 d2. apply consideredDischarge_unique.
  - intros cycle Hfound.
    apply findBestCycle_found in Hfound as (k & Hk1 & Hk2 & Hck & Hbefore & Hafter).
    assert (Hk0 : 0 <= k) by lia.
    destruct (candidate_offered _ _ _ _ _ _ _ _ Hk0 Hcw Hdw Hck)
      as (ds & Hoff & Hp & Hc).
    exists k, ds. split; [exact Hk1|]. split; [exact Hoff|]. split; [exact Hc|].
    rewrite <- Hp. split.
    + intros i di Hi Hoffi. eapply Hbefore; [exact Hi|].
      apply offered_candidate; [lia | exact Hcw | exact Hdw | exact Hoffi].
    + intros i di Hi Hoffi.
      assert (Hroom : i + cw <= len prices).
      { destruct Hoffi as ((C1 & C2 & _) & _). lia. }
      eapply Hafter; [exact Hi | exact Hroom |].
      apply offered_candidate; [lia | exact Hcw | exact Hdw | exact Hoffi].
  - intros cycle Hnone.
    apply findBestCycle_none in Hnone as (Hz & Hall). split; [exact Hz|].
    intros i di Hi Hoffi.
    assert (Hroom : i + cw <= len prices).
    { destruct Hoffi as ((C1 & C2 & _) & _). lia. }
    eapply Hall; [exact Hi | exact Hroom |].
    apply offered_candidate; [lia | exact Hcw | exact Hdw | exact Hoffi].
Qed.

(** On the six alternating prices with windows of one slot the round keeps
    the pair of the last charge window that leaves room, 01:00 at 0.04,
    with the discharge window after it, 01:15 at 0.22. *)
Lemma best_cycle_selection_witness :
  0 <= 0 /\ 0 <= 1 /\ 0 <= 1
  /\ findBestCycle prices6 0 1 1 0.9%float 0.01%float
     = (pairCycle prices6 1 1 0.9%float 4 5, true)
  /\ exists k ds,
       offered prices6 1 1 0.9%float 0.01%float k ds
       /\ pairCycle prices6 1 1 0.9%float 4 5 = pairCycle prices6 1 1 0.9%float k ds.
Proof.
  split; [lia|]. split; [lia|]. split; [lia|].
  assert (Hr : findBestCycle prices6 0 1 1 0.9%float 0.01%float
               = (pairCycle prices6 1 1 0.9%float 4 5, true))
    by (vm_compute; reflexivity).
  split; [exact Hr|].
  destruct (best_cycle_selection prices6 0 1 1 0.9%float 0.01%float)
    as (_ & _ & H & _); [lia | lia | lia |].
  destruct (H _ Hr) as (k & ds & _ & Hoff & Hc & _).
  exists k, ds. split; [exact Hoff | exact Hc].
Defined.

(** C2 as stated fails on ties of equal window averages. In [pricesTie]
    the windows of two slots at 00:45 and at 01:00 hold the same two
    prices and have the same mean, which no window after the charge window
    exceeds; the claim sends the discharge to the leftmost, 00:45. The
    search compares running averages: sliding from 00:30 the sum picks up
    a rounding error, the window at 01:00 comes out one unit in the last
    place higher, and the plan discharges at 01:00. *)
Lemma equal_means_later_window_chosen :
  sortByTime pricesTie = pricesTie
  /\ contiguous pricesTie = true
  /\ chargeWindowSizeOf twoSlotAnalyzer = 2
  /\ dischargeWindowSizeOf twoSlotAnalyzer = 2
  /\ meanOf pricesTie 3 2 = meanOf pricesTie 4 2
  /\ Forall (fun j => (meanOf pricesTie 3 2 <? meanOf pricesTie j 2)%float = false)
            [2; 3; 4; 5]
  /\ (dischargeMean pricesTie 2 2 0 3 <? dischargeMean pricesTie 2 2 0 4)%float = true
  /\ exists c,
       Cycles (AnalyzePrices pricesTie twoSlotAnalyzer) = [c]
       /\ c.(ChargeWindow).(Start) = (nthZ pricesTie 0).(PTime)
       /\ c.(DischargeWindow).(Start) = (nthZ pricesTie 4).(PTime)
       /\ c.(DischargeWindow).(Start) <> (nthZ pricesTie 3).(PTime).
Proof.
  split; [vm_compute; reflexivity|]. split; [reflexivity|].
  split; [vm_compute; reflexivity|]. split; [vm_compute; reflexivity|].
  split; [vm_compute; reflexivity|].
  split; [repeat constructor|].
  split; [vm_compute; reflexivity|].
  eexists. split; [vm_compute; reflexivity|].
  split; [vm_compute; reflexivity|]. split; [vm_compute; reflexivity|].
  vm_compute. discriminate.
Qed.
(** * Further properties of the analyzer *)

(** ** Looking up slots *)

Lemma GetCurrentPrice_covering (prices : list Price) (t : Time) :
  match GetCurrentPrice prices t with
  | (v, true) =>
      exists l1 p l2,
        prices = l1 ++ p :: l2 /\ v = p.(Value) /\ covers p t = true
        /\ forall q, List.In q l1 -> covers q t = false
  | (v, false) => v = 0%float /\ forall q, List.In q prices -> covers q t = false
  end.
Proof.
  induction prices as [|p l IH]; simpl.
  - split; [reflexivity|]. intros q [].
  - assert (Hc : negb (time.Before t (PTime p)) && time.Before t (time.Add (PTime p) slot)
                 = covers p t).
    { unfold covers, time.Before, time.Add. cbn [time.unixNano].
      destruct (Z.ltb_spec (time.unixNano t) (time.unixNano (PTime p)));
        destruct (Z.leb_spec (time.unixNano (PTime p)) (time.unixNano t));
        try lia; reflexivity. }
    rewrite Hc. destruct (covers p t) eqn:Ecov.
    + exists [], p, l. repeat split; auto. intros q [].
    + destruct (GetCurrentPrice l t) as [v []].
      * destruct IH as (l1 & q & l2 & -> & Hv & Hq & Hl1).
        exists (p :: l1), q, l2. repeat split; auto.
        intros r [<-|Hr]; auto.
      * destruct IH as (Hv & Hall). split; [exact Hv|].
        intros q [<-|Hq]; auto.
Qed.

(** X1. [GetCurrentPrice] returns the price of the first slot of the list that
    contains [t]; it reports no price, with the value 0, exactly when no
    slot contains [t]. *)
Theorem GetCurrentPrice_first_covering (prices : list Price) (t : Time) :
  match GetCurrentPrice prices t with
  | (v, true) =>
      exists l1 p l2,
        prices = l1 ++ p :: l2 /\ v = p.(Value) /\ covers p t = true
        /\ forall q, List.In q l1 -> covers q t = false
  | (v, false) => v = 0%float /\ forall q, List.In q prices -> covers q t = false
  end.
Proof. apply GetCurrentPrice_covering. Qed.

Lemma findSlotIndexFrom_spec (prices : list Price) (t : Time) (k : Z) :
  let i := findSlotIndexFrom k prices t in
  (i = -1 /\ forall p, List.In p prices -> time.unixNano p.(PTime) < time.unixNano t)
  \/ (k <= i < k + len prices
      /\ time.unixNano t <= time.unixNano (nthZ prices (i - k)).(PTime)
      /\ forall j, 0 <= j < i - k ->
           time.unixNano (nthZ prices j).(PTime) < time.unixNano t).
Proof.
  revert k. induction prices as [|p l IH]; intros k; cbn [findSlotIndexFrom].
  - left. split; [reflexivity|]. intros p [].
  - rewrite len_cons. pose proof (len_nonneg l) as Hl. unfold time.Before.
    destruct (Z.ltb_spec (time.unixNano (PTime p)) (time.unixNano t)) as [Eb|Eb];
      cbn [negb]; cbv iota.
    + destruct (IH (k + 1)) as [(Hi & Hall)|(Hr & Hi & Hbefore)].
      * left. split; [exact Hi|]. intros q [<-|Hq]; auto.
      * right. cbv zeta in *. set (i := findSlotIndexFrom (k + 1) l t) in *.
        split; [lia|]. split.
        -- rewrite nthZ_cons by lia. now replace (i - k - 1) with (i - (k + 1)) by lia.
        -- intros j Hj. destruct (Z.eq_dec j 0) as [->|Hne]; [exact Eb|].
           rewrite nthZ_cons by lia. apply Hbefore. lia.
    + right. replace (k - k) with 0 by lia. split; [lia|]. split; [exact Eb|].
      intros j Hj. lia.
Qed.

(** X2. [findSlotIndex] returns the index of the first slot of the list that
    starts at or after [t], and [-1] exactly when every slot starts before
    [t]. *)
Theorem findSlotIndex_first_at_or_after (prices : list Price) (t : Time) :
  let i := findSlotIndex prices t in
  (i = -1 /\ forall p, List.In p prices -> time.unixNano p.(PTime) < time.unixNano t)
  \/ (0 <= i < len prices
      /\ time.unixNano t <= time.unixNano (nthZ prices i).(PTime)
      /\ forall j, 0 <= j < i ->
           time.unixNano (nthZ prices j).(PTime) < time.unixNano t).
Proof.
  unfold findSlotIndex. pose proof (findSlotIndexFrom_spec prices t 0) as H.
  cbv zeta in *. set (i := findSlotIndexFrom 0 prices t) in *.
  replace (i - 0) with i in H by lia. exact H.
Qed.

(** ** What the cycles of a plan are *)

Lemma chargeWindowSizeOf_pos (cfg : AnalyzerConfig) : 1 <= chargeWindowSizeOf cfg.
Proof. apply calculateWindowSize_pos. Qed.

Lemma dischargeWindowSizeOf_pos (cfg : AnalyzerConfig) : 1 <= dischargeWindowSizeOf cfg.
Proof. apply calculateWindowSize_pos. Qed.

Lemma findBestCycle_offered sorted start cw dw eff ms cycle :
  0 <= start -> 0 <= cw -> 0 <= dw ->
  findBestCycle sorted start cw dw eff ms = (cycle, true) ->
  offeredCycle sorted cw dw eff ms start cycle.
Proof.
  intros Hs Hcw Hdw Hf.
  apply findBestCycle_found in Hf as (k & Hk1 & Hk2 & Hcand & _).
  assert (Hk0 : 0 <= k) by lia.
  destruct (candidate_offered _ _ _ _ _ _ _ _ Hk0 Hcw Hdw Hcand) as (ds & Hoff & _ & Hc).
  exists k, ds. auto.
Qed.

Lemma searchCycles_offered sorted cw dw eff ms :
  0 <= cw -> 0 <= dw ->
  forall (n : nat) (start : Z) (cycles : list TradeCycle),
    0 <= start ->
    Forall (offeredCycle sorted cw dw eff ms 0) cycles ->
    Forall (offeredCycle sorted cw dw eff ms 0)
           (searchCycles sorted cw dw eff ms n start cycles).
Proof.
  intros Hcw Hdw. induction n as [|n IH]; intros start cycles Hs Hall; [exact Hall|].
  cbn [searchCycles].
  destruct (findBestCycle sorted start cw dw eff ms) as [cycle found] eqn:Ef.
  destruct found; cbn [negb]; cbv iota; [|exact Hall].
  destruct (findBestCycle_offered _ _ _ _ _ _ _ Hs Hcw Hdw Ef) as (k & ds & Hk & Hoff & Hc).
  assert (Hall' : Forall (offeredCycle sorted cw dw eff ms 0) (cycles ++ [cycle])).
  { apply Forall_app. split; [exact Hall|]. constructor; [|constructor].
    exists k, ds. split; [lia|]. auto. }
  set (next := findSlotIndex sorted (End_ (DischargeWindow cycle))).
  destruct (Z.ltb_spec next 0); [exact Hall'|].
  destruct (Z.leb_spec (len sorted) next); [exact Hall'|].
  cbn [orb]. cbv iota. apply IH; [lia | exact Hall'].
Qed.

Lemma plan_cycles_offeredCycle (prices : list Price) (cfg : AnalyzerConfig) :
  Forall (offeredCycle (sortByTime prices) (chargeWindowSizeOf cfg)
                       (dischargeWindowSizeOf cfg) cfg.(Efficiency)
                       cfg.(MinPriceSpread) 0)
         (AnalyzePrices prices cfg).(Cycles).
Proof.
  unfold AnalyzePrices.
  destruct (len prices =? 0); [constructor|].
  destruct (_ || _); [constructor|].
  cbn [Cycles].
  pose proof (calculateWindowSize_pos (usableCapacity cfg) (ChargePowerW cfg)) as Hcw.
  pose proof (calculateWindowSize_pos (usableCapacity cfg) (DischargePowerW cfg)) as Hdw.
  apply searchCycles_offered;
    [unfold chargeWindowSizeOf; lia | unfold dischargeWindowSizeOf; lia | lia | constructor].
Qed.

Lemma plan_windows_of_cycles (prices : list Price) (cfg : AnalyzerConfig) :
  let plan := AnalyzePrices prices cfg in
  plan.(ChargeWindows) = map ChargeWindow plan.(Cycles)
  /\ plan.(DischargeWindows) = map DischargeWindow plan.(Cycles).
Proof.
  cbv zeta. unfold AnalyzePrices.
  destruct (len prices =? 0); [split; reflexivity|].
  destruct (_ || _); split; reflexivity.
Qed.


(** ** Windows of a plan over contiguous slots *)

Lemma offeredCycle_times sorted cw dw eff ms c :
  contiguous sorted = true -> 1 <= cw -> 1 <= dw ->
  offeredCycle sorted cw dw eff ms 0 c ->
  let t0 := time.unixNano (nthZ sorted 0).(PTime) in
  exists k ds,
    0 <= k /\ k + cw <= ds /\ ds + dw <= len sorted
    /\ startsAt c.(ChargeWindow) = t0 + k * slot
    /\ endsAt c.(ChargeWindow) = t0 + (k + cw) * slot
    /\ startsAt c.(DischargeWindow) = t0 + ds * slot
    /\ endsAt c.(DischargeWindow) = t0 + (ds + dw) * slot.
Proof.
  intros Hc Hcw Hdw (k & ds & Hk & ((H1 & H2 & _) & _) & ->) t0.
  exists k, ds. split; [exact Hk|]. split; [exact H1|]. split; [exact H2|].
  unfold startsAt, endsAt, pairCycle, time.Add.
  cbn [ChargeWindow DischargeWindow Start End_ time.unixNano].
  rewrite (contiguous_nth sorted Hc k), (contiguous_nth sorted Hc (k + cw - 1)),
    (contiguous_nth sorted Hc ds), (contiguous_nth sorted Hc (ds + dw - 1)) by lia.
  fold t0. change (15 * time.Minute) with slot. repeat split; lia.
Qed.

Lemma plan_cycle_times (prices : list Price) (cfg : AnalyzerConfig) (c : TradeCycle) :
  contiguous (sortByTime prices) = true ->
  List.In c (AnalyzePrices prices cfg).(Cycles) ->
  let t0 := time.unixNano (nthZ (sortByTime prices) 0).(PTime) in
  let cw := chargeWindowSizeOf cfg in
  let dw := dischargeWindowSizeOf cfg in
  exists k ds,
    0 <= k /\ k + cw <= ds /\ ds + dw <= len prices
    /\ startsAt c.(ChargeWindow) = t0 + k * slot
    /\ endsAt c.(ChargeWindow) = t0 + (k + cw) * slot
    /\ startsAt c.(DischargeWindow) = t0 + ds * slot
    /\ endsAt c.(DischargeWindow) = t0 + (ds + dw) * slot.
Proof.
  intros Hc Hin. cbv zeta.
  pose proof (plan_cycles_offeredCycle prices cfg) as Hall.
  rewrite Forall_forall in Hall. specialize (Hall c (proj2 (list_elem_of_In _ _) Hin)).
  destruct (offeredCycle_times _ _ _ _ _ _ Hc (calculateWindowSize_pos _ _)
              (calculateWindowSize_pos _ _) Hall) as (k & ds & H).
  rewrite len_sortByTime in H. exists k, ds. exact H.
Qed.

(** X4. Over contiguous slots every charge window of a plan lasts the charge
    window size times 15 minutes and every discharge window the discharge
    window size times 15 minutes; both start on a slot boundary and lie
    between the start of the first slot and the end of the last. *)
Theorem plan_windows_span_slots (prices : list Price) (cfg : AnalyzerConfig) :
  contiguous (sortByTime prices) = true ->
  let t0 := time.unixNano (nthZ (sortByTime prices) 0).(PTime) in
  Forall (fun c =>
            endsAt c.(ChargeWindow) - startsAt c.(ChargeWindow)
            = chargeWindowSizeOf cfg * (15 * time.Minute)
            /\ endsAt c.(DischargeWindow) - startsAt c.(DischargeWindow)
               = dischargeWindowSizeOf cfg * (15 * time.Minute)
            /\ (startsAt c.(ChargeWindow) - t0) mod (15 * time.Minute) = 0
            /\ (startsAt c.(DischargeWindow) - t0) mod (15 * time.Minute) = 0
            /\ t0 <= startsAt c.(ChargeWindow)
            /\ endsAt c.(DischargeWindow) <= t0 + len prices * (15 * time.Minute))
         (AnalyzePrices prices cfg).(Cycles).
Proof.
  intros Hc t0. apply Forall_forall. intros c Hin. apply list_elem_of_In in Hin.
  destruct (plan_cycle_times prices cfg c Hc Hin)
    as (k & ds & H0 & H1 & H2 & H3 & H4 & H5 & H6).
  fold t0 in H3, H4, H5, H6. change (15 * time.Minute) with slot.
  assert (Hslot : 0 < slot) by reflexivity.
  rewrite H3, H4, H5, H6.
  replace (t0 + k * slot - t0) with (k * slot) by lia.
  replace (t0 + ds * slot - t0) with (ds * slot) by lia.
  rewrite !Z.mod_mul by lia.
  repeat split; nia.
Qed.

Lemma plan_windows_span_slots_witness :
  contiguous (sortByTime prices6) = true
  /\ Forall (fun c => endsAt c.(ChargeWindow) - startsAt c.(ChargeWindow)
                      = chargeWindowSizeOf smallWindowConfig * (15 * time.Minute))
            (AnalyzePrices prices6 smallWindowConfig).(Cycles)
  /\ len (AnalyzePrices prices6 smallWindowConfig).(Cycles) = 1.
Proof.
  split; [reflexivity|]. split; [|vm_compute; reflexivity].
  eapply Forall_impl; [exact (plan_windows_span_slots prices6 smallWindowConfig eq_refl)|].
  intros c (H & _). exact H.
Defined.

Lemma orderedFrom_lower lo cycles :
  orderedFrom lo cycles ->
  forall c, List.In c cycles -> lo <= startsAt c.(ChargeWindow) /\ cycleOrdered c.
Proof.
  revert lo. induction cycles as [|d l IH]; intros lo Ho c Hc; [destruct Hc|].
  destruct Ho as (H1 & H2 & H3). destruct Hc as [<-|Hc]; [auto|].
  destruct (IH _ H3 c Hc) as (H4 & H5). split; [|exact H5].
  unfold cycleOrdered in H2. lia.
Qed.

Lemma orderedFrom_disjoint lo cycles :
  orderedFrom lo cycles ->
  forall c d t, List.In c cycles -> List.In d cycles ->
    inWindow t c.(ChargeWindow) = true -> inWindow t d.(DischargeWindow) = false.
Proof.
  revert lo. induction cycles as [|x l IH]; intros lo Ho c d t Hc Hd Hin; [destruct Hc|].
  destruct Ho as (H1 & H2 & H3).
  destruct Hc as [<-|Hc]; destruct Hd as [<-|Hd].
  - unfold inWindow, time.Before in *. unfold cycleOrdered, startsAt, endsAt in *.
    apply andb_true_iff in Hin as (Hin1 & Hin2).
    apply negb_true_iff, Z.ltb_ge in Hin1. apply Z.ltb_lt in Hin2.
    apply andb_false_iff. left. apply negb_false_iff, Z.ltb_lt. lia.
  - destruct (orderedFrom_lower _ _ H3 d Hd) as (H4 & H5).
    unfold inWindow, time.Before in *. unfold cycleOrdered, startsAt, endsAt in *.
    apply andb_true_iff in Hin as (Hin1 & Hin2).
    apply negb_true_iff, Z.ltb_ge in Hin1. apply Z.ltb_lt in Hin2.
    apply andb_false_iff. left. apply negb_false_iff, Z.ltb_lt. lia.
  - destruct (orderedFrom_lower _ _ H3 c Hc) as (H4 & H5).
    unfold inWindow, time.Before in *. unfold cycleOrdered, startsAt, endsAt in *.
    apply andb_true_iff in Hin as (Hin1 & Hin2).
    apply negb_true_iff, Z.ltb_ge in Hin1. apply Z.ltb_lt in Hin2.
    apply andb_false_iff. right. apply Z.ltb_ge. lia.
  - exact (IH _ H3 c d t Hc Hd Hin).
Qed.

Lemma plan_orderedFrom (prices : list Price) (cfg : AnalyzerConfig) :
  contiguous (sortByTime prices) = true ->
  exists lo, orderedFrom lo (AnalyzePrices prices cfg).(Cycles).
Proof.
  intros Hc. unfold AnalyzePrices.
  destruct (len prices =? 0); [exists 0; exact I|].
  destruct (_ || _); [exists 0; exact I|].
  cbn [Cycles]. exists (time.unixNano (nthZ (sortByTime prices) 0).(PTime)).
  apply (searchCycles_ordered (sortByTime prices) _ _ _ _ Hc
           (calculateWindowSize_pos _ _) (calculateWindowSize_pos _ _)
           (Z.to_nat (maxCyclesOf cfg)) 0 _ []); [lia | exact I |].
  unfold lastEnd. simpl. lia.
Qed.

(** X5. Over contiguous slots no instant lies both in a charge window and in a
    discharge window of the plan. *)
Theorem plan_windows_exclusive (prices : list Price) (cfg : AnalyzerConfig) (t : Time) :
  contiguous (sortByTime prices) = true ->
  IsInChargeWindow (AnalyzePrices prices cfg) t = true ->
  IsInDischargeWindow (AnalyzePrices prices cfg) t = false.
Proof.
  intros Hc Hin. destruct (plan_orderedFrom prices cfg Hc) as (lo & Ho).
  destruct (plan_windows_of_cycles prices cfg) as (Hcw & Hdw).
  cbv zeta in Hcw, Hdw. unfold IsInChargeWindow, IsInDischargeWindow in *.
  rewrite Hcw in Hin. rewrite Hdw.
  apply existsb_exists in Hin as (w & Hw & Hwin).
  apply in_map_iff in Hw as (c & <- & Hcin).
  destruct (existsb _ _) eqn:E; [|reflexivity].
  apply existsb_exists in E as (w & Hw & Hwin').
  apply in_map_iff in Hw as (d & <- & Hdin).
  rewrite (orderedFrom_disjoint _ _ Ho c d t Hcin Hdin Hwin) in Hwin'. discriminate.
Qed.

Lemma plan_windows_exclusive_witness :
  contiguous (sortByTime prices6) = true
  /\ IsInChargeWindow (AnalyzePrices prices6 smallWindowConfig)
                      (time.Add baseTime (4 * slot)) = true
  /\ IsInDischargeWindow (AnalyzePrices prices6 smallWindowConfig)
                         (time.Add baseTime (4 * slot)) = false.
Proof.
  split; [reflexivity|]. split; [vm_compute; reflexivity|].
  apply (plan_windows_exclusive prices6 smallWindowConfig); [reflexivity|].
  vm_compute. reflexivity.
Defined.

(** X6. Over contiguous slots the price list has a price for every instant
    inside a window of its plan: a tick inside a window never misses its
    price. *)
Theorem plan_window_has_price (prices : list Price) (cfg : AnalyzerConfig) (t : Time) :
  contiguous (sortByTime prices) = true ->
  IsInChargeWindow (AnalyzePrices prices cfg) t = true
  \/ IsInDischargeWindow (AnalyzePrices prices cfg) t = true ->
  exists p, List.In p prices /\ covers p t = true
            /\ snd (GetCurrentPrice prices t) = true.
Proof.
  intros Hc Hin.
  assert (Hslot : 0 < slot) by reflexivity.
  set (sorted := sortByTime prices) in *.
  set (t0 := time.unixNano (nthZ sorted 0).(PTime)).
  assert (Hspan : t0 <= time.unixNano t < t0 + len prices * slot).
  { destruct (plan_windows_of_cycles prices cfg) as (Hcw & Hdw).
    cbv zeta in Hcw, Hdw.
    unfold IsInChargeWindow, IsInDischargeWindow in Hin. rewrite Hcw, Hdw in Hin.
    assert (Hw : exists c, List.In c (Cycles (AnalyzePrices prices cfg))
                           /\ (inWindow t (ChargeWindow c) = true
                               \/ inWindow t (DischargeWindow c) = true)).
    { destruct Hin as [Hin|Hin]; apply existsb_exists in Hin as (w & Hw & Hwin);
        apply in_map_iff in Hw as (c & <- & Hcin); exists c; auto. }
    destruct Hw as (c & Hcin & Hwin).
    destruct (plan_cycle_times prices cfg c Hc Hcin)
      as (k & ds & H0 & H1 & H2 & H3 & H4 & H5 & H6).
    fold sorted t0 in H3, H4, H5, H6.
    pose proof (calculateWindowSize_pos (usableCapacity cfg) (ChargePowerW cfg)) as Pc.
    pose proof (calculateWindowSize_pos (usableCapacity cfg) (DischargePowerW cfg)) as Pd.
    fold (chargeWindowSizeOf cfg) in Pc. fold (dischargeWindowSizeOf cfg) in Pd.
    unfold inWindow, time.Before, startsAt, endsAt in *.
    destruct Hwin as [Hwin|Hwin]; apply andb_true_iff in Hwin as (Hw1 & Hw2);
      apply negb_true_iff, Z.ltb_ge in Hw1; apply Z.ltb_lt in Hw2; nia. }
  set (j := (time.unixNano t - t0) / slot).
  assert (Hj : 0 <= j < len sorted).
  { unfold sorted. rewrite len_sortByTime. unfold j. split.
    - apply Z.div_pos; lia.
    - apply Z.div_lt_upper_bound; lia. }
  assert (Hcov : covers (nthZ sorted j) t = true).
  { unfold covers. rewrite (contiguous_nth sorted Hc j Hj). fold t0.
    pose proof (Z.mul_div_le (time.unixNano t - t0) slot Hslot) as Hlo.
    pose proof (Z.mul_succ_div_gt (time.unixNano t - t0) slot Hslot) as Hhi.
    fold j in Hlo, Hhi.
    apply andb_true_iff. split; [apply Z.leb_le | apply Z.ltb_lt]; lia. }
  assert (Hmem : List.In (nthZ sorted j) prices).
  { eapply Permutation_in; [apply sortByTime_perm|]. fold sorted.
    unfold nthZ. destruct (Z.ltb_spec j 0); [lia|].
    apply nth_In. unfold len in Hj. lia. }
  exists (nthZ sorted j). split; [exact Hmem|]. split; [exact Hcov|].
  pose proof (GetCurrentPrice_covering prices t) as Hg.
  destruct (GetCurrentPrice prices t) as [v []]; [reflexivity|].
  destruct Hg as (_ & Hnone). rewrite (Hnone _ Hmem) in Hcov. discriminate.
Qed.

Lemma plan_window_has_price_witness :
  contiguous (sortByTime prices6) = true
  /\ IsInChargeWindow (AnalyzePrices prices6 smallWindowConfig)
                      (time.Add baseTime (4 * slot)) = true
  /\ snd (GetCurrentPrice prices6 (time.Add baseTime (4 * slot))) = true.
Proof.
  split; [reflexivity|]. split; [vm_compute; reflexivity|].
  destruct (plan_window_has_price prices6 smallWindowConfig (time.Add baseTime (4 * slot)))
    as (p & _ & _ & H); [reflexivity | left; vm_compute; reflexivity | exact H].
Defined.

(** ** The price range and the date of every plan *)

Lemma AnalyzePrices_header (prices : list Price) (cfg : AnalyzerConfig) :
  prices <> [] ->
  let plan := AnalyzePrices prices cfg in
  plan.(Date) = localMidnight (nthZ (sortByTime prices) 0).(PTime)
  /\ plan.(MinPrice) = minPriceOf (sortByTime prices)
  /\ plan.(MaxPrice) = maxPriceOf (sortByTime prices)
  /\ plan.(Spread) = (plan.(MaxPrice) - plan.(MinPrice))%float.
Proof.
  intros Hne. cbv zeta. unfold AnalyzePrices.
  destruct (Z.eqb_spec (len prices) 0) as [H0|_].
  { destruct prices; [congruence|]. rewrite len_cons in H0. pose proof (len_nonneg prices). lia. }
  destruct (_ || _); repeat split.
Qed.

(** X7. For every non-empty price list, whether or not cycles are found, the
    plan is dated at the start of the calendar day of the earliest slot,
    in the location that slot carries; its minimum and maximum are prices
    of the input that no price of the input is below, respectively above;
    its spread is their difference. *)
Theorem plan_price_range (prices : list Price) (cfg : AnalyzerConfig) :
  prices <> [] ->
  let plan := AnalyzePrices prices cfg in
  (exists e, List.In e prices
     /\ (forall p, List.In p prices -> time.Before p.(PTime) e.(PTime) = false)
     /\ midnightOf e.(PTime) plan.(Date))
  /\ (exists p, List.In p prices /\ plan.(MinPrice) = p.(Value))
  /\ (forall p, List.In p prices -> (p.(Value) <? plan.(MinPrice))%float = false)
  /\ (exists p, List.In p prices /\ plan.(MaxPrice) = p.(Value))
  /\ (forall p, List.In p prices -> (plan.(MaxPrice) <? p.(Value))%float = false)
  /\ plan.(Spread) = (plan.(MaxPrice) - plan.(MinPrice))%float.
Proof.
  intros Hne. cbv zeta.
  destruct (AnalyzePrices_header prices cfg Hne) as (Hd & Hmin & Hmax & Hs).
  cbv zeta in Hs. rewrite Hd, Hmin, Hmax in *.
  destruct (minPriceOf_spec prices Hne) as (H1 & H2).
  destruct (maxPriceOf_spec prices Hne) as (H3 & H4).
  split.
  { exists (nthZ (sortByTime prices) 0).
    split; [apply sortByTime_first_In, Hne|].
    split; [apply sortByTime_head | apply localMidnight_spec]. }
  repeat split; assumption.
Qed.

Lemma plan_price_range_witness :
  prices6 <> []
  /\ (exists p, List.In p prices6
        /\ MinPrice (AnalyzePrices prices6 smallWindowConfig) = p.(Value))
  /\ MinPrice (AnalyzePrices prices6 smallWindowConfig) = 0.04%float
  /\ MaxPrice (AnalyzePrices prices6 smallWindowConfig) = 0.22%float.
Proof.
  assert (Hne : prices6 <> []) by discriminate.
  split; [exact Hne|].
  destruct (plan_price_range prices6 smallWindowConfig Hne) as (_ & H & _).
  split; [exact H|]. split; vm_compute; reflexivity.
Defined.

(** ** The order of the input does not matter *)

#[local] Instance earlier_transitive : Transitive earlier.
Proof. intros p q r. unfold earlier. lia. Qed.

#[local] Instance earlier_antisymm : AntiSymm eq earlier.
Proof. intros p q. unfold earlier. lia. Qed.

Lemma insertByTime_sorted (p : Price) (l : list Price) :
  StronglySorted earlier l ->
  (forall q, List.In q l -> time.unixNano q.(PTime) <> time.unixNano p.(PTime)) ->
  StronglySorted earlier (insertByTime p l).
Proof.
  induction l as [|q l IH]; intros Hs Hne; cbn [insertByTime].
  - repeat constructor.
  - apply StronglySorted_inv in Hs as (Hs & Hall). unfold time.Before.
    destruct (Z.ltb_spec (time.unixNano (PTime q)) (time.unixNano (PTime p))) as [Hlt|Hge].
    + constructor.
      * apply IH; [exact Hs|]. intros r Hr. apply Hne. now right.
      * rewrite insertByTime_perm. constructor; [exact Hlt | exact Hall].
    + assert (Hpq : earlier p q).
      { unfold earlier. specialize (Hne q (or_introl eq_refl)). lia. }
      constructor; [constructor; assumption|].
      constructor; [exact Hpq|].
      eapply Forall_impl; [exact Hall|]. intros r Hr. now transitivity q.
Qed.

Lemma sortByTime_sorted (prices : list Price) :
  NoDup (instants prices) -> StronglySorted earlier (sortByTime prices).
Proof.
  unfold instants. induction prices as [|p l IH]; intros Hnd; cbn [sortByTime fold_right].
  - constructor.
  - cbn [map] in Hnd. apply NoDup_cons in Hnd as (Hp & Hnd).
    apply insertByTime_sorted; [apply IH, Hnd|].
    intros q Hq Heq. apply Hp. rewrite <- Heq.
    apply list_elem_of_In, (in_map (fun p => time.unixNano (PTime p))).
    eapply Permutation_in; [apply sortByTime_perm | exact Hq].
Qed.

Lemma sortByTime_order_independent (prices prices' : list Price) :
  NoDup (instants prices) -> prices ≡ₚ prices' ->
  sortByTime prices = sortByTime prices'.
Proof.
  intros Hnd Hperm.
  apply (StronglySorted_unique earlier).
  - now apply sortByTime_sorted.
  - apply sortByTime_sorted. unfold instants in *. now rewrite <- Hperm.
  - now rewrite !sortByTime_perm.
Qed.

(** X8. The analyzer sorts before use: for price points that start at
    pairwise distinct instants the plan does not depend on the order in
    which they arrive, and the list the analyzer works on is the input in
    strictly increasing order of time. *)
Theorem AnalyzePrices_order_independent (prices prices' : list Price)
    (cfg : AnalyzerConfig) :
  NoDup (instants prices) ->
  prices ≡ₚ prices' ->
  AnalyzePrices prices cfg = AnalyzePrices prices' cfg
  /\ sortByTime prices ≡ₚ prices
  /\ StronglySorted earlier (sortByTime prices).
Proof.
  intros Hnd Hperm. split; [|split; [apply sortByTime_perm | now apply sortByTime_sorted]].
  unfold AnalyzePrices.
  rewrite (sortByTime_order_independent prices prices' Hnd Hperm).
  assert (Hlen : len prices = len prices').
  { unfold len. now rewrite (Permutation_length Hperm). }
  now rewrite Hlen.
Qed.

Lemma AnalyzePrices_order_independent_witness :
  NoDup (instants prices6)
  /\ prices6 ≡ₚ rev prices6
  /\ AnalyzePrices prices6 smallWindowConfig = AnalyzePrices (rev prices6) smallWindowConfig.
Proof.
  assert (Hnd : NoDup (instants prices6)).
  { vm_compute. repeat (constructor; [rewrite !list_elem_of_In; cbn; intuition discriminate|]).
    constructor. }
  assert (Hperm : prices6 ≡ₚ rev prices6) by apply Permutation_rev.
  split; [exact Hnd|]. split; [exact Hperm|].
  apply (AnalyzePrices_order_independent prices6 (rev prices6) smallWindowConfig Hnd Hperm).
Defined.

(** ** findBestWindow, searching for the lowest average *)

Lemma slideInitLow_inv prices s w :
  slideInvLow prices s w (s + 1) (slideInit prices s w true).
Proof.
  unfold slideInvLow, slideInit, better.
  fold (windowAverage prices s w).
  assert (Havg : slidingAverage prices s w s = windowAverage prices s w).
  { unfold slidingAverage, windowAverage. now rewrite slidingSum_start. }
  destruct (PrimFloat.ltb (windowAverage prices s w) F64.MaxFloat64) eqn:E;
    cbn [slSum slBestAvg slBestStart];
    replace (s + 1 - 1) with s by lia; rewrite slidingSum_start.
  - split; [reflexivity|]. split.
    + intros i Hi. replace i with s by lia. rewrite Havg. apply F64Facts.ltb_irrefl.
    + right. split; [lia|]. split; [now rewrite Havg|]. split; [exact E|].
      intros i Hi. lia.
  - split; [reflexivity|]. split.
    + intros i Hi. replace i with s by lia. now rewrite Havg.
    + left. split; reflexivity.
Qed.

Lemma slideStepLow_inv prices s w j st :
  s < j -> slideInvLow prices s w j st ->
  slideInvLow prices s w (j + 1) (slideStep prices w true j st).
Proof.
  intros Hj (Hsum & Hall & Hbest).
  unfold slideStep, better. rewrite Hsum, <- (slidingSum_step prices s w j Hj).
  fold (slidingAverage prices s w j).
  destruct (PrimFloat.ltb (slidingAverage prices s w j) (slBestAvg st)) eqn:E;
    unfold slideInvLow; cbn [slSum slBestAvg slBestStart];
    replace (j + 1 - 1) with j by lia.
  - split; [reflexivity|].
    assert (Hbefore : forall i, s <= i < j ->
              (slidingAverage prices s w i <=? slidingAverage prices s w j)%float = false).
    { intros i Hi. eapply F64Facts.below_best; [exact E | now apply Hall]. }
    assert (Hmax : (slidingAverage prices s w j <? F64.MaxFloat64)%float = true).
    { destruct Hbest as [(_ & Hb)|(_ & _ & Hb & _)]; [now rewrite Hb in E|].
      destruct (PrimFloat.ltb (slidingAverage prices s w j) F64.MaxFloat64) eqn:E';
        [reflexivity|].
      pose proof (F64Facts.below_best _ _ _ Hb E') as Hle.
      apply F64Facts.ltb_leb in E. congruence. }
    split.
    + intros i Hi. destruct (Z.eq_dec i j) as [->|Hne].
      * apply F64Facts.ltb_irrefl.
      * apply F64Facts.nleb_nltb, Hbefore. lia.
    + right. split; [lia|]. split; [reflexivity|]. split; [exact Hmax | exact Hbefore].
  - split; [reflexivity|]. split.
    + intros i Hi. destruct (Z.eq_dec i j) as [->|Hne]; [exact E|]. apply Hall. lia.
    + destruct Hbest as [Hb|(Hr & Hb & Hm & Hlt)]; [now left|].
      right. split; [lia|]. now split.
Qed.

Lemma slideLow_loop_inv prices s w (n : nat) :
  slideInvLow prices s w (s + 1 + Z.of_nat n)
              (forZ n (s + 1) (slideStep prices w true) (slideInit prices s w true)).
Proof.
  apply (forZ_ind (slideInvLow prices s w)).
  - apply slideInitLow_inv.
  - intros j st Hj Hinv. apply slideStepLow_inv; [lia | exact Hinv].
Qed.

(** X9. [findBestWindow] searching for the lowest average, over the windows of
    [w] slots from index [s] on. The window it returns fits the list; its
    average is the running average of the sliding sum, is below
    [MaxFloat64], strictly below that of every window to its left and not
    above that of any window to its right: the lowest, the leftmost on
    equal running averages. It reports no window exactly when no window
    fits or no running average is below [MaxFloat64]. *)
Theorem findBestWindow_lowest (prices : list Price) (s w : Z) :
  0 <= s -> 0 <= w ->
  match findBestWindow prices s w true with
  | (i, avg, true) =>
      s <= i /\ i + w <= len prices
      /\ avg = runningMean prices w s i
      /\ (avg <? F64.MaxFloat64)%float = true
      /\ (forall j, s <= j < i -> (runningMean prices w s j <=? avg)%float = false)
      /\ (forall j, i <= j -> j + w <= len prices ->
            (runningMean prices w s j <? avg)%float = false)
  | (i, avg, false) =>
      i = 0 /\ avg = 0%float
      /\ (len prices < s + w
          \/ forall j, s <= j -> j + w <= len prices ->
               (runningMean prices w s j <? F64.MaxFloat64)%float = false)
  end.
Proof.
  intros Hs Hw. unfold findBestWindow.
  destruct (Z.ltb_spec (len prices) (s + w)) as [Hlt|Hlen]; [auto|].
  pose proof (slideLow_loop_inv prices s w (Z.to_nat (len prices - w - s))) as Hinv.
  replace (s + 1 + Z.of_nat (Z.to_nat (len prices - w - s)))
    with (len prices - w + 1) in Hinv by lia.
  destruct Hinv as (_ & Hall & Hbest).
  set (st := forZ _ _ _ _) in *.
  assert (Hm : forall j, s <= j ->
            slidingAverage prices s w j = runningMean prices w s j).
  { intros j Hj. apply slidingAverage_runningMean; lia. }
  destruct (Z.ltb_spec (slBestStart st) 0) as [Hneg|Hnn].
  - split; [reflexivity|]. split; [reflexivity|]. right. intros j Hj1 Hj2.
    destruct Hbest as [[_ Hb]|(Hr & _)]; [|lia].
    rewrite <- Hm, <- Hb by lia. apply Hall. lia.
  - destruct Hbest as [[Hb _]|(Hr & Hb & Hmax & Hlt)]; [lia|].
    split; [lia|]. split; [lia|]. split; [rewrite Hb; apply Hm; lia|].
    split; [exact Hmax|]. split.
    + intros j Hj. rewrite <- Hm by lia. apply Hlt. lia.
    + intros j Hj1 Hj2. rewrite <- Hm by lia. apply Hall. lia.
Qed.

(** The test of [TestFindBestWindow]: the lowest window of two slots
    starts at index 2. *)
Lemma findBestWindow_lowest_witness :
  0 <= 0 /\ 0 <= 2
  /\ exists avg,
       findBestWindow pricesFindBest 0 2 true = (2, avg, true)
       /\ avg = runningMean pricesFindBest 2 0 2.
Proof.
  split; [lia|]. split; [lia|].
  pose proof (findBestWindow_lowest pricesFindBest 0 2 ltac:(lia) ltac:(lia)) as H.
  destruct (findBestWindow pricesFindBest 0 2 true) as [[i avg] found] eqn:E.
  assert (Hi : i = 2 /\ found = true).
  { vm_compute in E. injection E as <- _ <-. auto. }
  destruct Hi as (-> & ->). destruct H as (_ & _ & Havg & _).
  exists avg. split; [reflexivity | exact Havg].
Defined.

(** ** Decimals *)

Lemma IsZero_spec (a : Decimal) : decimal.IsZero a = true <-> (a == 0)%Q.
Proof.
  unfold decimal.IsZero, Qeq. simpl. rewrite Z.eqb_eq. lia.
Qed.

Lemma GreaterThan_spec (a b : Decimal) : decimal.GreaterThan a b = true <-> (b < a)%Q.
Proof.
  unfold decimal.GreaterThan. rewrite Qgt_alt.
  destruct (a ?= b)%Q; split; congruence.
Qed.

Lemma LessThan_spec (a b : Decimal) : decimal.LessThan a b = true <-> (a < b)%Q.
Proof.
  unfold decimal.LessThan. rewrite Qlt_alt.
  destruct (a ?= b)%Q; split; congruence.
Qed.

(** ** The discharge gate *)

Import Engine.

(** C3. [isDischargeProfitiable p] answers false whenever the cost basis is
    zero, whatever the price; with a non-zero cost basis and an efficiency
    the decimal library can divide by, it answers whether
    [p > lastChargePrice / efficiency] (decimal division); so it answers
    true exactly when the cost basis is known and [p] exceeds the
    break-even price. With efficiency 0.90 and cost basis 0.10 the break-even
    price is 0.1111111111111111: 0.11 is rejected and 0.12 accepted. *)
Theorem discharge_gate :
  (forall s p,
     decimal.IsZero s.(lastChargePrice) = true ->
     isDischargeProfitiable s p = Some false)
  /\ (forall s p b,
        isDischargeProfitiable s p = Some b ->
        b = true <->
        ~ (s.(lastChargePrice) == 0)%Q
        /\ exists efficiency,
             decimal.NewFromFloat s.(cfg).(BatteryEfficiency) = Some efficiency
             /\ (decimal.Div s.(lastChargePrice) efficiency < p)%Q)
  /\ (forall s p efficiency,
        decimal.NewFromFloat s.(cfg).(BatteryEfficiency) = Some efficiency ->
        ~ (efficiency == 0)%Q ->
        isDischargeProfitiable s p
        = Some (negb (decimal.IsZero s.(lastChargePrice))
                && decimal.GreaterThan p (decimal.Div s.(lastChargePrice) efficiency)))
  /\ decimal.NewFromFloat 0.90%float = Some (9 # 10)%Q
  /\ decimal.NewFromFloat 0.10%float = Some (1 # 10)%Q
  /\ decimal.Div (1 # 10)%Q (9 # 10)%Q = (1111111111111111 # 10000000000000000)%Q
  /\ isDischargeProfitiable (serviceWithCostBasis (1 # 10)%Q) (11 # 100)%Q = Some false
  /\ isDischargeProfitiable (serviceWithCostBasis (1 # 10)%Q) (12 # 100)%Q = Some true
  /\ isDischargeProfitiable (serviceWithCostBasis 0%Q) (12 # 100)%Q = Some false.
Proof.
  split; [|split; [|split]].
  - intros s p Hz. unfold isDischargeProfitiable. now rewrite Hz.
  - intros s p b. unfold isDischargeProfitiable.
    destruct (decimal.IsZero (lastChargePrice s)) eqn:Hz.
    + intros [= <-]. split; [discriminate|].
      intros (Hnz & _). apply IsZero_spec in Hz. contradiction.
    + destruct (decimal.NewFromFloat (BatteryEfficiency (cfg s))) as [e|]; simpl;
        [|discriminate].
      destruct (decimal.IsZero e); [discriminate|].
      intros [= <-]. rewrite GreaterThan_spec. split.
      * intros Hlt. split.
        -- intros H0. apply IsZero_spec in H0. congruence.
        -- exists e. auto.
      * intros (_ & e' & [= <-] & Hlt). exact Hlt.
  - intros s p e He Hnz. unfold isDischargeProfitiable. rewrite He. simpl.
    destruct (decimal.IsZero (lastChargePrice s)); [reflexivity|].
    destruct (decimal.IsZero e) eqn:Hz; [apply IsZero_spec in Hz; contradiction|].
    reflexivity.
  - repeat split; vm_compute; reflexivity.
Qed.

Lemma discharge_gate_witness :
  decimal.IsZero (lastChargePrice (serviceWithCostBasis 0%Q)) = true
  /\ isDischargeProfitiable (serviceWithCostBasis 0%Q) (1 # 1)%Q = Some false
  /\ isDischargeProfitiable (serviceWithCostBasis (1 # 10)%Q) (12 # 100)%Q
     = Some (negb (decimal.IsZero (1 # 10)%Q)
             && decimal.GreaterThan (12 # 100)%Q (decimal.Div (1 # 10)%Q (9 # 10)%Q)).
Proof.
  split; [reflexivity|].
  split; [apply (proj1 discharge_gate); reflexivity|].
  apply (proj1 (proj2 (proj2 discharge_gate)) (serviceWithCostBasis (1 # 10)%Q)).
  - vm_compute. reflexivity.
  - intros H. vm_compute in H. discriminate.
Defined.

(** ** The average price of a session *)

Lemma averageStep_spec start end_ ws td p :
  averageStep start end_ (ws, td) p
  = if decide (0 < overlapWith start end_ p)
    then ((ws + p.(Value) * time.Seconds (overlapWith start end_ p))%float,
          td + overlapWith start end_ p)
    else (ws, td).
Proof.
  assert (Hslot : 0 < slot) by reflexivity.
  unfold averageStep, overlapWith, time.Before, time.After, time.Sub, time.Add.
  cbn [time.unixNano].
  destruct (Z.ltb_spec (time.unixNano (PTime p)) (time.unixNano end_)) as [H1|H1];
    destruct (Z.ltb_spec (time.unixNano start) (time.unixNano (PTime p) + slot)) as [H2|H2];
    cbn [andb];
    try (destruct (decide _) as [Hd|Hd]; [lia | reflexivity]).
  destruct (Z.ltb_spec (time.unixNano (PTime p)) (time.unixNano start)) as [H3|H3];
    destruct (Z.ltb_spec (time.unixNano end_) (time.unixNano (PTime p) + slot)) as [H4|H4];
    cbn [time.unixNano];
    match goal with
    | |- context [0 <? ?x] => destruct (Z.ltb_spec 0 x) as [H5|H5]
    end;
    destruct (decide _) as [Hd|Hd]; try lia; try reflexivity;
    repeat f_equal; lia.
Qed.

Lemma averageLoop_spec start end_ prices ws td :
  fold_left (averageStep start end_) prices (ws, td)
  = (fold_left (fun sum p => (sum + p.(Value) * time.Seconds (overlapWith start end_ p))%float)
               (filter (fun p => 0 < overlapWith start end_ p) prices) ws,
     fold_left (fun sum p => sum + overlapWith start end_ p)
               (filter (fun p => 0 < overlapWith start end_ p) prices) td).
Proof.
  revert ws td. induction prices as [|p l IH]; intros ws td; [reflexivity|].
  cbn [fold_left]. rewrite averageStep_spec.
  destruct (decide (0 < overlapWith start end_ p)) as [Hd|Hd].
  - rewrite filter_cons_True by exact Hd. cbn [fold_left]. apply IH.
  - rewrite filter_cons_False by exact Hd. apply IH.
Qed.

(** [calculateAveragePrice] computes the time-weighted average of the
    specification over [todayPrices]. *)
Lemma calculateAveragePrice_spec s start end_ :
  calculateAveragePrice s start end_ = timeWeightedAverage s.(todayPrices) start end_.
Proof.
  unfold calculateAveragePrice, timeWeightedAverage.
  destruct (Z.eqb_spec (len (todayPrices s)) 0) as [H0|_].
  - destruct (todayPrices s) as [|p l]; [reflexivity|].
    rewrite len_cons in H0. pose proof (len_nonneg l). lia.
  - rewrite averageLoop_spec. reflexivity.
Qed.

(** ** The end of a session *)

Lemma stopChargingLocked_spec env endSOC s s' cmds :
  stopChargingLocked env endSOC s = Some (s', cmds) ->
  exists trade,
    chargeTrade env endSOC s = Some trade
    /\ Ledger.trades s'.(recorder) = Ledger.trades s.(recorder) ++ [trade]
    /\ s'.(lastChargePrice) = trade.(Ledger.PriceEUR)
    /\ s'.(state) = StateIdle /\ cmds = [Idle].
Proof.
  unfold stopChargingLocked.
  destruct (chargeTrade env endSOC s) as [trade|]; [|discriminate].
  simpl. intros [= <- <-]. exists trade. repeat split.
Qed.

Lemma stopDischargingLocked_spec env endSOC s s' cmds :
  stopDischargingLocked env endSOC s = Some (s', cmds) ->
  s'.(state) = StateIdle /\ cmds = [Idle]
  /\ s'.(lastChargePrice) = s.(lastChargePrice).
Proof.
  unfold stopDischargingLocked.
  destruct (decimal.NewFromFloat _) as [energy|]; [|discriminate].
  simpl. intros [= <- <-]. repeat split.
Qed.

Lemma refreshPassiveModeLocked_spec env power s s' cmds :
  refreshPassiveModeLocked env power s = (s', cmds) ->
  s'.(state) = s.(state)
  /\ (cmds = [] \/ cmds = [SetPassiveMode power s.(cfg).(PassiveModeTimeoutS)]).
Proof.
  unfold refreshPassiveModeLocked.
  destruct (_ <? _); [intros [= <- <-]; auto|].
  destruct (passiveFails env); intros [= <- <-]; auto.
Qed.

(** The end of a charge session. One charge trade is appended to the
    ledger: its energy is the charge power times the duration of the
    session ([power * hours / 1000] kWh); its price is the time-weighted
    average of the price series over the session, each slot weighted by the
    time it shares with the session, and the price the session started at
    when that average is zero; the cost basis is set to the price of the
    trade; the engine goes idle. A charging engine ends its session when
    the current time has left the charge window or the battery reports
    SOC >= 100. *)
Lemma stopChargingLocked_trade (env : Env) (endSOC : Z) (s s' : Service)
    (cmds : list Command) :
  stopChargingLocked env endSOC s = Some (s', cmds) ->
  (exists trade energy avg,
     Ledger.trades s'.(recorder) = Ledger.trades s.(recorder) ++ [trade]
     /\ trade.(Ledger.Action) = Ledger.ActionCharge
     /\ trade.(Ledger.Timestamp) = s.(currentTradeStart)
     /\ decimal.NewFromFloat
          (F64.of_int s.(cfg).(ChargePowerW)
           * time.Hours (time.Sub (now env s) s.(currentTradeStart)) / 1000)%float
        = Some energy
     /\ trade.(Ledger.EnergyKWh) = energy
     /\ timeWeightedAverage s.(todayPrices) s.(currentTradeStart) (now env s) = Some avg
     /\ trade.(Ledger.PriceEUR)
        = (if decimal.IsZero avg then s.(currentTradePrice) else avg)
     /\ s'.(lastChargePrice) = trade.(Ledger.PriceEUR)
     /\ s'.(state) = StateIdle /\ cmds = [Idle])
  /\ (forall bat plan,
        IsInChargeWindow plan (now env s) = false \/ 100 <= bat.(SOC) ->
        tickCharging env bat plan s = stopChargingLocked env bat.(SOC) s).
Proof.
  intros H. split.
  - apply stopChargingLocked_spec in H as (trade & Ht & Hl & Hp & Hs & Hc).
    unfold chargeTrade in Ht.
    destruct (decimal.NewFromFloat _) as [energy|] eqn:He; [|discriminate].
    rewrite calculateAveragePrice_spec in Ht.
    destruct (timeWeightedAverage _ _ _) as [avg|] eqn:Ha; [|discriminate].
    simpl in Ht. injection Ht as <-.
    eexists. exists energy, avg. split; [exact Hl|].
    cbn [Ledger.Action Ledger.Timestamp Ledger.EnergyKWh Ledger.PriceEUR].
    repeat split; assumption.
  - intros bat plan Hend. unfold tickCharging.
    destruct (IsInChargeWindow plan (now env s)); [|reflexivity].
    destruct Hend as [Hf|Hsoc]; [discriminate|]. simpl.
    destruct (Z.leb_spec 100 (SOC bat)); [reflexivity | lia].
Qed.

(** A session over two slots of 0.05 and 0.07 EUR/kWh, from 00:00 to
    00:30: the trade is recorded at their time-weighted average, not at
    the 0.05 the session started at. *)
Lemma charge_session_average_example :
  let env := envAt (time.Add baseTime (2 * slot)) 80 in
  let s' := after (tick env risingCharging) in
  risingCharging.(state) = StateCharging
  /\ risingCharging.(currentTradePrice) = (1 # 20)%Q
  /\ timeWeightedAverage risingCharging.(todayPrices)
       risingCharging.(currentTradeStart) (now env risingCharging) = Some (3 # 50)%Q
  /\ map Ledger.PriceEUR (Ledger.trades s'.(recorder)) = [(3 # 50)%Q]
  /\ map Ledger.EnergyKWh (Ledger.trades s'.(recorder)) = [1%Q]
  /\ s'.(lastChargePrice) = (3 # 50)%Q.
Proof. cbv zeta. repeat split; vm_compute; reflexivity. Qed.

(** C7 at a failing input: a session whose time-weighted average is
    exactly zero. The engine of [zeroMeanCharging] started
    charging at 00:00:30 at -0.01 EUR/kWh; the slot after it costs 0.01. At
    00:29:30 the battery reports SOC 100 and the session ends, having
    shared 14.5 minutes with each of the two slots: the time-weighted
    average is computed and is 0. The engine takes the zero for the sign
    that no average could be computed and records the trade at -0.01, the
    start price, which also becomes the cost basis. *)
Theorem zero_average_records_start_price :
  let env := envAt (time.Add baseTime (29 * time.Minute + 30 * time.Second)) 100 in
  let s := zeroMeanCharging in
  let s' := after (tick env s) in
  s.(state) = StateCharging
  /\ s.(currentTradeStart) = time.Add baseTime (30 * time.Second)
  /\ now env s = time.Add baseTime (29 * time.Minute + 30 * time.Second)
  /\ map (overlapWith s.(currentTradeStart) (now env s)) s.(todayPrices)
     = [870 * time.Second; 870 * time.Second; 0; 0]
  /\ timeWeightedAverage s.(todayPrices) s.(currentTradeStart) (now env s) = Some 0%Q
  /\ option_map snd (tick env s) = Some [Idle]
  /\ s.(currentTradePrice) = (-1 # 100)%Q
  /\ map Ledger.PriceEUR (Ledger.trades s'.(recorder)) = [(-1 # 100)%Q]
  /\ s'.(lastChargePrice) = (-1 # 100)%Q
  /\ ~ ((-1 # 100) == 0)%Q.
Proof.
  cbv zeta. repeat split; try (vm_compute; reflexivity).
  intros H. vm_compute in H. discriminate.
Qed.

(** ** The state-of-charge guards of a tick *)

Lemma planTrades_spec s plan p :
  s.(currentPlan) = Some plan -> planTrades s = Some p -> p = plan.
Proof.
  unfold planTrades. intros ->. destruct (ShouldTrade plan); congruence.
Qed.

Lemma only_idle (cmds : list Command) :
  cmds = [] \/ cmds = [Idle] -> forall c, List.In c cmds -> c = Idle.
Proof. intros [-> | ->] c Hc; [destruct Hc|]. now destruct Hc as [<-|[]]. Qed.

(** The floor the engine compares with, for a floor configured as a whole
    percentage: [int(P/100 * 100)] is [P], except for 29, 57 and 58 where
    the product rounds below the integer and the engine's floor is one
    less. *)
Lemma minSOCOf_percent (s : Service) (P : Z) :
  0 <= P <= 100 ->
  s.(cfg).(BatteryMinSOC) = percentFraction P ->
  minSOCOf s = if truncatesShort P then P - 1 else P.
Proof.
  intros HP Hcfg. unfold minSOCOf. rewrite Hcfg.
  assert (Hall : forallb (fun n =>
                    F64.to_int (percentFraction (Z.of_nat n) * 100)%float
                    =? (if truncatesShort (Z.of_nat n) then Z.of_nat n - 1 else Z.of_nat n))
                   (seq 0 101) = true) by (vm_compute; reflexivity).
  rewrite forallb_forall in Hall.
  specialize (Hall (Z.to_nat P)). rewrite Z2Nat.id in Hall by lia.
  apply Z.eqb_eq, Hall, in_seq. lia.
Qed.

(** C4 (amended). In a tick where the battery reports its status and that
    does not panic:
    - if SOC >= 100 and the current time is inside a charge window, no
      charge command is sent: every command is [Idle], or the refresh of the
      discharge power by an engine that is discharging inside a discharge
      window; an idle engine stays idle, and when a price is known for the
      current slot and the time is not also inside a discharge window the
      engine ends the tick idle;
    - if the floor is configured as the whole percentage [P], the current
      time is inside a discharge window, and SOC is below [P], or at [P]
      for a [P] other than 29, 57 and 58, no discharge command is sent:
      every command is [Idle], or a charge command or charge refresh sent
      because the time is also inside a charge window;
    - the same holds whenever SOC is at or below [int(BatteryMinSOC * 100)],
      the integer the engine compares with. *)
Theorem tick_soc_guards (env : Env) (s s' : Service) (bat : BatteryStatus)
    (plan : TradingPlan) (cmds : list Command) :
  env.(batteryStatus) = Some bat ->
  s.(currentPlan) = Some plan ->
  tick env s = Some (s', cmds) ->
  (100 <= bat.(SOC) -> IsInChargeWindow plan (now env s) = true ->
     (forall c, List.In c cmds ->
        c = Idle
        \/ (s.(state) = StateDischarging
            /\ IsInDischargeWindow plan (now env s) = true
            /\ c = SetPassiveMode s.(cfg).(DischargePowerW) s.(cfg).(PassiveModeTimeoutS)))
     /\ (s.(state) = StateIdle -> s'.(state) = StateIdle)
     /\ (snd (GetCurrentPrice s.(todayPrices) (now env s)) = true ->
         IsInDischargeWindow plan (now env s) = false ->
         s'.(state) = StateIdle))
  /\ (forall P,
        0 <= P <= 100 ->
        s.(cfg).(BatteryMinSOC) = percentFraction P ->
        bat.(SOC) < P \/ (bat.(SOC) = P /\ truncatesShort P = false) ->
        IsInDischargeWindow plan (now env s) = true ->
        forall c, List.In c cmds ->
          c = Idle
          \/ (IsInChargeWindow plan (now env s) = true
              /\ (c = Charge s.(cfg).(ChargePowerW) s.(cfg).(PassiveModeTimeoutS)
                  \/ (s.(state) = StateCharging
                      /\ c = SetPassiveMode (- s.(cfg).(ChargePowerW))
                                            s.(cfg).(PassiveModeTimeoutS)))))
  /\ (bat.(SOC) <= minSOCOf s -> IsInDischargeWindow plan (now env s) = true ->
        forall c, List.In c cmds ->
          c = Idle
          \/ (IsInChargeWindow plan (now env s) = true
              /\ (c = Charge s.(cfg).(ChargePowerW) s.(cfg).(PassiveModeTimeoutS)
                  \/ (s.(state) = StateCharging
                      /\ c = SetPassiveMode (- s.(cfg).(ChargePowerW))
                                            s.(cfg).(PassiveModeTimeoutS))))).
Proof.
  intros Hbat Hplan Htick.
  enough (Hmain :
    (100 <= bat.(SOC) -> IsInChargeWindow plan (now env s) = true ->
       (forall c, List.In c cmds ->
          c = Idle
          \/ (s.(state) = StateDischarging
              /\ IsInDischargeWindow plan (now env s) = true
              /\ c = SetPassiveMode s.(cfg).(DischargePowerW) s.(cfg).(PassiveModeTimeoutS)))
       /\ (s.(state) = StateIdle -> s'.(state) = StateIdle)
       /\ (snd (GetCurrentPrice s.(todayPrices) (now env s)) = true ->
           IsInDischargeWindow plan (now env s) = false ->
           s'.(state) = StateIdle))
    /\ (bat.(SOC) <= minSOCOf s -> IsInDischargeWindow plan (now env s) = true ->
          forall c, List.In c cmds ->
            c = Idle
            \/ (IsInChargeWindow plan (now env s) = true
                /\ (c = Charge s.(cfg).(ChargePowerW) s.(cfg).(PassiveModeTimeoutS)
                    \/ (s.(state) = StateCharging
                        /\ c = SetPassiveMode (- s.(cfg).(ChargePowerW))
                                              s.(cfg).(PassiveModeTimeoutS)))))).
  { destruct Hmain as (Hcharge & Hfloor). split; [exact Hcharge|]. split; [|exact Hfloor].
    intros P HP Hcfg Hsoc. apply Hfloor.
    rewrite (minSOCOf_percent s P HP Hcfg).
    destruct Hsoc as [Hlt|(Heq & Hok)]; [destruct (truncatesShort P); lia|].
    rewrite Hok. lia. }
  unfold tick in Htick. rewrite Hbat in Htick.
  destruct (planTrades s) as [p|] eqn:Hp.
  2:{ (* no plan to trade on *)
      assert (Hcmds : s'.(state) = StateIdle /\ (cmds = [] \/ cmds = [Idle])).
      { destruct (state s) eqn:Hs; simpl in Htick; injection Htick as <- <-;
          simpl; auto. }
      destruct Hcmds as (Hs' & Hcmds). split; intros Hsoc Hin.
      - split; [|split]; intros; try exact Hs'. left; eapply only_idle; eassumption.
      - intros c Hc. left; eapply only_idle; eassumption. }
  apply (planTrades_spec s plan p Hplan) in Hp. subst p.
  destruct (GetCurrentPrice (todayPrices s) (now env s)) as [priceF okP] eqn:Hprice.
  destruct okP.
  2:{ (* no price for the current slot *)
      injection Htick as <- <-. split; intros Hsoc Hin.
      - split; [|split]; [intros c [] | tauto | discriminate].
      - intros c []. }
  destruct (decimal.NewFromFloat priceF) as [price|]; [|discriminate].
  cbn [mbind option_bind] in Htick.
  destruct (state s) eqn:Hs.
  - (* idle *)
    unfold tickIdle in Htick. split; intros Hsoc Hin.
    + rewrite Hin in Htick.
      destruct (Z.leb_spec 100 (SOC bat)); [|lia].
      injection Htick as <- <-. split; [|split]; auto. intros c [].
    + rewrite Hin in Htick.
      destruct (IsInChargeWindow plan (now env s)) eqn:Hc.
      * destruct (100 <=? SOC bat); [injection Htick as <- <-; intros c []|].
        destruct (negb (ChargingFlag bat)); [injection Htick as <- <-; intros c []|].
        unfold startChargingLocked in Htick.
        destruct (chargeFails env); injection Htick as <- <-;
          intros c [<-|[]]; right; auto.
      * destruct (Z.leb_spec (SOC bat) (minSOCOf s)); [|lia].
        injection Htick as <- <-. intros c [].
  - (* charging *)
    unfold tickCharging in Htick. split; intros Hsoc Hin.
    + rewrite Hin in Htick. cbn [negb] in Htick.
      destruct (Z.leb_spec 100 (SOC bat)); [|lia].
      apply stopChargingLocked_spec in Htick as (_ & _ & _ & _ & Hs' & Hcmds).
      split; [|split]; intros; try exact Hs'.
      left; eapply only_idle; [right; exact Hcmds | eassumption].
    + destruct (IsInChargeWindow plan (now env s)) eqn:Hc; cbn [negb] in Htick.
      * destruct (100 <=? SOC bat).
        -- apply stopChargingLocked_spec in Htick as (_ & _ & _ & _ & _ & Hcmds).
           intros c Hc'. left; eapply only_idle; [right; exact Hcmds | eassumption].
        -- injection Htick as Htick.
           apply refreshPassiveModeLocked_spec in Htick as (_ & [-> | ->]);
             [intros c []|].
           intros c [<-|[]]. right. auto.
      * apply stopChargingLocked_spec in Htick as (_ & _ & _ & _ & _ & Hcmds).
        intros c Hc'. left; eapply only_idle; [right; exact Hcmds | eassumption].
  - (* discharging *)
    unfold tickDischarging in Htick. split; intros Hsoc Hin.
    + destruct (IsInDischargeWindow plan (now env s)) eqn:Hd; cbn [negb] in Htick.
      * destruct (SOC bat <=? minSOCOf s).
        -- apply stopDischargingLocked_spec in Htick as (Hs' & Hcmds & _).
           split; [|split]; intros; try exact Hs'.
           left; eapply only_idle; [right; exact Hcmds | eassumption].
        -- injection Htick as Htick.
           apply refreshPassiveModeLocked_spec in Htick as (_ & Hcmds).
           split; [|split]; [|discriminate|discriminate].
           destruct Hcmds as [-> | ->]; [intros c []|].
           intros c [<-|[]]. right. auto.
      * apply stopDischargingLocked_spec in Htick as (Hs' & Hcmds & _).
        split; [|split]; intros; try exact Hs'.
        left; eapply only_idle; [right; exact Hcmds | eassumption].
    + rewrite Hin in Htick. cbn [negb] in Htick.
      destruct (Z.leb_spec (SOC bat) (minSOCOf s)); [|lia].
      apply stopDischargingLocked_spec in Htick as (_ & Hcmds & _).
      intros c Hc'. left; eapply only_idle; [right; exact Hcmds | eassumption].
Qed.

Lemma tick_soc_guards_witness :
  exists bat plan s' cmds,
    (envAt baseTime 100).(batteryStatus) = Some bat
    /\ smallService.(currentPlan) = Some plan
    /\ tick (envAt baseTime 100) smallService = Some (s', cmds)
    /\ 100 <= bat.(SOC)
    /\ IsInChargeWindow plan (now (envAt baseTime 100) smallService) = true
    /\ s'.(state) = StateIdle
    /\ forall c, List.In c cmds -> isChargeCommand c = false.
Proof.
  destruct (currentPlan smallService) as [plan|] eqn:Hplan;
    [|vm_compute in Hplan; discriminate].
  destruct (tick (envAt baseTime 100) smallService) as [[s' cmds]|] eqn:Htick;
    [|vm_compute in Htick; discriminate].
  assert (Hin : IsInChargeWindow plan (now (envAt baseTime 100) smallService) = true).
  { vm_compute in Hplan. injection Hplan as <-. vm_compute. reflexivity. }
  pose (bat := {| SOC := 100; ChargingFlag := true; DischargFlag := true |}).
  assert (Hsoc : 100 <= bat.(SOC)) by (simpl; lia).
  exists bat, plan, s', cmds.
  destruct (tick_soc_guards (envAt baseTime 100) smallService s' bat plan cmds
              eq_refl Hplan Htick) as (Hcharge & _).
  destruct (Hcharge Hsoc Hin) as (Hc & Hs & _).
  repeat split; try assumption; try reflexivity; [apply Hs; reflexivity |].
  intros c Hcin. destruct (Hc c Hcin) as [-> | (Hst & _)]; [reflexivity|].
  vm_compute in Hst. discriminate.
Defined.

(** C4 as stated fails in its parenthesis. On [gapPrices] the charge window
    runs from 00:00 to 00:45 and no slot covers 00:15. The engine of
    [gapCharging] went charging at 00:00; at 00:15 the battery reports
    SOC 100 inside the charge window, the tick finds no price for the
    current slot and returns: no command is sent and the engine is still
    charging, not idle. *)
Lemma charging_without_price_stays_charging :
  let env := envAt (time.Add baseTime slot) 100 in
  gapCharging.(state) = StateCharging
  /\ option_map SOC env.(batteryStatus) = Some 100
  /\ option_map (fun plan => IsInChargeWindow plan (now env gapCharging))
                gapCharging.(currentPlan) = Some true
  /\ GetCurrentPrice gapCharging.(todayPrices) (now env gapCharging) = (0%float, false)
  /\ tick env gapCharging = Some (gapCharging, [])
  /\ (after (tick env gapCharging)).(state) <> StateIdle.
Proof.
  cbv zeta. repeat split; try (vm_compute; reflexivity).
  vm_compute. discriminate.
Qed.

(** The floor guard at the configured percentage. With the floor at 11% the
    engine's integer floor is 11: a battery at 11% inside the discharge
    window, with a cost basis that makes the discharge profitable, gets no
    command. *)
Lemma floor_11_holds_at_11 :
  let env := envAt (time.Add baseTime (2 * slot)) 11 in
  smallServiceCharged.(cfg).(BatteryMinSOC) = percentFraction 11
  /\ minSOCOf smallServiceCharged = 11
  /\ option_map (fun plan => IsInDischargeWindow plan (now env smallServiceCharged))
                smallServiceCharged.(currentPlan) = Some true
  /\ option_map snd (tick env smallServiceCharged) = Some []
  /\ option_map snd (tick (envAt (time.Add baseTime (2 * slot)) 12) smallServiceCharged)
     = Some [Discharge 2000 300].
Proof. cbv zeta. repeat split; vm_compute; reflexivity. Qed.

(** With the floor configured at 29% the product [0.29 * 100] is
    28.999999999999996 and the engine's integer floor is 28: a battery at
    29% inside the discharge window is sent a discharge command. *)
Lemma floor_29_discharges_at_29 :
  let env := envAt (time.Add baseTime (2 * slot)) 29 in
  floor29Service.(cfg).(BatteryMinSOC) = percentFraction 29
  /\ minSOCOf floor29Service = 28
  /\ option_map (fun plan => IsInDischargeWindow plan (now env floor29Service))
                floor29Service.(currentPlan) = Some true
  /\ option_map snd (tick env floor29Service) = Some [Discharge 2000 300]
  /\ (after (tick env floor29Service)).(state) = StateDischarging.
Proof. cbv zeta. repeat split; vm_compute; reflexivity. Qed.
(** * Further properties of the engine *)

(** ** What one tick can do *)

Lemma startChargingLocked_spec env price soc s s' cmds :
  startChargingLocked env price soc s = (s', cmds) ->
  cmds = [Charge s.(cfg).(ChargePowerW) s.(cfg).(PassiveModeTimeoutS)]
  /\ s'.(cfg) = s.(cfg) /\ s'.(currentPlan) = s.(currentPlan)
  /\ s'.(todayPrices) = s.(todayPrices) /\ s'.(sloc) = s.(sloc)
  /\ s'.(recorder) = s.(recorder)
  /\ ((env.(chargeFails) = true /\ s' = s)
      \/ (env.(chargeFails) = false /\ s'.(state) = StateCharging
          /\ s'.(currentTradeStart) = now env s /\ s'.(currentTradePrice) = price
          /\ s'.(currentTradeSOC) = soc /\ s'.(lastChargePrice) = price
          /\ s'.(lastPassiveRefresh) = now env s)).
Proof.
  unfold startChargingLocked. destruct (chargeFails env); intros [= <- <-]; cbn.
  - repeat split. left. auto.
  - repeat split. right. repeat split.
Qed.

Lemma startDischargingLocked_spec env price soc s s' cmds :
  startDischargingLocked env price soc s = (s', cmds) ->
  cmds = [Discharge s.(cfg).(DischargePowerW) s.(cfg).(PassiveModeTimeoutS)]
  /\ s'.(cfg) = s.(cfg) /\ s'.(currentPlan) = s.(currentPlan)
  /\ s'.(todayPrices) = s.(todayPrices) /\ s'.(sloc) = s.(sloc)
  /\ s'.(recorder) = s.(recorder) /\ s'.(lastChargePrice) = s.(lastChargePrice)
  /\ ((env.(dischargeFails) = true /\ s' = s)
      \/ (env.(dischargeFails) = false /\ s'.(state) = StateDischarging
          /\ s'.(currentTradeStart) = now env s /\ s'.(currentTradePrice) = price
          /\ s'.(currentTradeSOC) = soc
          /\ s'.(lastPassiveRefresh) = now env s)).
Proof.
  unfold startDischargingLocked. destruct (dischargeFails env); intros [= <- <-]; cbn.
  - repeat split. left. auto.
  - repeat split. right. repeat split.
Qed.

Lemma refreshPassiveModeLocked_frame env power s s' cmds :
  refreshPassiveModeLocked env power s = (s', cmds) ->
  s'.(cfg) = s.(cfg) /\ s'.(currentPlan) = s.(currentPlan)
  /\ s'.(todayPrices) = s.(todayPrices) /\ s'.(sloc) = s.(sloc)
  /\ s'.(recorder) = s.(recorder) /\ s'.(lastChargePrice) = s.(lastChargePrice)
  /\ s'.(state) = s.(state) /\ (length cmds <= 1)%nat.
Proof.
  unfold refreshPassiveModeLocked.
  destruct (_ <? _); [intros [= <- <-]; cbn; repeat split; lia|].
  destruct (passiveFails env); intros [= <- <-]; cbn; repeat split; lia.
Qed.

Lemma stopChargingLocked_frame env endSOC s s' cmds :
  stopChargingLocked env endSOC s = Some (s', cmds) ->
  s'.(cfg) = s.(cfg) /\ s'.(currentPlan) = s.(currentPlan)
  /\ s'.(todayPrices) = s.(todayPrices) /\ s'.(sloc) = s.(sloc)
  /\ s'.(state) = StateIdle /\ cmds = [Idle].
Proof.
  unfold stopChargingLocked.
  destruct (chargeTrade env endSOC s) as [trade|]; [|discriminate].
  cbn. intros [= <- <-]. repeat split.
Qed.

Lemma stopDischargingLocked_frame env endSOC s s' cmds :
  stopDischargingLocked env endSOC s = Some (s', cmds) ->
  s'.(cfg) = s.(cfg) /\ s'.(currentPlan) = s.(currentPlan)
  /\ s'.(todayPrices) = s.(todayPrices) /\ s'.(sloc) = s.(sloc)
  /\ s'.(state) = StateIdle /\ cmds = [Idle]
  /\ s'.(lastChargePrice) = s.(lastChargePrice).
Proof.
  unfold stopDischargingLocked.
  destruct (decimal.NewFromFloat _) as [energy|]; [|discriminate].
  cbn. intros [= <- <-]. repeat split.
Qed.

Lemma isDischargeProfitiable_true s p :
  isDischargeProfitiable s p = Some true ->
  ~ (s.(lastChargePrice) == 0)%Q
  /\ exists efficiency,
       decimal.NewFromFloat s.(cfg).(BatteryEfficiency) = Some efficiency
       /\ (decimal.Div s.(lastChargePrice) efficiency < p)%Q.
Proof.
  unfold isDischargeProfitiable.
  destruct (decimal.IsZero (lastChargePrice s)) eqn:Hz; [discriminate|].
  destruct (decimal.NewFromFloat _) as [e|]; cbn; [|discriminate].
  destruct (decimal.IsZero e); [discriminate|]. intros [= Hg].
  split.
  - intros H0. apply IsZero_spec in H0. congruence.
  - exists e. split; [reflexivity|]. now apply GreaterThan_spec.
Qed.

(** The discharge branch of an idle tick: what must hold for the engine to
    send the discharge command. *)
Lemma tickIdle_discharge env bat plan price s s' cmds :
  tickIdle env bat plan price s = Some (s', cmds) ->
  IsInChargeWindow plan (now env s) = false ->
  cmds <> [] ->
  IsInDischargeWindow plan (now env s) = true
  /\ F64.to_int (s.(cfg).(BatteryMinSOC) * 100)%float < bat.(SOC)
  /\ bat.(DischargFlag) = true
  /\ isDischargeProfitiable s price = Some true
  /\ startDischargingLocked env price bat.(SOC) s = (s', cmds).
Proof.
  unfold tickIdle. intros H Hc Hne. rewrite Hc in H.
  destruct (IsInDischargeWindow plan (now env s)); [|injection H as <- <-; congruence].
  cbv zeta in H. unfold minSOCOf in H.
  destruct (Z.leb_spec (SOC bat) (F64.to_int (BatteryMinSOC (cfg s) * 100)%float));
    [injection H as <- <-; congruence|].
  destruct (DischargFlag bat); cbn [negb] in H; [|injection H as <- <-; congruence].
  destruct (isDischargeProfitiable s price) as [[]|]; cbn in H; [| |discriminate].
  - injection H as H. destruct (startDischargingLocked env price (SOC bat) s).
    injection H as <- <-. repeat split; auto.
  - destruct (decimal.NewFromFloat _) as [e|]; cbn in H; [|discriminate].
    destruct (decimal.IsZero e); [discriminate|]. injection H as <- <-. congruence.
Qed.

Lemma tickIdle_charge env bat plan price s s' cmds :
  tickIdle env bat plan price s = Some (s', cmds) ->
  IsInChargeWindow plan (now env s) = true ->
  (s' = s /\ cmds = [] /\ (100 <= bat.(SOC) \/ bat.(ChargingFlag) = false))
  \/ (bat.(SOC) < 100 /\ bat.(ChargingFlag) = true
      /\ startChargingLocked env price bat.(SOC) s = (s', cmds)).
Proof.
  unfold tickIdle. intros H Hc. rewrite Hc in H.
  destruct (Z.leb_spec 100 (SOC bat)); [injection H as <- <-; left; auto|].
  destruct (ChargingFlag bat); cbn [negb] in H;
    [|injection H as <- <-; left; auto].
  right. injection H as H. auto.
Qed.

Lemma tickIdle_none env bat plan price s s' cmds :
  tickIdle env bat plan price s = Some (s', cmds) ->
  IsInChargeWindow plan (now env s) = false ->
  cmds = [] -> s' = s.
Proof.
  unfold tickIdle. intros H Hc Hn. rewrite Hc in H.
  destruct (IsInDischargeWindow plan (now env s)); [|now injection H as <- <-].
  cbv zeta in H.
  destruct (_ <=? _); [now injection H as <- <-|].
  destruct (negb _); [now injection H as <- <-|].
  destruct (isDischargeProfitiable s price) as [[]|]; cbn in H; [| |discriminate].
  - injection H as H. unfold startDischargingLocked in H.
    destruct (dischargeFails env); injection H as <- <-; discriminate.
  - destruct (decimal.NewFromFloat _) as [e|]; cbn in H; [|discriminate].
    destruct (decimal.IsZero e); [discriminate|]. now injection H as <- <-.
Qed.

(** The cases of a tick that reaches the state machine. *)
Lemma tick_cases env s s' cmds :
  tick env s = Some (s', cmds) ->
  (env.(batteryStatus) = None /\ s' = s /\ cmds = [])
  \/ (exists bat, env.(batteryStatus) = Some bat /\ planTrades s = None
        /\ ((s.(state) = StateIdle /\ s' = s /\ cmds = [])
            \/ (s.(state) <> StateIdle /\ s' = withState s StateIdle /\ cmds = [Idle])))
  \/ (exists bat plan v, env.(batteryStatus) = Some bat /\ planTrades s = Some plan
        /\ GetCurrentPrice s.(todayPrices) (now env s) = (v, false)
        /\ s' = s /\ cmds = [])
  \/ (exists bat plan priceF price,
        env.(batteryStatus) = Some bat /\ planTrades s = Some plan
        /\ GetCurrentPrice s.(todayPrices) (now env s) = (priceF, true)
        /\ decimal.NewFromFloat priceF = Some price
        /\ ((s.(state) = StateIdle /\ tickIdle env bat plan price s = Some (s', cmds))
            \/ (s.(state) = StateCharging /\ tickCharging env bat plan s = Some (s', cmds))
            \/ (s.(state) = StateDischarging
                /\ tickDischarging env bat plan s = Some (s', cmds)))).
Proof.
  unfold tick. intros H.
  destruct (batteryStatus env) as [bat|]; [|injection H as <- <-; left; auto].
  right. destruct (planTrades s) as [plan|] eqn:Hp.
  2:{ left. exists bat. split; [reflexivity|]. split; [reflexivity|].
      destruct (state s) eqn:Hs; cbn in H; injection H as <- <-.
      - left. auto.
      - right. repeat split. discriminate.
      - right. repeat split. discriminate. }
  right. destruct (GetCurrentPrice (todayPrices s) (now env s)) as [priceF []] eqn:Hg.
  2:{ left. injection H as <- <-. exists bat, plan, priceF. auto. }
  right. destruct (decimal.NewFromFloat priceF) as [price|] eqn:Hn; [|discriminate].
  cbn [mbind option_bind] in H. exists bat, plan, priceF, price.
  split; [reflexivity|]. split; [reflexivity|]. split; [reflexivity|].
  split; [exact Hn|].
  destruct (state s); auto.
Qed.

Lemma planTrades_Some s plan :
  planTrades s = Some plan -> s.(currentPlan) = Some plan /\ ShouldTrade plan = true.
Proof.
  unfold planTrades. destruct (currentPlan s) as [p|]; [|discriminate].
  destruct (ShouldTrade p) eqn:E; [|discriminate]. intros [= <-]. auto.
Qed.

(** X10. A tick sends at most one command and never touches the configuration,
    the plan or the prices. It moves the engine only along the transitions
    of the state machine: a charging engine never goes straight to
    discharging, nor a discharging one to charging.

    The engine enters [Charging] only from [Idle], on a plan worth trading,
    with a price for the current slot, inside a charge window, with the
    battery below 100% and allowing to charge, and when the charge command
    it sends succeeds; it then records the start of the session: time,
    price and SOC, and takes that price as cost basis.

    It enters [Discharging] only from [Idle], outside every charge window
    and inside a discharge window, with the battery above the floor and
    allowing to discharge, a non-zero cost basis and a price above the
    break-even price, and when the discharge command it sends succeeds;
    the cost basis is kept. *)
Theorem tick_transitions (env : Env) (s s' : Service) (cmds : list Command) :
  tick env s = Some (s', cmds) ->
  (length cmds <= 1)%nat
  /\ s'.(cfg) = s.(cfg) /\ s'.(currentPlan) = s.(currentPlan)
  /\ s'.(todayPrices) = s.(todayPrices) /\ s'.(sloc) = s.(sloc)
  /\ (s.(state) = StateCharging -> s'.(state) <> StateDischarging)
  /\ (s.(state) = StateDischarging -> s'.(state) <> StateCharging)
  /\ (s.(state) <> StateCharging -> s'.(state) = StateCharging ->
        exists bat plan priceF,
          s.(state) = StateIdle
          /\ env.(batteryStatus) = Some bat /\ s.(currentPlan) = Some plan
          /\ ShouldTrade plan = true
          /\ GetCurrentPrice s.(todayPrices) (now env s) = (priceF, true)
          /\ IsInChargeWindow plan (now env s) = true
          /\ bat.(SOC) < 100 /\ bat.(ChargingFlag) = true
          /\ env.(chargeFails) = false
          /\ cmds = [Charge s.(cfg).(ChargePowerW) s.(cfg).(PassiveModeTimeoutS)]
          /\ s'.(currentTradeStart) = now env s
          /\ decimal.NewFromFloat priceF = Some s'.(currentTradePrice)
          /\ s'.(currentTradeSOC) = bat.(SOC)
          /\ s'.(lastChargePrice) = s'.(currentTradePrice))
  /\ (s.(state) <> StateDischarging -> s'.(state) = StateDischarging ->
        exists bat plan priceF efficiency,
          s.(state) = StateIdle
          /\ env.(batteryStatus) = Some bat /\ s.(currentPlan) = Some plan
          /\ ShouldTrade plan = true
          /\ GetCurrentPrice s.(todayPrices) (now env s) = (priceF, true)
          /\ IsInChargeWindow plan (now env s) = false
          /\ IsInDischargeWindow plan (now env s) = true
          /\ F64.to_int (s.(cfg).(BatteryMinSOC) * 100)%float < bat.(SOC)
          /\ bat.(DischargFlag) = true
          /\ ~ (s.(lastChargePrice) == 0)%Q
          /\ decimal.NewFromFloat s.(cfg).(BatteryEfficiency) = Some efficiency
          /\ (decimal.Div s.(lastChargePrice) efficiency < s'.(currentTradePrice))%Q
          /\ env.(dischargeFails) = false
          /\ cmds = [Discharge s.(cfg).(DischargePowerW) s.(cfg).(PassiveModeTimeoutS)]
          /\ s'.(currentTradeStart) = now env s
          /\ decimal.NewFromFloat priceF = Some s'.(currentTradePrice)
          /\ s'.(currentTradeSOC) = bat.(SOC)
          /\ s'.(lastChargePrice) = s.(lastChargePrice)).
Proof.
  intros H. apply tick_cases in H.
  destruct H as [(_ & -> & ->)|[(bat & _ & _ & H)|[(bat & plan & v & _ & _ & _ & -> & ->)|H]]].
  - cbn. repeat split; try congruence; lia.
  - destruct H as [(Hs & -> & ->)|(Hs & -> & ->)]; cbn;
      repeat split; try congruence; try discriminate; lia.
  - cbn. repeat split; try congruence; lia.
  - destruct H as (bat & plan & priceF & price & Hbat & Hplan & Hg & Hn & H).
    apply planTrades_Some in Hplan as (Hplan & Hshould).
    destruct H as [(Hs & H)|[(Hs & H)|(Hs & H)]].
    + (* idle *)
      destruct (IsInChargeWindow plan (now env s)) eqn:Hc.
      * destruct (tickIdle_charge _ _ _ _ _ _ _ H Hc)
          as [(-> & -> & _)|(Hsoc & Hflag & Hstart)].
        { cbn. repeat split; try congruence; lia. }
        apply startChargingLocked_spec in Hstart
          as (-> & H1 & H2 & H3 & H4 & H5 & [(Hf & ->)|(Hf & H6 & H7 & H8 & H9 & H10 & _)]).
        { cbn. repeat split; try congruence; lia. }
        cbn. repeat split; try congruence; try lia.
        intros _ _. exists bat, plan, priceF. rewrite H8, H10. repeat split; auto.
      * destruct cmds as [|c cmds'] eqn:Ecmds.
        { pose proof (tickIdle_none _ _ _ _ _ _ _ H Hc eq_refl) as ->.
          cbn. repeat split; try congruence; lia. }
        rewrite <- Ecmds in *.
        assert (Hne : cmds <> []) by congruence.
        destruct (tickIdle_discharge _ _ _ _ _ _ _ H Hc Hne)
          as (Hd & Hsoc & Hflag & Hprof & Hstart).
        apply startDischargingLocked_spec in Hstart
          as (-> & H1 & H2 & H3 & H4 & H5 & H6 & [(Hf & ->)|(Hf & H7 & H8 & H9 & H10 & _)]).
        { cbn. repeat split; try congruence; lia. }
        cbn. repeat split; try congruence; try lia.
        intros _ _.
        destruct (isDischargeProfitiable_true s price Hprof) as (Hnz & eff & Heff & Hlt).
        exists bat, plan, priceF, eff. rewrite H9. repeat split; auto.
    + (* charging *)
      unfold tickCharging in H.
      assert (Hcases : stopChargingLocked env (SOC bat) s = Some (s', cmds)
                       \/ refreshPassiveModeLocked env (- ChargePowerW (cfg s)) s = (s', cmds)).
      { destruct (negb _); [now left|]. destruct (_ <=? _); [now left|].
        right. now injection H. }
      destruct Hcases as [Hstop|Href].
      * apply stopChargingLocked_frame in Hstop as (H1 & H2 & H3 & H4 & H5 & ->).
        cbn. repeat split; try congruence; lia.
      * apply refreshPassiveModeLocked_frame in Href as (H1 & H2 & H3 & H4 & _ & _ & H7 & H8).
        repeat split; try congruence.
    + (* discharging *)
      unfold tickDischarging in H. cbv zeta in H.
      assert (Hcases : stopDischargingLocked env (SOC bat) s = Some (s', cmds)
                       \/ refreshPassiveModeLocked env (DischargePowerW (cfg s)) s = (s', cmds)).
      { destruct (negb _); [now left|]. destruct (_ <=? _); [now left|].
        right. now injection H. }
      destruct Hcases as [Hstop|Href].
      * apply stopDischargingLocked_frame in Hstop as (H1 & H2 & H3 & H4 & H5 & -> & _).
        cbn. repeat split; try congruence; lia.
      * apply refreshPassiveModeLocked_frame in Href as (H1 & H2 & H3 & H4 & _ & _ & H7 & H8).
        repeat split; try congruence.
Qed.

Lemma tick_transitions_witness :
  exists s' cmds,
    tick (envAt baseTime 50) smallService = Some (s', cmds)
    /\ smallService.(state) = StateIdle
    /\ s'.(state) = StateCharging
    /\ cmds = [Charge 2000 300]
    /\ s'.(lastChargePrice) = s'.(currentTradePrice).
Proof.
  destruct (tick (envAt baseTime 50) smallService) as [[s' cmds]|] eqn:E;
    [|vm_compute in E; discriminate].
  assert (Hs' : s'.(state) = StateCharging).
  { vm_compute in E. injection E as <- _. reflexivity. }
  destruct (tick_transitions _ _ _ _ E) as (_ & _ & _ & _ & _ & _ & _ & Hch & _).
  destruct Hch as (bat & plan & priceF & _ & _ & _ & _ & _ & _ & _ & _ & _ & Hc & _ & _ & _ & Hl);
    [vm_compute; discriminate | exact Hs' |].
  exists s', cmds. split; [first [exact E | reflexivity]|].
  split; [reflexivity|]. split; [exact Hs'|].
  split; [exact Hc | exact Hl].
Defined.

(** ** The ledger during a tick *)

Lemma stopDischargingLocked_trade env endSOC s s' cmds :
  stopDischargingLocked env endSOC s = Some (s', cmds) ->
  exists trade energy,
    Ledger.trades s'.(recorder) = Ledger.trades s.(recorder) ++ [trade]
    /\ Ledger.efficiency s'.(recorder) = Ledger.efficiency s.(recorder)
    /\ Ledger.loc s'.(recorder) = Ledger.loc s.(recorder)
    /\ trade.(Ledger.Action) = Ledger.ActionDischarge
    /\ trade.(Ledger.Timestamp) = s.(currentTradeStart)
    /\ trade.(Ledger.PriceEUR) = s.(currentTradePrice)
    /\ trade.(Ledger.PowerW) = s.(cfg).(DischargePowerW)
    /\ decimal.NewFromFloat
         (F64.of_int s.(cfg).(DischargePowerW)
          * time.Hours (time.Sub env.(wallClock) s.(currentTradeStart)) / 1000)%float
       = Some energy
    /\ trade.(Ledger.EnergyKWh) = energy
    /\ trade.(Ledger.DurationS)
       = F64.to_int (time.Seconds (time.Sub env.(wallClock) s.(currentTradeStart)))
    /\ trade.(Ledger.StartSOC) = s.(currentTradeSOC)
    /\ trade.(Ledger.EndSOC) = endSOC.
Proof.
  unfold stopDischargingLocked, Since.
  destruct (decimal.NewFromFloat _) as [energy|] eqn:He; [|discriminate].
  cbn. intros [= <- <-]. cbn. eexists. exists energy.
  split; [reflexivity|]. cbn. repeat split.
Qed.

Lemma stopChargingLocked_ledger env endSOC s s' cmds :
  stopChargingLocked env endSOC s = Some (s', cmds) ->
  exists trade,
    Ledger.trades s'.(recorder) = Ledger.trades s.(recorder) ++ [trade]
    /\ Ledger.efficiency s'.(recorder) = Ledger.efficiency s.(recorder)
    /\ Ledger.loc s'.(recorder) = Ledger.loc s.(recorder)
    /\ trade.(Ledger.Action) = Ledger.ActionCharge
    /\ trade.(Ledger.Timestamp) = s.(currentTradeStart)
    /\ trade.(Ledger.PowerW) = s.(cfg).(ChargePowerW)
    /\ trade.(Ledger.StartSOC) = s.(currentTradeSOC)
    /\ trade.(Ledger.EndSOC) = endSOC
    /\ s'.(lastChargePrice) = trade.(Ledger.PriceEUR).
Proof.
  unfold stopChargingLocked, chargeTrade.
  destruct (decimal.NewFromFloat _) as [energy|]; [|discriminate]. cbn.
  destruct (calculateAveragePrice _ _ _) as [avg|]; [|discriminate]. cbn.
  intros [= <- <-]. cbn. eexists. split; [reflexivity|]. cbn. repeat split.
Qed.

Lemma tick_ledger_cases (env : Env) (s s' : Service) (cmds : list Command) :
  tick env s = Some (s', cmds) ->
  Ledger.efficiency s'.(recorder) = Ledger.efficiency s.(recorder)
  /\ Ledger.loc s'.(recorder) = Ledger.loc s.(recorder)
  /\ ((Ledger.trades s'.(recorder) = Ledger.trades s.(recorder)
       /\ (s'.(lastChargePrice) = s.(lastChargePrice)
           \/ (s.(state) = StateIdle /\ s'.(state) = StateCharging
               /\ s'.(lastChargePrice) = s'.(currentTradePrice))))
      \/ exists trade bat,
           Ledger.trades s'.(recorder) = Ledger.trades s.(recorder) ++ [trade]
           /\ env.(batteryStatus) = Some bat
           /\ s'.(state) = StateIdle /\ cmds = [Idle]
           /\ trade.(Ledger.Timestamp) = s.(currentTradeStart)
           /\ trade.(Ledger.StartSOC) = s.(currentTradeSOC)
           /\ trade.(Ledger.EndSOC) = bat.(SOC)
           /\ ((s.(state) = StateCharging
                /\ trade.(Ledger.Action) = Ledger.ActionCharge
                /\ trade.(Ledger.PowerW) = s.(cfg).(ChargePowerW)
                /\ s'.(lastChargePrice) = trade.(Ledger.PriceEUR))
               \/ (s.(state) = StateDischarging
                   /\ trade.(Ledger.Action) = Ledger.ActionDischarge
                   /\ trade.(Ledger.PowerW) = s.(cfg).(DischargePowerW)
                   /\ trade.(Ledger.PriceEUR) = s.(currentTradePrice)
                   /\ s'.(lastChargePrice) = s.(lastChargePrice)))).
Proof.
  intros H. apply tick_cases in H.
  destruct H as [(_ & -> & ->)|[(bat & _ & _ & H)|[(bat & plan & v & _ & _ & _ & -> & ->)|H]]].
  - split; [reflexivity|]. split; [reflexivity|]. left. auto.
  - destruct H as [(Hs & -> & ->)|(Hs & -> & ->)];
      (split; [reflexivity|]; split; [reflexivity|]; left; auto).
  - split; [reflexivity|]. split; [reflexivity|]. left. auto.
  - destruct H as (bat & plan & priceF & price & Hbat & Hplan & Hg & Hn & H).
    destruct H as [(Hs & H)|[(Hs & H)|(Hs & H)]].
    + (* idle *)
      destruct (IsInChargeWindow plan (now env s)) eqn:Hc.
      * destruct (tickIdle_charge _ _ _ _ _ _ _ H Hc)
          as [(-> & -> & _)|(Hsoc & Hflag & Hstart)].
        { split; [reflexivity|]. split; [reflexivity|]. left. auto. }
        apply startChargingLocked_spec in Hstart
          as (-> & H1 & H2 & H3 & H4 & H5 & [(Hf & ->)|(Hf & H6 & H7 & H8 & H9 & H10 & _)]).
        { split; [reflexivity|]. split; [reflexivity|]. left. auto. }
        rewrite H5. split; [reflexivity|]. split; [reflexivity|]. left.
        split; [reflexivity|]. right. repeat split; congruence.
      * destruct cmds as [|c cmds'] eqn:Ecmds.
        { pose proof (tickIdle_none _ _ _ _ _ _ _ H Hc eq_refl) as ->.
          split; [reflexivity|]. split; [reflexivity|]. left. auto. }
        rewrite <- Ecmds in *.
        assert (Hne : cmds <> []) by congruence.
        destruct (tickIdle_discharge _ _ _ _ _ _ _ H Hc Hne)
          as (Hd & Hsoc & Hflag & Hprof & Hstart).
        apply startDischargingLocked_spec in Hstart
          as (_ & H1 & H2 & H3 & H4 & H5 & H6 & _).
        rewrite H5. split; [reflexivity|]. split; [reflexivity|]. left. auto.
    + (* charging *)
      unfold tickCharging in H.
      assert (Hcases : stopChargingLocked env (SOC bat) s = Some (s', cmds)
                       \/ refreshPassiveModeLocked env (- ChargePowerW (cfg s)) s = (s', cmds)).
      { destruct (negb _); [now left|]. destruct (_ <=? _); [now left|].
        right. now injection H. }
      destruct Hcases as [Hstop|Href].
      * pose proof (stopChargingLocked_frame _ _ _ _ _ Hstop) as (_ & _ & _ & _ & Hst & Hcmds).
        apply stopChargingLocked_ledger in Hstop
          as (trade & T1 & T2 & T3 & T4 & T5 & T6 & T7 & T8 & T9).
        split; [exact T2|]. split; [exact T3|]. right. exists trade, bat.
        split; [exact T1|]. split; [exact Hbat|]. split; [exact Hst|].
        split; [exact Hcmds|]. split; [exact T5|]. split; [exact T7|].
        split; [exact T8|]. left. auto.
      * apply refreshPassiveModeLocked_frame in Href as (_ & _ & _ & _ & H5 & H6 & _).
        rewrite H5. split; [reflexivity|]. split; [reflexivity|]. left. auto.
    + (* discharging *)
      unfold tickDischarging in H. cbv zeta in H.
      assert (Hcases : stopDischargingLocked env (SOC bat) s = Some (s', cmds)
                       \/ refreshPassiveModeLocked env (DischargePowerW (cfg s)) s = (s', cmds)).
      { destruct (negb _); [now left|]. destruct (_ <=? _); [now left|].
        right. now injection H. }
      destruct Hcases as [Hstop|Href].
      * pose proof (stopDischargingLocked_frame _ _ _ _ _ Hstop)
          as (_ & _ & _ & _ & Hst & Hcmds & Hl).
        apply stopDischargingLocked_trade in Hstop
          as (trade & energy & T1 & T2 & T3 & T4 & T5 & T6 & T7 & T8 & T9 & T10 & T11 & T12).
        split; [exact T2|]. split; [exact T3|]. right. exists trade, bat.
        split; [exact T1|]. split; [exact Hbat|]. split; [exact Hst|].
        split; [exact Hcmds|]. split; [exact T5|]. split; [exact T11|].
        split; [exact T12|]. right. auto 6.
      * apply refreshPassiveModeLocked_frame in Href as (_ & _ & _ & _ & H5 & H6 & _).
        rewrite H5. split; [reflexivity|]. split; [reflexivity|]. left. auto.
Qed.

(** X11. A tick never rewrites the ledger: it leaves the trades as they are or
    appends one. It appends one exactly when it ends a session and the
    engine goes idle with an [Idle] command: a charge trade when the engine
    was charging, whose price becomes the cost basis; a discharge trade at
    the price the session started at when it was discharging, the cost
    basis untouched. The trade carries the start time and start SOC of the
    session and the SOC the battery reports now. Without a new trade the
    cost basis changes only when a charge session starts. *)
Theorem tick_ledger (env : Env) (s s' : Service) (cmds : list Command) :
  tick env s = Some (s', cmds) ->
  Ledger.efficiency s'.(recorder) = Ledger.efficiency s.(recorder)
  /\ Ledger.loc s'.(recorder) = Ledger.loc s.(recorder)
  /\ ((Ledger.trades s'.(recorder) = Ledger.trades s.(recorder)
       /\ (s'.(lastChargePrice) = s.(lastChargePrice)
           \/ (s.(state) = StateIdle /\ s'.(state) = StateCharging
               /\ s'.(lastChargePrice) = s'.(currentTradePrice))))
      \/ exists trade bat,
           Ledger.trades s'.(recorder) = Ledger.trades s.(recorder) ++ [trade]
           /\ env.(batteryStatus) = Some bat
           /\ s'.(state) = StateIdle /\ cmds = [Idle]
           /\ trade.(Ledger.Timestamp) = s.(currentTradeStart)
           /\ trade.(Ledger.StartSOC) = s.(currentTradeSOC)
           /\ trade.(Ledger.EndSOC) = bat.(SOC)
           /\ ((s.(state) = StateCharging
                /\ trade.(Ledger.Action) = Ledger.ActionCharge
                /\ trade.(Ledger.PowerW) = s.(cfg).(ChargePowerW)
                /\ s'.(lastChargePrice) = trade.(Ledger.PriceEUR))
               \/ (s.(state) = StateDischarging
                   /\ trade.(Ledger.Action) = Ledger.ActionDischarge
                   /\ trade.(Ledger.PowerW) = s.(cfg).(DischargePowerW)
                   /\ trade.(Ledger.PriceEUR) = s.(currentTradePrice)
                   /\ s'.(lastChargePrice) = s.(lastChargePrice)))).
Proof. apply tick_ledger_cases. Qed.

Lemma tick_ledger_witness :
  exists s1 c1 s2 c2 trade,
    tick (envAt baseTime 50) smallService = Some (s1, c1)
    /\ tick (envAt (time.Add baseTime slot) 60) s1 = Some (s2, c2)
    /\ Ledger.trades s1.(recorder) = []
    /\ Ledger.trades s2.(recorder) = [trade]
    /\ trade.(Ledger.Action) = Ledger.ActionCharge
    /\ s2.(lastChargePrice) = trade.(Ledger.PriceEUR).
Proof.
  destruct (tick (envAt baseTime 50) smallService) as [[s1 c1]|] eqn:E1;
    [|vm_compute in E1; discriminate].
  destruct (tick (envAt (time.Add baseTime slot) 60) s1) as [[s2 c2]|] eqn:E2;
    [|vm_compute in E1; injection E1 as <- <-; vm_compute in E2; discriminate].
  assert (H1 : Ledger.trades s1.(recorder) = []).
  { vm_compute in E1. injection E1 as <- _. reflexivity. }
  assert (H2 : length (Ledger.trades s2.(recorder)) = 1%nat).
  { vm_compute in E1. injection E1 as <- <-. vm_compute in E2. injection E2 as <- _.
    reflexivity. }
  destruct (tick_ledger _ _ _ _ E2) as (_ & _ & [(Hsame & _)|(trade & bat & Ht & _ & _ & _ & _ & _ & _ & Hact)]).
  { rewrite Hsame, H1 in H2. discriminate. }
  exists s1, c1, s2, c2, trade.
  split; [first [exact E1 | reflexivity]|]. split; [first [exact E2 | reflexivity]|].
  split; [exact H1|]. rewrite H1 in Ht. split; [exact Ht|].
  destruct Hact as [(_ & Ha & _ & Hl)|(Hs & _)]; [auto|].
  vm_compute in E1. injection E1 as <- _. discriminate.
Defined.

(** ** The end of a discharge session *)

(** X12. When a discharge session ends, one discharge trade is appended to the
    ledger: it is stamped with the start of the session, priced at the
    price the session started at, its energy is the discharge power times
    the time since the session started, measured on the wall clock
    ([power * hours / 1000] kWh), and it carries the SOC at both ends; the
    cost basis is untouched, the engine goes idle and sends [Idle]. A
    discharging engine ends its session when the current time has left the
    discharge window or the battery reports a SOC at or below the floor
    [int(BatteryMinSOC * 100)]; otherwise it stays discharging and keeps
    the ledger. *)
Theorem discharge_session_trade (env : Env) (bat : BatteryStatus) (plan : TradingPlan)
    (s s' : Service) (cmds : list Command) :
  s.(state) = StateDischarging ->
  tickDischarging env bat plan s = Some (s', cmds) ->
  (IsInDischargeWindow plan (now env s) = false
   \/ bat.(SOC) <= F64.to_int (s.(cfg).(BatteryMinSOC) * 100)%float ->
   exists trade energy,
     Ledger.trades s'.(recorder) = Ledger.trades s.(recorder) ++ [trade]
     /\ trade.(Ledger.Action) = Ledger.ActionDischarge
     /\ trade.(Ledger.Timestamp) = s.(currentTradeStart)
     /\ trade.(Ledger.PriceEUR) = s.(currentTradePrice)
     /\ trade.(Ledger.PowerW) = s.(cfg).(DischargePowerW)
     /\ decimal.NewFromFloat
          (F64.of_int s.(cfg).(DischargePowerW)
           * time.Hours (time.Sub env.(wallClock) s.(currentTradeStart)) / 1000)%float
        = Some energy
     /\ trade.(Ledger.EnergyKWh) = energy
     /\ trade.(Ledger.StartSOC) = s.(currentTradeSOC)
     /\ trade.(Ledger.EndSOC) = bat.(SOC)
     /\ s'.(lastChargePrice) = s.(lastChargePrice)
     /\ s'.(state) = StateIdle /\ cmds = [Idle])
  /\ (IsInDischargeWindow plan (now env s) = true ->
      F64.to_int (s.(cfg).(BatteryMinSOC) * 100)%float < bat.(SOC) ->
      s'.(state) = StateDischarging
      /\ s'.(recorder) = s.(recorder)
      /\ forall c, List.In c cmds ->
           c = SetPassiveMode s.(cfg).(DischargePowerW) s.(cfg).(PassiveModeTimeoutS)).
Proof.
  intros Hs H. unfold tickDischarging, minSOCOf in H. cbv zeta in H. split.
  - intros Hend.
    assert (Hstop : stopDischargingLocked env (SOC bat) s = Some (s', cmds)).
    { destruct (IsInDischargeWindow plan (now env s)); cbn [negb] in H; [|exact H].
      destruct Hend as [Hd|Hsoc]; [discriminate|].
      destruct (Z.leb_spec (SOC bat) (F64.to_int (BatteryMinSOC (cfg s) * 100)%float));
        [exact H | lia]. }
    pose proof (stopDischargingLocked_frame _ _ _ _ _ Hstop)
      as (_ & _ & _ & _ & Hst & Hcmds & Hl).
    apply stopDischargingLocked_trade in Hstop
      as (trade & energy & T1 & T2 & T3 & T4 & T5 & T6 & T7 & T8 & T9 & T10 & T11 & T12).
    exists trade, energy. repeat split; assumption.
  - intros Hin Hsoc. rewrite Hin in H. cbn [negb] in H.
    destruct (Z.leb_spec (SOC bat) (F64.to_int (BatteryMinSOC (cfg s) * 100)%float));
      [lia|].
    injection H as H.
    pose proof (refreshPassiveModeLocked_frame _ _ _ _ _ H) as (_ & _ & _ & _ & Hr & _ & Hst & _).
    apply refreshPassiveModeLocked_spec in H as (_ & Hcmds).
    split; [congruence|]. split; [exact Hr|].
    intros c Hc. destruct Hcmds as [-> | ->]; [destruct Hc|].
    destruct Hc as [<-|[]]. reflexivity.
Qed.

Lemma discharge_session_trade_witness :
  let env := envAt (time.Add baseTime (3 * slot)) 30 in
  let bat := {| SOC := 30; ChargingFlag := true; DischargFlag := true |} in
  exists s' cmds trade,
    smallDischarging.(state) = StateDischarging
    /\ tickDischarging env bat smallPlan smallDischarging = Some (s', cmds)
    /\ IsInDischargeWindow smallPlan (now env smallDischarging) = false
    /\ Ledger.trades s'.(recorder) = [trade]
    /\ trade.(Ledger.PriceEUR) = (1 # 4)%Q
    /\ s'.(state) = StateIdle.
Proof.
  cbv zeta.
  set (env := envAt (time.Add baseTime (3 * slot)) 30).
  set (bat := {| SOC := 30; ChargingFlag := true; DischargFlag := true |}).
  assert (Hs : smallDischarging.(state) = StateDischarging) by (vm_compute; reflexivity).
  assert (Hout : IsInDischargeWindow smallPlan (now env smallDischarging) = false)
    by (vm_compute; reflexivity).
  destruct (tickDischarging env bat smallPlan smallDischarging) as [[s' cmds]|] eqn:E;
    [|vm_compute in E; discriminate].
  destruct (discharge_session_trade env bat smallPlan smallDischarging s' cmds Hs E)
    as (Hend & _).
  destruct (Hend (or_introl Hout))
    as (trade & energy & T1 & _ & _ & T4 & _ & _ & _ & _ & _ & _ & T11 & _).
  exists s', cmds, trade. split; [exact Hs|].
  split; [first [exact E | reflexivity]|]. split; [exact Hout|].
  split; [rewrite T1; reflexivity|]. split; [rewrite T4; vm_compute; reflexivity | exact T11].
Defined.

(** ** Keeping the passive mode alive *)

(** X13. While a session continues (the engine is charging inside a charge
    window below 100%, or discharging inside a discharge window above the
    floor) the engine re-sends its power as a passive-mode command with the
    configured timeout (negative power to charge, positive to discharge)
    once the wall clock is [int(PassiveModeTimeoutS * 0.8)] seconds or more
    past the last refresh, and sends nothing before. A command that
    succeeds moves the time of the last refresh to the wall clock; one that
    fails changes nothing. The session, the ledger and the cost basis are
    untouched. *)
Theorem passive_mode_refresh (env : Env) (bat : BatteryStatus) (plan : TradingPlan)
    (s s' : Service) (cmds : list Command) (power : Z) :
  (s.(state) = StateCharging
   /\ IsInChargeWindow plan (now env s) = true /\ bat.(SOC) < 100
   /\ tickCharging env bat plan s = Some (s', cmds)
   /\ power = - s.(cfg).(ChargePowerW))
  \/ (s.(state) = StateDischarging
      /\ IsInDischargeWindow plan (now env s) = true
      /\ F64.to_int (s.(cfg).(BatteryMinSOC) * 100)%float < bat.(SOC)
      /\ tickDischarging env bat plan s = Some (s', cmds)
      /\ power = s.(cfg).(DischargePowerW)) ->
  let threshold :=
    F64.to_int (F64.of_int s.(cfg).(PassiveModeTimeoutS) * 0.8)%float * time.Second in
  let elapsed := time.unixNano env.(wallClock) - time.unixNano s.(lastPassiveRefresh) in
  (elapsed < threshold -> cmds = [] /\ s' = s)
  /\ (threshold <= elapsed ->
      cmds = [SetPassiveMode power s.(cfg).(PassiveModeTimeoutS)]
      /\ (env.(passiveFails) = true -> s' = s)
      /\ (env.(passiveFails) = false -> s'.(lastPassiveRefresh) = env.(wallClock)))
  /\ s'.(state) = s.(state) /\ s'.(recorder) = s.(recorder)
  /\ s'.(lastChargePrice) = s.(lastChargePrice)
  /\ s'.(currentTradeStart) = s.(currentTradeStart)
  /\ s'.(currentTradePrice) = s.(currentTradePrice)
  /\ s'.(currentTradeSOC) = s.(currentTradeSOC).
Proof.
  intros Hcase. cbv zeta.
  assert (Href : refreshPassiveModeLocked env power s = (s', cmds)).
  { destruct Hcase as [(_ & Hin & Hsoc & H & ->)|(_ & Hin & Hsoc & H & ->)].
    - unfold tickCharging in H. rewrite Hin in H. cbn [negb] in H.
      destruct (Z.leb_spec 100 (SOC bat)); [lia|]. now injection H.
    - unfold tickDischarging, minSOCOf in H. cbv zeta in H.
      rewrite Hin in H. cbn [negb] in H.
      destruct (Z.leb_spec (SOC bat) (F64.to_int (BatteryMinSOC (cfg s) * 100)%float));
        [lia|].
      now injection H. }
  clear Hcase. revert Href. unfold refreshPassiveModeLocked, Since, time.Sub.
  destruct (Z.ltb_spec (time.unixNano (wallClock env) - time.unixNano (lastPassiveRefresh s))
              (F64.to_int (F64.of_int (PassiveModeTimeoutS (cfg s)) * 0.8)%float * time.Second))
    as [Hlt|Hge].
  - intros [= <- <-]. repeat split; try congruence; try lia.
  - destruct (passiveFails env); intros [= <- <-]; cbn;
      repeat split; try congruence; try lia.
Qed.

(** The engine of [risingCharging] went charging at 00:00 with a timeout
    of 300 s: the threshold is 240 s, and five minutes later it re-sends
    the charge power. *)
Lemma passive_mode_refresh_witness :
  let env := envAt (time.Add baseTime (5 * time.Minute)) 60 in
  let bat := {| SOC := 60; ChargingFlag := true; DischargFlag := true |} in
  exists plan s' cmds,
    risingCharging.(currentPlan) = Some plan
    /\ risingCharging.(state) = StateCharging
    /\ tickCharging env bat plan risingCharging = Some (s', cmds)
    /\ F64.to_int (F64.of_int risingCharging.(cfg).(PassiveModeTimeoutS) * 0.8)%float = 240
    /\ cmds = [SetPassiveMode (-2000) 300]
    /\ s'.(lastPassiveRefresh) = time.Add baseTime (5 * time.Minute).
Proof.
  cbv zeta.
  set (env := envAt (time.Add baseTime (5 * time.Minute)) 60).
  set (bat := {| SOC := 60; ChargingFlag := true; DischargFlag := true |}).
  destruct (currentPlan risingCharging) as [plan|] eqn:Hplan;
    [|vm_compute in Hplan; discriminate].
  assert (Hin : IsInChargeWindow plan (now env risingCharging) = true).
  { vm_compute in Hplan. injection Hplan as <-. vm_compute. reflexivity. }
  assert (Hs : risingCharging.(state) = StateCharging) by (vm_compute; reflexivity).
  destruct (tickCharging env bat plan risingCharging) as [[s' cmds]|] eqn:E.
  2:{ vm_compute in Hplan. injection Hplan as <-. vm_compute in E. discriminate. }
  assert (Hsoc : bat.(SOC) < 100) by (cbn; lia).
  destruct (passive_mode_refresh env bat plan risingCharging s' cmds
              (- risingCharging.(cfg).(ChargePowerW))
              (or_introl (conj Hs (conj Hin (conj Hsoc (conj E eq_refl))))))
    as (_ & Hge & _).
  destruct Hge as (Hcmds & _ & Hok); [vm_compute; discriminate|].
  exists plan, s', cmds. split; [reflexivity|]. split; [exact Hs|].
  split; [first [exact E | reflexivity]|]. split; [vm_compute; reflexivity|].
  split; [rewrite Hcmds; reflexivity|]. rewrite Hok; reflexivity.
Defined.

(** ** Ticks that do not reach the state machine *)

(** X14. When the battery does not report its status the tick does nothing.
    When it does and there is no plan to trade on (no plan at all, a plan
    that is not profitable, or one without windows), the engine ends the
    tick idle: an idle engine sends nothing; an engine in a session sends
    [Idle] and drops the session, and no trade is recorded for it. *)
Theorem tick_without_plan (env : Env) (s : Service) :
  (env.(batteryStatus) = None -> tick env s = Some (s, []))
  /\ (forall bat,
        env.(batteryStatus) = Some bat ->
        s.(currentPlan) = None
        \/ (exists plan, s.(currentPlan) = Some plan
              /\ (plan.(IsProfitable) = false
                  \/ (plan.(ChargeWindows) = [] /\ plan.(DischargeWindows) = []))) ->
        exists s' cmds,
          tick env s = Some (s', cmds)
          /\ s'.(state) = StateIdle /\ s'.(recorder) = s.(recorder)
          /\ s'.(lastChargePrice) = s.(lastChargePrice)
          /\ (s.(state) = StateIdle -> cmds = [] /\ s' = s)
          /\ (s.(state) <> StateIdle -> cmds = [Idle])).
Proof.
  split.
  - intros Hb. unfold tick. now rewrite Hb.
  - intros bat Hb Hplan. unfold tick. rewrite Hb.
    assert (Hp : planTrades s = None).
    { unfold planTrades. destruct Hplan as [-> | (plan & -> & Hno)]; [reflexivity|].
      unfold ShouldTrade. destruct Hno as [-> | (-> & ->)]; [reflexivity|].
      now rewrite andb_false_r. }
    rewrite Hp. destruct (state s) eqn:Hs; cbn.
    + exists s, []. repeat split; auto. congruence.
    + eexists _, _. split; [reflexivity|]. cbn. repeat split; congruence.
    + eexists _, _. split; [reflexivity|]. cbn. repeat split; congruence.
Qed.

Lemma tick_without_plan_witness :
  let env := envAt (time.Add baseTime (5 * time.Minute)) 60 in
  let s := withPlan risingCharging None in
  exists s' cmds,
    s.(state) = StateCharging
    /\ tick env s = Some (s', cmds)
    /\ s'.(state) = StateIdle /\ cmds = [Idle]
    /\ Ledger.trades s'.(recorder) = [].
Proof.
  cbv zeta.
  destruct (proj2 (tick_without_plan (envAt (time.Add baseTime (5 * time.Minute)) 60)
                     (withPlan risingCharging None))
              {| SOC := 60; ChargingFlag := true; DischargFlag := true |}
              eq_refl (or_introl eq_refl))
    as (s' & cmds & Ht & Hst & Hrec & _ & _ & Hcmds).
  exists s', cmds. split; [vm_compute; reflexivity|]. split; [exact Ht|].
  split; [exact Hst|]. split; [apply Hcmds; vm_compute; discriminate|].
  rewrite Hrec. vm_compute. reflexivity.
Defined.

(** * Prices and plans over the days *)

(** ** Clock arithmetic *)

Lemma Truncate_day (t : Time) :
  time.unixNano (time.Truncate t (24 * time.Hour)) = utcDay t * time.Day.
Proof.
  unfold time.Truncate, utcDay. change (24 * time.Hour <=? 0) with false.
  cbn [time.unixNano]. change (24 * time.Hour) with time.Day.
  assert (Hday : 0 < time.Day) by reflexivity.
  replace (time.unixNano time.zero) with (- 719162 * time.Day) by reflexivity.
  replace (time.unixNano t - - 719162 * time.Day)
    with (time.unixNano t + 719162 * time.Day) by lia.
  rewrite Z.mod_add by lia.
  pose proof (Z.div_mod (time.unixNano t) time.Day ltac:(lia)). lia.
Qed.

Lemma rollover_window_clock (now : Time) :
  (time.hourOf now =? 0) && (time.minuteOf now <? 15) = true <-> inRolloverWindow now.
Proof.
  unfold time.hourOf, time.minuteOf, inRolloverWindow, localNanos.
  set (a := time.unixNano now + time.zoneOffset (time.location now) * time.Second).
  assert (Hd : 0 <= a mod time.Day < time.Day) by (apply Z.mod_pos_bound; reflexivity).
  assert (Hh : 0 <= a mod time.Hour < time.Hour) by (apply Z.mod_pos_bound; reflexivity).
  assert (Hmod : (a mod time.Day) mod time.Hour = a mod time.Hour).
  { apply Z.mod_mod_divide. exists 24. reflexivity. }
  assert (Hhour : 0 < time.Hour) by reflexivity.
  assert (Hmin : 0 < time.Minute) by reflexivity.
  rewrite andb_true_iff, Z.eqb_eq, Z.ltb_lt. split.
  - intros (H0 & H15).
    assert (Hlt : a mod time.Day < time.Hour).
    { destruct (Z.lt_ge_cases (a mod time.Day) time.Hour) as [|Hge]; [assumption|].
      pose proof (Z.div_le_mono _ _ time.Hour Hhour Hge) as Hq.
      rewrite Z.div_same in Hq by lia. lia. }
    rewrite <- Hmod, Z.mod_small in H15 by lia.
    destruct (Z.lt_ge_cases (a mod time.Day) (15 * time.Minute)) as [|Hge]; [assumption|].
    pose proof (Z.div_le_mono _ _ time.Minute Hmin Hge) as Hq.
    rewrite Z.div_mul in Hq by lia. lia.
  - intros Hw.
    assert (Hlt : a mod time.Day < time.Hour).
    { change time.Hour with (60 * time.Minute). lia. }
    split; [apply Z.div_small; lia|].
    rewrite <- Hmod, Z.mod_small by lia.
    apply Z.div_lt_upper_bound; lia.
Qed.

(** Two instants of one rollover window, in a location whose offset is a
    whole number of quarters of an hour, fall on the same day in UTC. *)
Lemma same_window_same_utcDay (t u : Time) :
  time.location t = time.location u ->
  (time.zoneOffset (time.location t) * time.Second) mod (15 * time.Minute) = 0 ->
  time.civilDay t = time.civilDay u ->
  inRolloverWindow t -> inRolloverWindow u ->
  utcDay t = utcDay u.
Proof.
  unfold time.civilDay, inRolloverWindow, localNanos, utcDay.
  intros Hloc Hoff Hday Ht Hu. rewrite <- Hloc in *.
  set (o := time.zoneOffset (time.location t) * time.Second) in *.
  set (Q := 15 * time.Minute) in *.
  assert (HQ : 0 < Q) by reflexivity.
  assert (HD : time.Day = Q * 96) by reflexivity.
  assert (Hcell : forall x, 0 <= (x + o) mod time.Day < Q ->
            x / time.Day = (((x + o) / time.Day) * 96 - o / Q) / 96).
  { intros x Hx.
    pose proof (Z.div_mod (x + o) time.Day ltac:(rewrite HD; lia)) as Hdm.
    pose proof (Z.div_mod o Q ltac:(lia)) as Ho. rewrite Hoff in Ho.
    set (d := (x + o) / time.Day) in *. set (r := (x + o) mod time.Day) in *.
    set (k := o / Q) in *.
    assert (Hxeq : x = Q * (d * 96 - k) + r) by (rewrite HD in Hdm; lia).
    rewrite HD, <- Z.div_div by lia.
    rewrite Hxeq at 1. rewrite Z.mul_comm, Z.div_add_l by lia.
    rewrite (Z.div_small r Q) by lia. now rewrite Z.add_0_r. }
  assert (Hpos : forall x, 0 <= (x + o) mod time.Day).
  { intros x. apply Z.mod_pos_bound. rewrite HD. lia. }
  rewrite (Hcell (time.unixNano t)) by (split; [apply Hpos | exact Ht]).
  rewrite (Hcell (time.unixNano u)) by (split; [apply Hpos | exact Hu]).
  now rewrite Hday.
Qed.

(** ** The daily rollover *)

Lemma utcDay_Equal (t u : Time) :
  time.Equal (time.Truncate t (24 * time.Hour)) (time.Truncate u (24 * time.Hour))
  = (utcDay t =? utcDay u).
Proof.
  unfold time.Equal. rewrite !Truncate_day.
  assert (Hday : 0 < time.Day) by reflexivity.
  destruct (Z.eqb_spec (utcDay t) (utcDay u)) as [->|Hne].
  - apply Z.eqb_refl.
  - apply Z.eqb_neq. nia.
Qed.

Lemma futurePrices_filter (now : Time) (prices : list Price) :
  Scheduler.futurePrices now prices = List.filter (notEndedBefore now) prices.
Proof.
  unfold Scheduler.futurePrices. apply List.filter_ext. intros p.
  unfold notEndedBefore, time.Before, time.Add, slot. cbn [time.unixNano].
  destruct (Z.ltb_spec (time.unixNano (PTime p) + 15 * time.Minute) (time.unixNano now));
    destruct (Z.leb_spec (time.unixNano now) (time.unixNano (PTime p) + 15 * time.Minute));
    try lia; reflexivity.
Qed.

Lemma sameEngine_refl (s : Service) : sameEngine s s.
Proof. repeat split. Qed.

Lemma sameEngine_withPrices (s : Service) prices plan :
  sameEngine s (Scheduler.withPrices s prices plan).
Proof. repeat split. Qed.

Lemma fetchTodayPrices_spec env np sch :
  match Scheduler.FetchTodayPrices np with
  | Some prices =>
      Scheduler.fetchTodayPrices env np sch
      = ({| Scheduler.svc :=
              Scheduler.withPrices sch.(Scheduler.svc) prices
                (AnalyzePrices (List.filter (notEndedBefore (now env sch.(Scheduler.svc))) prices)
                               (analyzerConfig sch.(Scheduler.svc)));
            Scheduler.tomorrowPrices := sch.(Scheduler.tomorrowPrices);
            Scheduler.lastMidnightSwap := sch.(Scheduler.lastMidnightSwap) |}, true)
  | None => Scheduler.fetchTodayPrices env np sch = (sch, false)
  end.
Proof.
  unfold Scheduler.fetchTodayPrices.
  destruct (Scheduler.FetchTodayPrices np); [|reflexivity].
  now rewrite futurePrices_filter.
Qed.

Lemma checkPriceFetch_cases (env : Env) (np : Scheduler.Provider)
    (sch : Scheduler.Scheduler) :
  let s := sch.(Scheduler.svc) in
  let now := now env s in
  let sch' := Scheduler.checkPriceFetch env np sch in
  let s' := sch'.(Scheduler.svc) in
  sameEngine s s'
  /\ (inRolloverWindow now ->
      utcDay sch.(Scheduler.lastMidnightSwap) <> utcDay now ->
      sch'.(Scheduler.lastMidnightSwap) = now
      /\ sch'.(Scheduler.tomorrowPrices) = []
      /\ (sch.(Scheduler.tomorrowPrices) <> [] ->
          s'.(todayPrices) = sch.(Scheduler.tomorrowPrices)
          /\ s'.(currentPlan)
             = Some (AnalyzePrices sch.(Scheduler.tomorrowPrices) (analyzerConfig s)))
      /\ (sch.(Scheduler.tomorrowPrices) = [] ->
          match Scheduler.FetchTodayPrices np with
          | Some prices =>
              s'.(todayPrices) = prices
              /\ s'.(currentPlan)
                 = Some (AnalyzePrices (List.filter (notEndedBefore now) prices)
                                       (analyzerConfig s))
          | None => s' = s
          end))
  /\ (~ (inRolloverWindow now
         /\ utcDay sch.(Scheduler.lastMidnightSwap) <> utcDay now) ->
      s' = s
      /\ sch'.(Scheduler.lastMidnightSwap) = sch.(Scheduler.lastMidnightSwap)
      /\ (time.hourOf now = 13 -> sch.(Scheduler.tomorrowPrices) = [] ->
          sch'.(Scheduler.tomorrowPrices)
          = match Scheduler.FetchTomorrowPrices np with
            | Some prices => prices
            | None => []
            end)
      /\ (time.hourOf now <> 13 \/ sch.(Scheduler.tomorrowPrices) <> [] ->
          sch' = sch)).
Proof.
  cbv zeta. unfold Scheduler.checkPriceFetch.
  set (now := now env (Scheduler.svc sch)).
  assert (Hlen0 : forall l : list Price, (len l =? 0) = true <-> l = []).
  { intros l. rewrite Z.eqb_eq. destruct l; [tauto|]. rewrite len_cons.
    pose proof (len_nonneg l). split; [lia | discriminate]. }
  assert (Hlenp : forall l : list Price, (0 <? len l) = true <-> l <> []).
  { intros l. rewrite Z.ltb_lt. destruct l; [unfold len; cbn; split; [lia | congruence]|].
    rewrite len_cons. pose proof (len_nonneg l). split; [discriminate | lia]. }
  destruct (Z.eqb_spec (time.hourOf now) 13) as [H13|H13].
  - (* 13 h: no rollover *)
    assert (Hnot : ~ inRolloverWindow now).
    { intros Hw. apply rollover_window_clock in Hw.
      apply andb_true_iff in Hw as (Hw & _). apply Z.eqb_eq in Hw. lia. }
    assert (Hcond : forall sch0 : Scheduler.Scheduler,
              (time.hourOf now =? 0) && (time.minuteOf now <? 15)
              && negb (time.Equal (time.Truncate (Scheduler.lastMidnightSwap sch0)
                                                 (24 * time.Hour))
                                  (time.Truncate now (24 * time.Hour))) = false).
    { intros sch0. destruct (Z.eqb_spec (time.hourOf now) 0); [lia | reflexivity]. }
    cbn [andb]. rewrite Hcond.
    destruct (len (Scheduler.tomorrowPrices sch) =? 0) eqn:El.
    + apply Hlen0 in El. unfold Scheduler.fetchTomorrowPrices.
      destruct (Scheduler.FetchTomorrowPrices np) as [prices|]; cbn [fst Scheduler.svc
        Scheduler.lastMidnightSwap Scheduler.tomorrowPrices].
      * split; [apply sameEngine_refl|]. split; [tauto|]. intros _.
        split; [reflexivity|]. split; [reflexivity|]. split; [reflexivity|].
        intros [Hc|Hc]; congruence.
      * split; [apply sameEngine_refl|]. split; [tauto|]. intros _.
        split; [reflexivity|]. split; [reflexivity|]. split; [intros _ _; exact El|].
        reflexivity.
    + split; [apply sameEngine_refl|]. split; [tauto|]. intros _.
      split; [reflexivity|]. split; [reflexivity|]. split; [|reflexivity].
      intros _ Hnil. apply Hlen0 in Hnil. congruence.
  - cbn [andb]. rewrite utcDay_Equal.
    destruct ((time.hourOf now =? 0) && (time.minuteOf now <? 15)) eqn:Ew.
    2:{ (* outside the window *)
        assert (Hnot : ~ inRolloverWindow now).
        { intros Hw. apply rollover_window_clock in Hw. congruence. }
        cbn [andb]. split; [apply sameEngine_refl|]. split; [tauto|]. intros _.
        split; [reflexivity|]. split; [reflexivity|]. split; [lia | reflexivity]. }
    apply rollover_window_clock in Ew. cbn [andb].
    destruct (Z.eqb_spec (utcDay (Scheduler.lastMidnightSwap sch)) (utcDay now)) as [Hsame|Hdiff];
      cbn [negb].
    { (* already rolled over today *)
      split; [apply sameEngine_refl|]. split; [tauto|]. intros _.
      split; [reflexivity|]. split; [reflexivity|]. split; [lia | reflexivity]. }
    destruct (0 <? len (Scheduler.tomorrowPrices sch)) eqn:Ep.
    + apply Hlenp in Ep. cbn [Scheduler.svc Scheduler.lastMidnightSwap Scheduler.tomorrowPrices].
      split; [apply sameEngine_withPrices|]. split; [|tauto]. intros _ _.
      split; [reflexivity|]. split; [reflexivity|]. split; [intros _; split; reflexivity|].
      congruence.
    + assert (Hnil : Scheduler.tomorrowPrices sch = []).
      { destruct (Scheduler.tomorrowPrices sch) as [|p l] eqn:E; [reflexivity|].
        assert (Hp : (0 <? len (p :: l)) = true) by (apply Hlenp; discriminate).
        congruence. }
      pose proof (fetchTodayPrices_spec env np
                    {| Scheduler.svc := Scheduler.svc sch;
                       Scheduler.tomorrowPrices := Scheduler.tomorrowPrices sch;
                       Scheduler.lastMidnightSwap := now |}) as Hf.
      cbn [Scheduler.svc Scheduler.lastMidnightSwap Scheduler.tomorrowPrices] in Hf.
      fold now in Hf.
      destruct (Scheduler.FetchTodayPrices np) as [prices|]; rewrite Hf;
        cbn [fst Scheduler.svc Scheduler.lastMidnightSwap Scheduler.tomorrowPrices].
      * split; [apply sameEngine_withPrices|]. split; [|tauto]. intros _ _.
        split; [reflexivity|]. split; [exact Hnil|]. split; [congruence|].
        intros _. split; reflexivity.
      * split; [apply sameEngine_refl|]. split; [|tauto]. intros _ _.
        split; [reflexivity|]. split; [exact Hnil|]. split; [congruence|].
        intros _. reflexivity.
Qed.

(** X15. [checkPriceFetch] at the instant [now], in its three regimes. It rolls
    the day over when [now] lies in the quarter of an hour after midnight
    on a day (in UTC) other than that of the last rollover. Then, with
    prices for tomorrow at hand, they become today's prices, the plan
    becomes their plan and none are left for tomorrow; with none at hand
    today's prices are fetched, and on success they become today's prices
    and the plan is made on the slots that have not ended, on failure
    prices and plan stay; either way the rollover is marked as done at
    [now]. Outside the rollover it leaves prices, plan and mark alone and,
    when the clock shows 13 h and no prices for tomorrow are at hand,
    fetches them. It never touches the session, the ledger or the cost
    basis of the engine. *)
Theorem checkPriceFetch_rollover (env : Env) (np : Scheduler.Provider)
    (sch : Scheduler.Scheduler) :
  let s := sch.(Scheduler.svc) in
  let now := now env s in
  let sch' := Scheduler.checkPriceFetch env np sch in
  let s' := sch'.(Scheduler.svc) in
  sameEngine s s'
  /\ (inRolloverWindow now ->
      utcDay sch.(Scheduler.lastMidnightSwap) <> utcDay now ->
      sch'.(Scheduler.lastMidnightSwap) = now
      /\ sch'.(Scheduler.tomorrowPrices) = []
      /\ (sch.(Scheduler.tomorrowPrices) <> [] ->
          s'.(todayPrices) = sch.(Scheduler.tomorrowPrices)
          /\ s'.(currentPlan)
             = Some (AnalyzePrices sch.(Scheduler.tomorrowPrices) (analyzerConfig s)))
      /\ (sch.(Scheduler.tomorrowPrices) = [] ->
          match Scheduler.FetchTodayPrices np with
          | Some prices =>
              s'.(todayPrices) = prices
              /\ s'.(currentPlan)
                 = Some (AnalyzePrices (List.filter (notEndedBefore now) prices)
                                       (analyzerConfig s))
          | None => s' = s
          end))
  /\ (~ (inRolloverWindow now
         /\ utcDay sch.(Scheduler.lastMidnightSwap) <> utcDay now) ->
      s' = s
      /\ sch'.(Scheduler.lastMidnightSwap) = sch.(Scheduler.lastMidnightSwap)
      /\ (time.hourOf now = 13 -> sch.(Scheduler.tomorrowPrices) = [] ->
          sch'.(Scheduler.tomorrowPrices)
          = match Scheduler.FetchTomorrowPrices np with
            | Some prices => prices
            | None => []
            end)
      /\ (time.hourOf now <> 13 \/ sch.(Scheduler.tomorrowPrices) <> [] ->
          sch' = sch)).
Proof. apply checkPriceFetch_cases. Qed.

(** At 00:05 on 2024-01-16, with the six prices fetched for that day and
    no rollover yet, the day is rolled over. *)
Lemma checkPriceFetch_rollover_witness :
  let env := envAt (time.Add baseTime (time.Day + 5 * time.Minute)) 50 in
  let sch' := Scheduler.checkPriceFetch env providerToday schedulerEve in
  inRolloverWindow (now env schedulerEve.(Scheduler.svc))
  /\ utcDay schedulerEve.(Scheduler.lastMidnightSwap)
     <> utcDay (now env schedulerEve.(Scheduler.svc))
  /\ schedulerEve.(Scheduler.tomorrowPrices) <> []
  /\ sch'.(Scheduler.svc).(todayPrices) = schedulerEve.(Scheduler.tomorrowPrices)
  /\ sch'.(Scheduler.tomorrowPrices) = []
  /\ sch'.(Scheduler.lastMidnightSwap) = now env schedulerEve.(Scheduler.svc).
Proof.
  cbv zeta.
  set (env := envAt (time.Add baseTime (time.Day + 5 * time.Minute)) 50).
  assert (Hw : inRolloverWindow (now env schedulerEve.(Scheduler.svc)))
    by (vm_compute; reflexivity).
  assert (Hd : utcDay schedulerEve.(Scheduler.lastMidnightSwap)
               <> utcDay (now env schedulerEve.(Scheduler.svc)))
    by (vm_compute; discriminate).
  assert (Hne : schedulerEve.(Scheduler.tomorrowPrices) <> []) by discriminate.
  destruct (checkPriceFetch_rollover env providerToday schedulerEve) as (_ & Hroll & _).
  destruct (Hroll Hw Hd) as (H1 & H2 & H3 & _). destruct (H3 Hne) as (H4 & _).
  repeat split; assumption.
Defined.

Lemma checkPriceFetch_mark env np sch :
  inRolloverWindow (now env sch.(Scheduler.svc)) ->
  utcDay sch.(Scheduler.lastMidnightSwap) <> utcDay (now env sch.(Scheduler.svc)) ->
  (Scheduler.checkPriceFetch env np sch).(Scheduler.lastMidnightSwap)
  = now env sch.(Scheduler.svc)
  /\ (Scheduler.checkPriceFetch env np sch).(Scheduler.svc).(sloc)
     = sch.(Scheduler.svc).(sloc).
Proof.
  intros Hw Hd.
  destruct (checkPriceFetch_cases env np sch) as ((_ & Hloc & _) & Hroll & _).
  cbv zeta in Hroll, Hloc. destruct (Hroll Hw Hd) as (H1 & _). auto.
Qed.

(** X16. The rollover happens once. After a check that rolled the day over at
    [now1], a later check at [now2] leaves prices, plan and mark alone
    whenever [now2] falls on the same day in UTC; in particular whenever it
    falls in the rollover window of the same calendar day, in a location
    whose offset is a whole number of quarters of an hour. *)
Theorem rollover_at_most_once (env1 env2 : Env) (np1 np2 : Scheduler.Provider)
    (sch : Scheduler.Scheduler) :
  let now1 := now env1 sch.(Scheduler.svc) in
  let sch1 := Scheduler.checkPriceFetch env1 np1 sch in
  let now2 := now env2 sch1.(Scheduler.svc) in
  let sch2 := Scheduler.checkPriceFetch env2 np2 sch1 in
  inRolloverWindow now1 ->
  utcDay sch.(Scheduler.lastMidnightSwap) <> utcDay now1 ->
  utcDay now2 = utcDay now1
  \/ (inRolloverWindow now2 /\ time.civilDay now2 = time.civilDay now1
      /\ (time.zoneOffset sch.(Scheduler.svc).(sloc) * time.Second)
         mod (15 * time.Minute) = 0) ->
  sch2.(Scheduler.svc) = sch1.(Scheduler.svc)
  /\ sch2.(Scheduler.lastMidnightSwap) = now1.
Proof.
  cbv zeta. intros Hw Hd Hsame.
  destruct (checkPriceFetch_mark env1 np1 sch Hw Hd) as (Hmark & Hloc).
  set (sch1 := Scheduler.checkPriceFetch env1 np1 sch) in *.
  assert (Hday : utcDay (now env2 (Scheduler.svc sch1))
                 = utcDay (now env1 (Scheduler.svc sch))).
  { destruct Hsame as [H|(Hw2 & Hc & Hoff)]; [exact H|].
    apply same_window_same_utcDay; [| |exact Hc|exact Hw2|exact Hw].
    - unfold now, time.In. cbn [time.location]. exact Hloc.
    - unfold now, time.In. cbn [time.location]. now rewrite Hloc. }
  destruct (checkPriceFetch_cases env2 np2 sch1) as (_ & _ & Hstay).
  cbv zeta in Hstay.
  destruct Hstay as (H1 & H2 & _); [rewrite Hmark; intros (_ & Hne); congruence|].
  split; [exact H1 | congruence].
Qed.

Lemma rollover_at_most_once_witness :
  let env1 := envAt (time.Add baseTime (time.Day + 5 * time.Minute)) 50 in
  let env2 := envAt (time.Add baseTime (time.Day + 10 * time.Minute)) 50 in
  let sch1 := Scheduler.checkPriceFetch env1 providerToday schedulerEve in
  let sch2 := Scheduler.checkPriceFetch env2 providerToday sch1 in
  inRolloverWindow (now env1 schedulerEve.(Scheduler.svc))
  /\ inRolloverWindow (now env2 sch1.(Scheduler.svc))
  /\ sch1.(Scheduler.svc).(todayPrices) <> schedulerEve.(Scheduler.svc).(todayPrices)
  /\ sch2.(Scheduler.svc) = sch1.(Scheduler.svc).
Proof.
  cbv zeta.
  set (env1 := envAt (time.Add baseTime (time.Day + 5 * time.Minute)) 50).
  set (env2 := envAt (time.Add baseTime (time.Day + 10 * time.Minute)) 50).
  assert (Hw : inRolloverWindow (now env1 schedulerEve.(Scheduler.svc)))
    by (vm_compute; reflexivity).
  assert (Hd : utcDay schedulerEve.(Scheduler.lastMidnightSwap)
               <> utcDay (now env1 schedulerEve.(Scheduler.svc)))
    by (vm_compute; discriminate).
  assert (Hw2 : inRolloverWindow
                  (now env2 (Scheduler.checkPriceFetch env1 providerToday schedulerEve).(Scheduler.svc)))
    by (vm_compute; reflexivity).
  split; [exact Hw|]. split; [exact Hw2|]. split; [vm_compute; discriminate|].
  apply (rollover_at_most_once env1 env2 providerToday providerToday schedulerEve Hw Hd).
  right. split; [exact Hw2|]. split; vm_compute; reflexivity.
Defined.

(** ** Fetching today's prices *)

Lemma nthZ_In (l : list Price) (i : Z) : 0 <= i < len l -> List.In (nthZ l i) l.
Proof.
  intros Hi. unfold nthZ. destruct (Z.ltb_spec i 0); [lia|].
  apply nth_In. unfold len in Hi. lia.
Qed.

(** X17. When the provider answers, [fetchTodayPrices] keeps the whole day for
    price lookups and makes the plan on the slots that have not ended
    before the current time: every window of the plan starts with a slot
    of the answer that has not ended and ends no earlier than now. The
    engine is otherwise untouched. When the provider fails nothing
    changes. *)
Theorem fetched_plan_future_only (env : Env) (np : Scheduler.Provider)
    (sch : Scheduler.Scheduler) :
  let s := sch.(Scheduler.svc) in
  let sch' := fst (Scheduler.fetchTodayPrices env np sch) in
  let s' := sch'.(Scheduler.svc) in
  (Scheduler.FetchTodayPrices np = None -> sch' = sch)
  /\ (forall prices,
        Scheduler.FetchTodayPrices np = Some prices ->
        s'.(todayPrices) = prices
        /\ sameEngine s s'
        /\ sch'.(Scheduler.tomorrowPrices) = sch.(Scheduler.tomorrowPrices)
        /\ exists plan,
             s'.(currentPlan) = Some plan
             /\ forall w, List.In w (plan.(ChargeWindows) ++ plan.(DischargeWindows)) ->
                  (exists p, List.In p prices /\ w.(Start) = p.(PTime)
                             /\ time.unixNano (now env s)
                                <= time.unixNano p.(PTime) + 15 * time.Minute)
                  /\ time.unixNano (now env s) <= endsAt w).
Proof.
  cbv zeta. pose proof (fetchTodayPrices_spec env np sch) as Hf. split.
  - intros Hnone. rewrite Hnone in Hf. now rewrite Hf.
  - intros prices Hsome. rewrite Hsome in Hf. rewrite Hf.
    cbn [fst Scheduler.svc Scheduler.tomorrowPrices].
    split; [reflexivity|]. split; [apply sameEngine_withPrices|]. split; [reflexivity|].
    eexists. split; [reflexivity|].
    set (nowT := now env (Scheduler.svc sch)).
    set (future := List.filter (notEndedBefore nowT) prices).
    set (acfg := analyzerConfig (Scheduler.svc sch)).
    assert (Hfuture : forall p, List.In p (sortByTime future) ->
              List.In p prices
              /\ time.unixNano nowT <= time.unixNano p.(PTime) + 15 * time.Minute).
    { intros p Hp.
      assert (Hp' : List.In p future).
      { eapply Permutation_in; [apply sortByTime_perm | exact Hp]. }
      apply List.filter_In in Hp' as (Hin & Hne). split; [exact Hin|].
      unfold notEndedBefore in Hne. now apply Z.leb_le in Hne. }
    intros w Hw.
    destruct (plan_windows_of_cycles future acfg) as (Hcw & Hdw).
    cbv zeta in Hcw, Hdw. rewrite Hcw, Hdw in Hw.
    pose proof (plan_cycles_offeredCycle future acfg) as Hall.
    rewrite Forall_forall in Hall.
    pose proof (chargeWindowSizeOf_pos acfg) as Pc.
    pose proof (dischargeWindowSizeOf_pos acfg) as Pd.
    apply in_app_or in Hw as [Hw|Hw]; apply in_map_iff in Hw as (c & <- & Hc);
      destruct (Hall c (proj2 (list_elem_of_In _ _) Hc))
        as (k & ds & Hk & ((C1 & C2 & _) & _) & ->);
      unfold endsAt; cbn [pairCycle ChargeWindow DischargeWindow Start End_ time.Add
                          time.unixNano].
    + split.
      * exists (nthZ (sortByTime future) k).
        destruct (Hfuture (nthZ (sortByTime future) k)) as (H1 & H2);
          [apply nthZ_In; lia|]. auto.
      * destruct (Hfuture (nthZ (sortByTime future) (k + chargeWindowSizeOf acfg - 1)))
          as (H1 & H2); [apply nthZ_In; lia|]. exact H2.
    + split.
      * exists (nthZ (sortByTime future) ds).
        destruct (Hfuture (nthZ (sortByTime future) ds)) as (H1 & H2);
          [apply nthZ_In; lia|]. auto.
      * destruct (Hfuture (nthZ (sortByTime future) (ds + dischargeWindowSizeOf acfg - 1)))
          as (H1 & H2); [apply nthZ_In; lia|]. exact H2.
Qed.

(** At 00:20 the slot of 00:00 has ended: the plan of the small battery is
    made on the three slots left and charges at 00:15. *)
Lemma fetched_plan_future_only_witness :
  let env := envAt (time.Add baseTime (20 * time.Minute)) 50 in
  let sch' := fst (Scheduler.fetchTodayPrices env providerToday schedulerEve) in
  Scheduler.FetchTodayPrices providerToday = Some prices4
  /\ sch'.(Scheduler.svc).(todayPrices) = prices4
  /\ exists plan,
       sch'.(Scheduler.svc).(currentPlan) = Some plan
       /\ map (fun w => (startsAt w - time.unixNano baseTime) / time.Minute)
              plan.(ChargeWindows) = [15].
Proof.
  cbv zeta.
  destruct (proj2 (fetched_plan_future_only
                     (envAt (time.Add baseTime (20 * time.Minute)) 50)
                     providerToday schedulerEve) prices4 eq_refl)
    as (H1 & _ & _ & plan & Hplan & _).
  split; [reflexivity|]. split; [exact H1|].
  exists plan. split; [exact Hplan|].
  vm_compute in Hplan. injection Hplan as <-. vm_compute. reflexivity.
Defined.

(** ** The ledger *)

Import Ledger.

Lemma fold_left_Add_sumQ (xs : list Q) (a : Q) :
  (fold_left decimal.Add xs a == a + sumQ xs)%Q.
Proof.
  revert a. induction xs as [|x xs IH]; intros a; simpl.
  - ring.
  - rewrite IH. unfold decimal.Add. ring.
Qed.

Lemma decimalSum_sumQ (xs : list Q) : (decimalSum xs == sumQ xs)%Q.
Proof. unfold decimalSum. rewrite fold_left_Add_sumQ. unfold decimal.Zero. ring. Qed.

Lemma sumQ_app (xs ys : list Q) : (sumQ (xs ++ ys) == sumQ xs + sumQ ys)%Q.
Proof. induction xs as [|x xs IH]; simpl; [ring|]. rewrite IH. ring. Qed.

Lemma sumQ_perm (xs ys : list Q) : xs ≡ₚ ys -> (sumQ xs == sumQ ys)%Q.
Proof.
  induction 1 as [|x xs ys _ IH|x y xs|xs ys zs _ IH1 _ IH2]; simpl.
  - reflexivity.
  - now rewrite IH.
  - ring.
  - now rewrite IH1.
Qed.

(** The accumulators of a day are the sums over its charge and its
    discharge trades. *)
Lemma accLoop_spec (ts : list Trade) (a : DayAcc) :
  let r := fold_left accStep ts a in
  r.(chargedKWh)
  = fold_left decimal.Add (map EnergyKWh (List.filter isCharge ts)) a.(chargedKWh)
  /\ r.(chargeCost)
     = fold_left decimal.Add (map tradeValue (List.filter isCharge ts)) a.(chargeCost)
  /\ r.(dischargedKWh)
     = fold_left decimal.Add (map EnergyKWh (List.filter isDischarge ts)) a.(dischargedKWh)
  /\ r.(dischargeRevenue)
     = fold_left decimal.Add (map tradeValue (List.filter isDischarge ts))
                 a.(dischargeRevenue)
  /\ r.(chargeCycles) = a.(chargeCycles) + len (List.filter isCharge ts)
  /\ r.(dischargeCycles) = a.(dischargeCycles) + len (List.filter isDischarge ts).
Proof.
  revert a. induction ts as [|t ts IH]; intros a.
  - simpl. change (len (@nil Trade)) with 0. repeat split; lia.
  - cbn [fold_left]. specialize (IH (accStep a t)). cbv zeta in IH.
    destruct IH as (H1 & H2 & H3 & H4 & H5 & H6).
    cbv zeta. rewrite H1, H2, H3, H4, H5, H6.
    unfold accStep, isCharge, isDischarge, tradeValue. cbn [List.filter].
    destruct (Action t);
      cbn [chargedKWh chargeCost dischargedKWh dischargeRevenue chargeCycles
           dischargeCycles map fold_left];
      rewrite ?len_cons; repeat split; lia.
Qed.

(** What [summarize] reports for a list of trades. *)
Lemma summarize_spec (k : Z) (ts : list Trade) :
  let cost := decimalSum (map tradeValue (List.filter isCharge ts)) in
  let charged := decimalSum (map EnergyKWh (List.filter isCharge ts)) in
  let revenue := decimalSum (map tradeValue (List.filter isDischarge ts)) in
  let discharged := decimalSum (map EnergyKWh (List.filter isDischarge ts)) in
  let d := summarize k ts in
  d.(Date) = k /\ d.(Trades) = ts
  /\ d.(ChargedKWh) = charged /\ d.(DischargedKWh) = discharged
  /\ d.(ChargeCycles) = len (List.filter isCharge ts)
  /\ d.(DischargeCycles) = len (List.filter isDischarge ts)
  /\ d.(AvgChargePrice)
     = (if decimal.IsZero charged then decimal.Zero else decimal.Div cost charged)
  /\ d.(AvgDischargePrice)
     = (if decimal.IsZero discharged then decimal.Zero
        else decimal.Div revenue discharged)
  /\ d.(PnLEUR) = decimal.Sub revenue cost.
Proof.
  cbv zeta. unfold summarize.
  destruct (accLoop_spec ts accInit) as (H1 & H2 & H3 & H4 & H5 & H6).
  cbv zeta in H1, H2, H3, H4, H5, H6.
  cbn [Date Trades ChargedKWh DischargedKWh ChargeCycles DischargeCycles
       AvgChargePrice AvgDischargePrice PnLEUR].
  rewrite H1, H2, H3, H4, H5, H6. unfold decimalSum. cbn [accInit chargedKWh chargeCost
    dischargedKWh dischargeRevenue chargeCycles dischargeCycles].
  repeat split; try lia.
  - destruct (decimal.IsZero _); reflexivity.
  - destruct (decimal.IsZero _); reflexivity.
Qed.

(** The profit of a day is the sum of the signed values of its trades. *)
Lemma summarize_PnL (k : Z) (ts : list Trade) :
  ((summarize k ts).(PnLEUR) == sumQ (map signedValue ts))%Q.
Proof.
  destruct (summarize_spec k ts) as (_ & _ & _ & _ & _ & _ & _ & _ & ->).
  unfold decimal.Sub. rewrite !decimalSum_sumQ.
  induction ts as [|t ts IH]; simpl; [ring|].
  unfold isCharge, isDischarge, signedValue in *.
  destruct (Action t); simpl; rewrite <- IH; ring.
Qed.

Lemma totalsLoop_spec (ts : list Trade) (rev cost : Decimal) :
  fold_left totalsStep ts (rev, cost)
  = (fold_left decimal.Add (map tradeValue (List.filter isDischarge ts)) rev,
     fold_left decimal.Add (map tradeValue (List.filter isCharge ts)) cost).
Proof.
  revert rev cost. induction ts as [|t ts IH]; intros rev cost; [reflexivity|].
  cbn [fold_left]. unfold totalsStep at 2, isCharge, isDischarge, tradeValue.
  cbn [List.filter].
  destruct (Action t); rewrite IH; reflexivity.
Qed.

Lemma GetTotalPnL_spec (r : Recorder) :
  GetTotalPnL r
  = decimal.Sub (decimalSum (map tradeValue (List.filter isDischarge r.(trades))))
                (decimalSum (map tradeValue (List.filter isCharge r.(trades)))).
Proof. unfold GetTotalPnL. rewrite totalsLoop_spec. reflexivity. Qed.

Lemma GetTotalPnL_signed (r : Recorder) :
  (GetTotalPnL r == sumQ (map signedValue r.(trades)))%Q.
Proof.
  rewrite GetTotalPnL_spec. unfold decimal.Sub. rewrite !decimalSum_sumQ.
  induction (trades r) as [|t ts IH]; simpl; [ring|].
  unfold isCharge, isDischarge, signedValue in *.
  destruct (Action t); simpl; rewrite <- IH; ring.
Qed.

(** *** Grouping by day *)

Lemma groupByDay_snoc (ts : list Trade) (t : Trade) :
  groupByDay (ts ++ [t])
  = <[dayKey t := default [] (groupByDay ts !! dayKey t) ++ [t]]> (groupByDay ts).
Proof. unfold groupByDay. rewrite fold_left_app. reflexivity. Qed.

Lemma tradesOn_snoc (k : Z) (ts : list Trade) (t : Trade) :
  tradesOn k (ts ++ [t])
  = tradesOn k ts ++ (if decide (dayKey t = k) then [t] else []).
Proof.
  unfold tradesOn. rewrite filter_app. reflexivity.
Qed.

(** The map holds, under every day, the trades of that day in ledger order,
    and holds nothing under a day without trades. *)
Lemma groupByDay_lookup (ts : list Trade) (k : Z) :
  groupByDay ts !! k
  = match tradesOn k ts with [] => None | l => Some l end.
Proof.
  induction ts as [|t ts IH] using rev_ind; [reflexivity|].
  rewrite groupByDay_snoc, tradesOn_snoc.
  destruct (decide (dayKey t = k)) as [<-|Hne].
  - rewrite lookup_insert_eq, IH.
    destruct (tradesOn (dayKey t) ts); reflexivity.
  - rewrite lookup_insert_ne by exact Hne. rewrite IH, app_nil_r. reflexivity.
Qed.

Lemma groupByDay_elem (ts : list Trade) (k : Z) (l : list Trade) :
  (k, l) ∈ map_to_list (groupByDay ts) <-> l = tradesOn k ts /\ l <> [].
Proof.
  rewrite elem_of_map_to_list, groupByDay_lookup.
  destruct (tradesOn k ts) as [|t l'].
  - split; [discriminate|]. intros [-> H]. congruence.
  - split; [intros [= <-]; split; [reflexivity | discriminate]|].
    intros [-> _]. reflexivity.
Qed.

Lemma concat_snoc_perm {A} (l : list A) (x : A) (ls : list (list A)) :
  concat ((l ++ [x]) :: ls) ≡ₚ concat (l :: ls) ++ [x].
Proof.
  simpl. rewrite <- !app_assoc. apply Permutation_app_head, Permutation_app_comm.
Qed.

(** Every trade sits under exactly one day. *)
Lemma groupByDay_perm (ts : list Trade) :
  concat (map snd (map_to_list (groupByDay ts))) ≡ₚ ts.
Proof.
  induction ts as [|t ts IH] using rev_ind.
  - unfold groupByDay. simpl. now rewrite map_to_list_empty.
  - rewrite groupByDay_snoc. set (m := groupByDay ts) in *. set (k := dayKey t).
    destruct (m !! k) as [l|] eqn:Hl; cbn [default].
    + rewrite <- insert_delete_eq.
      rewrite map_to_list_insert by apply lookup_delete_eq.
      cbn [map snd]. rewrite concat_snoc_perm.
      rewrite <- IH. apply Permutation_app_tail.
      rewrite <- (map_to_list_delete m k l Hl). reflexivity.
    + rewrite map_to_list_insert by exact Hl.
      cbn [map snd concat app]. rewrite IH. apply Permutation_cons_append.
Qed.

(** *** Sorting the days *)

Lemma swapIfLater_perm (i j : nat) (days : list DailySummary) :
  swapIfLater i j days ≡ₚ days.
Proof.
  unfold swapIfLater.
  destruct (days !! i) as [di|] eqn:Hi; [|reflexivity].
  destruct (days !! j) as [dj|] eqn:Hj; [|reflexivity].
  destruct (Date di <? Date dj); [|reflexivity].
  now apply Permutation_insert_swap.
Qed.

Lemma fold_left_perm {A B} (f : list A -> B -> list A) (xs : list B) (l : list A) :
  (forall l' x, f l' x ≡ₚ l') -> fold_left f xs l ≡ₚ l.
Proof.
  intros Hf. revert l. induction xs as [|x xs IH]; intros l; [reflexivity|].
  simpl. rewrite IH. apply Hf.
Qed.

Lemma sortDays_perm (days : list DailySummary) : sortDays days ≡ₚ days.
Proof.
  unfold sortDays. apply fold_left_perm. intros l i.
  apply fold_left_perm. intros l' j. apply swapIfLater_perm.
Qed.

(** The days of the history are the summaries of the days that have
    trades. *)
Lemma GetHistory_days (r : Recorder) (d : DailySummary) :
  List.In d (GetHistory r).(Days) <->
  exists k, tradesOn k r.(trades) <> [] /\ d = summarize k (tradesOn k r.(trades)).
Proof.
  unfold GetHistory.
  destruct (Z.eqb_spec (len (trades r)) 0) as [H0|Hne].
  - assert (Hnil : trades r = []).
    { destruct (trades r) as [|t l]; [reflexivity|].
      rewrite len_cons in H0. pose proof (len_nonneg l). lia. }
    rewrite Hnil. cbn [Days]. split; [intros []|]. intros (k & Hk & _).
    now destruct Hk.
  - cbn [Days]. rewrite <- list_elem_of_In, sortDays_perm, list_elem_of_In, in_map_iff.
    split.
    + intros ([k l] & <- & Hin). apply list_elem_of_In, groupByDay_elem in Hin.
      destruct Hin as [-> Hl]. exists k. split; [exact Hl | reflexivity].
    + intros (k & Hk & ->). exists (k, tradesOn k (trades r)). split; [reflexivity|].
      apply list_elem_of_In, groupByDay_elem. split; [reflexivity | exact Hk].
Qed.

(** The sum of the per-day profits is the sum of the signed values of all
    trades. *)
Lemma days_PnL_sum (ts : list Trade) :
  (sumQ (map PnLEUR (map (fun kv => summarize kv.1 kv.2) (map_to_list (groupByDay ts))))
   == sumQ (map signedValue ts))%Q.
Proof.
  rewrite <- (sumQ_perm _ _ (Permutation_map signedValue (groupByDay_perm ts))).
  induction (map_to_list (groupByDay ts)) as [|[k l] kvs IH]; [reflexivity|].
  cbn [map concat fst snd sumQ fold_right].
  rewrite map_app, sumQ_app, <- IH, summarize_PnL. reflexivity.
Qed.

(** *** Decimal division *)

Lemma roundHalfAway_near (x : Q) :
  (Qabs (inject_Z (decimal.roundHalfAway x) - x) <= 1 # 2)%Q.
Proof.
  destruct x as [n d]. unfold decimal.roundHalfAway. cbn [Qnum Qden].
  set (q := (2 * Z.abs n + Z.pos d) / (2 * Z.pos d)).
  assert (Hd : 0 < 2 * Z.pos d) by lia.
  pose proof (Z.mul_div_le (2 * Z.abs n + Z.pos d) _ Hd) as H1.
  pose proof (Z.mul_succ_div_gt (2 * Z.abs n + Z.pos d) _ Hd) as H2.
  fold q in H1, H2.
  apply Qabs_Qle_condition. unfold Qle, Qminus, Qplus, Qopp, inject_Z. cbn [Qnum Qden].
  destruct (Z.sgn_spec n) as [[Hn ->]|[[Hn ->]|[Hn ->]]]; split; nia.
Qed.

Lemma pow10_pos (k : Z) : (0 < decimal.pow10 k)%Q.
Proof.
  unfold decimal.pow10. destruct (Z.leb_spec 0 k).
  - unfold Qlt, inject_Z. cbn [Qnum Qden]. pose proof (Z.pow_pos_nonneg 10 k). lia.
  - reflexivity.
Qed.

(** [Div] is the exact quotient rounded to the sixteenth decimal. *)
Lemma Div_near (a b : Decimal) :
  (Qabs (decimal.Div a b - a / b) <= 1 # 20000000000000000)%Q.
Proof.
  unfold decimal.Div, decimal.DivRound. rewrite Qred_correct.
  set (p := decimal.pow10 decimal.DivisionPrecision).
  assert (Hp : (0 < p)%Q) by apply pow10_pos.
  assert (Hp' : (p == 10000000000000000 # 1)%Q) by reflexivity.
  set (c := (a / b)%Q).
  set (r := inject_Z (decimal.roundHalfAway (c * p))).
  assert (Hr := roundHalfAway_near (c * p)). fold r in Hr.
  assert (Hnz : ~ (p == 0)%Q) by (intros E; rewrite E in Hp; discriminate).
  assert (Heq : (r / p - c == (r - c * p) / p)%Q) by (field; exact Hnz).
  rewrite Heq. unfold Qdiv. rewrite Qabs_Qmult.
  rewrite (Qabs_pos (/ p)) by (apply Qlt_le_weak, Qinv_lt_0_compat, Hp).
  setoid_replace (1 # 20000000000000000)%Q with ((1 # 2) * / p)%Q using relation Qeq
    by (rewrite Hp'; reflexivity).
  apply Qmult_le_compat_r; [exact Hr|].
  apply Qlt_le_weak, Qinv_lt_0_compat, Hp.
Qed.

(** C8. For every list of recorded trades, every day of [GetHistory]
    summarizes the trades stamped with that day: its charged and discharged
    energy are the sums over its charge and discharge trades, its average
    charge (discharge) price is the decimal quotient
    [sum(price * energy) / sum(energy)] over them (zero when no energy
    moved), a quotient that is within half a unit of the sixteenth decimal of
    the exact one, and its profit is discharge revenue minus charge cost.
    Every day with a trade has its summary. [GetTotalPnL], computed from the
    per-trade figures, equals the sum of the per-day profits exactly, and so
    does the [TotalPnL] of the history. *)
Theorem ledger_aggregates (r : Recorder) :
  (forall d, List.In d (GetHistory r).(Days) ->
     let ts := tradesOn d.(Date) r.(trades) in
     let cost := decimalSum (map tradeValue (List.filter isCharge ts)) in
     let charged := decimalSum (map EnergyKWh (List.filter isCharge ts)) in
     let revenue := decimalSum (map tradeValue (List.filter isDischarge ts)) in
     let discharged := decimalSum (map EnergyKWh (List.filter isDischarge ts)) in
     ts <> [] /\ d.(Trades) = ts
     /\ d.(ChargedKWh) = charged /\ d.(DischargedKWh) = discharged
     /\ d.(AvgChargePrice)
        = (if decimal.IsZero charged then decimal.Zero else decimal.Div cost charged)
     /\ d.(AvgDischargePrice)
        = (if decimal.IsZero discharged then decimal.Zero
           else decimal.Div revenue discharged)
     /\ d.(PnLEUR) = decimal.Sub revenue cost)
  /\ (forall a b, (Qabs (decimal.Div a b - a / b) <= 1 # 20000000000000000)%Q)
  /\ (forall t, List.In t r.(trades) ->
        exists d, List.In d (GetHistory r).(Days) /\ d.(Date) = dayKey t
                  /\ List.In t d.(Trades))
  /\ (GetTotalPnL r == decimalSum (map PnLEUR (GetHistory r).(Days)))%Q
  /\ ((GetHistory r).(TotalPnL) == GetTotalPnL r)%Q
  /\ GetTotalPnL r
     = decimal.Sub (decimalSum (map tradeValue (List.filter isDischarge r.(trades))))
                   (decimalSum (map tradeValue (List.filter isCharge r.(trades)))).
Proof.
  split; [|split; [|split; [|split; [|split]]]].
  - intros d Hd. apply GetHistory_days in Hd as (k & Hk & ->).
    destruct (summarize_spec k (tradesOn k (trades r)))
      as (H1 & H2 & H3 & H4 & _ & _ & H7 & H8 & H9).
    cbv zeta. rewrite H1. repeat split; assumption.
  - apply Div_near.
  - intros t Ht.
    assert (Hin : t ∈ tradesOn (dayKey t) (trades r)).
    { unfold tradesOn. apply list_elem_of_filter. split; [reflexivity|].
      now apply list_elem_of_In. }
    exists (summarize (dayKey t) (tradesOn (dayKey t) (trades r))).
    split; [|split; [reflexivity | now apply list_elem_of_In]].
    apply GetHistory_days. exists (dayKey t). split; [|reflexivity].
    intros E. rewrite E in Hin. inversion Hin.
  - rewrite GetTotalPnL_signed, decimalSum_sumQ.
    unfold GetHistory. destruct (Z.eqb_spec (len (trades r)) 0) as [H0|Hne].
    + destruct (trades r) as [|t l]; [reflexivity|].
      rewrite len_cons in H0. pose proof (len_nonneg l). lia.
    + cbn [Days].
      rewrite (sumQ_perm _ _ (Permutation_map PnLEUR (sortDays_perm _))).
      symmetry. apply days_PnL_sum.
  - rewrite GetTotalPnL_signed.
    unfold GetHistory. destruct (Z.eqb_spec (len (trades r)) 0) as [H0|Hne].
    + destruct (trades r) as [|t l]; [reflexivity|].
      rewrite len_cons in H0. pose proof (len_nonneg l). lia.
    + cbn [TotalPnL]. rewrite <- days_PnL_sum, <- decimalSum_sumQ.
      unfold decimalSum.
      generalize decimal.Zero.
      induction (map _ (map_to_list (groupByDay (trades r)))) as [|d ds IH];
        intros z; [reflexivity|]. simpl. apply IH.
  - apply GetTotalPnL_spec.
Qed.

Lemma ledger_aggregates_witness :
  exists d,
    List.In d (GetHistory recorderCET).(Days)
    /\ d.(Trades) = tradesOn d.(Date) recorderCET.(trades)
    /\ d.(PnLEUR)
       = decimal.Sub
           (decimalSum (map tradeValue
              (List.filter isDischarge (tradesOn d.(Date) recorderCET.(trades)))))
           (decimalSum (map tradeValue
              (List.filter isCharge (tradesOn d.(Date) recorderCET.(trades))))).
Proof.
  exists (summarize 19738 [tradeB]).
  assert (Hin : List.In (summarize 19738 [tradeB]) (GetHistory recorderCET).(Days))
    by (vm_compute; left; reflexivity).
  destruct (proj1 (ledger_aggregates recorderCET) _ Hin)
    as (_ & H2 & _ & _ & _ & _ & H7).
  split; [exact Hin|]. split; [exact H2 | exact H7].
Defined.

(** C9 at a failing input. The recorder is configured for UTC+1, where
    both [tradeA] and [tradeB] fall on 2024-01-16 (day 19738). [GetHistory]
    keys each trade by the date its timestamp prints in the zone it carries:
    [tradeA], which carries UTC, goes under 2024-01-15, so the two trades end
    up in different summaries, and the summary [GetTodaySummary] returns for
    2024-01-16 in the configured zone misses [tradeA]. *)
Theorem history_keys_by_carried_zone :
  time.civilDay (time.In tradeA.(Timestamp) recorderCET.(loc)) = 19738
  /\ time.civilDay (time.In tradeB.(Timestamp) recorderCET.(loc)) = 19738
  /\ map (fun d => (d.(Date), d.(Trades))) (GetHistory recorderCET).(Days)
     = [(19738, [tradeB]); (19737, [tradeA])]
  /\ time.civilDay (time.In morningCET recorderCET.(loc)) = 19738
  /\ (GetTodaySummary recorderCET morningCET).(Trades) = [tradeB].
Proof. repeat split; vm_compute; reflexivity. Qed.

(** * Further properties of the ledger *)

(** ** The most recent charge trade *)

Lemma find_rev_last {A} (f : A -> bool) (l : list A) :
  match find f (rev l) with
  | Some x => exists l1 l2, l = l1 ++ x :: l2 /\ f x = true
                            /\ forall y, List.In y l2 -> f y = false
  | None => forall y, List.In y l -> f y = false
  end.
Proof.
  induction l as [|x l IH] using rev_ind; [intros y []|].
  rewrite rev_app_distr. cbn [rev app find].
  destruct (f x) eqn:Ex.
  - exists l, []. split; [reflexivity|]. split; [exact Ex|]. intros y [].
  - destruct (find f (rev l)) as [z|].
    + destruct IH as (l1 & l2 & -> & Hz & Hl2).
      exists l1, (l2 ++ [x]). split; [now rewrite <- app_assoc|]. split; [exact Hz|].
      intros y Hy. apply in_app_or in Hy as [Hy|[<-|[]]]; auto.
    + intros y Hy. apply in_app_or in Hy as [Hy|[<-|[]]]; auto.
Qed.

(** X18. [GetLastChargeTrade] returns the charge trade after which the ledger
    holds no charge trade, and nothing exactly when the ledger holds no
    charge trade. Recording a charge trade makes it the last charge trade;
    recording any other trade keeps the last charge trade. *)
Theorem last_charge_trade (r : Recorder) :
  match GetLastChargeTrade r with
  | Some t => exists l1 l2, r.(trades) = l1 ++ t :: l2 /\ isCharge t = true
                            /\ forall u, List.In u l2 -> isCharge u = false
  | None => forall u, List.In u r.(trades) -> isCharge u = false
  end
  /\ forall t, GetLastChargeTrade (RecordTrade r t)
               = if isCharge t then Some t else GetLastChargeTrade r.
Proof.
  split; [apply (find_rev_last isCharge)|].
  intros t. unfold GetLastChargeTrade, RecordTrade. cbn [trades].
  rewrite rev_app_distr. cbn [rev app find].
  unfold isCharge. destruct (Action t); reflexivity.
Qed.

Lemma Start_spec (env : Env) (np : Scheduler.Provider) (sch : Scheduler.Scheduler) :
  let s := sch.(Scheduler.svc) in
  let sch' := Scheduler.Start env np sch in
  let s' := sch'.(Scheduler.svc) in
  s'.(recorder) = s.(recorder) /\ s'.(state) = s.(state) /\ s'.(cfg) = s.(cfg)
  /\ s'.(lastChargePrice)
     = match Ledger.GetLastChargeTrade s.(recorder) with
       | Some t => t.(Ledger.PriceEUR)
       | None => s.(lastChargePrice)
       end
  /\ s'.(todayPrices)
     = match Scheduler.FetchTodayPrices np with
       | Some prices => prices
       | None => s.(todayPrices)
       end
  /\ sch'.(Scheduler.tomorrowPrices)
     = match Scheduler.FetchTomorrowPrices np with
       | Some prices => prices
       | None => sch.(Scheduler.tomorrowPrices)
       end.
Proof.
  cbv zeta. unfold Scheduler.Start, Scheduler.fetchTodayPrices,
    Scheduler.fetchTomorrowPrices, Scheduler.restoreLastChargePrice.
  destruct (Ledger.GetLastChargeTrade (recorder (Scheduler.svc sch))) as [t|];
    destruct (Scheduler.FetchTodayPrices np) as [p1|];
    destruct (Scheduler.FetchTomorrowPrices np) as [p2|];
    cbn; repeat split.
Qed.

(** X19. The cost basis survives a restart. When a tick ends a charge session
    the trade it records is the last charge trade of the ledger and its
    price is the cost basis the engine holds: an engine started on that
    ledger holds the same cost basis after [Start]. *)
Theorem restart_recovers_cost_basis (env : Env) (s s' : Service) (cmds : list Command) :
  tick env s = Some (s', cmds) ->
  s.(state) = StateCharging ->
  trades s'.(recorder) <> trades s.(recorder) ->
  (exists t,
     GetLastChargeTrade s'.(recorder) = Some t
     /\ trades s'.(recorder) = trades s.(recorder) ++ [t]
     /\ t.(PriceEUR) = s'.(lastChargePrice))
  /\ forall env' np sch,
       sch.(Scheduler.svc).(recorder) = s'.(recorder) ->
       (Scheduler.Start env' np sch).(Scheduler.svc).(lastChargePrice)
       = s'.(lastChargePrice).
Proof.
  intros Ht Hs Hne.
  destruct (tick_ledger_cases _ _ _ _ Ht)
    as (_ & _ & [(Hsame & _)|(trade & bat & Htr & _ & _ & _ & _ & _ & _ & Hact)]);
    [congruence|].
  destruct Hact as [(_ & Ha & _ & Hl)|(Hd & _)]; [|congruence].
  assert (Hlast : GetLastChargeTrade s'.(recorder) = Some trade).
  { unfold GetLastChargeTrade. rewrite Htr, rev_app_distr. cbn [rev app find].
    now rewrite Ha. }
  split.
  - exists trade. split; [exact Hlast|]. split; [exact Htr | now rewrite Hl].
  - intros env' np sch Hrec.
    destruct (Start_spec env' np sch) as (_ & _ & _ & H4 & _). cbv zeta in H4.
    rewrite H4, Hrec, Hlast. now rewrite Hl.
Qed.

Lemma restart_recovers_cost_basis_witness :
  let env := envAt (time.Add baseTime (2 * slot)) 80 in
  exists s' cmds t,
    tick env risingCharging = Some (s', cmds)
    /\ risingCharging.(state) = StateCharging
    /\ GetLastChargeTrade s'.(recorder) = Some t
    /\ t.(PriceEUR) = (3 # 50)%Q
    /\ s'.(lastChargePrice) = (3 # 50)%Q.
Proof.
  cbv zeta.
  destruct (tick (envAt (time.Add baseTime (2 * slot)) 80) risingCharging)
    as [[s' cmds]|] eqn:E; [|vm_compute in E; discriminate].
  assert (Hs : risingCharging.(state) = StateCharging) by (vm_compute; reflexivity).
  assert (Hne : trades s'.(recorder) <> trades risingCharging.(recorder)).
  { vm_compute in E. injection E as <- _. vm_compute. discriminate. }
  assert (Hl : s'.(lastChargePrice) = (3 # 50)%Q).
  { vm_compute in E. injection E as <- _. reflexivity. }
  destruct (restart_recovers_cost_basis _ _ _ _ E Hs Hne) as ((t & Hg & _ & Hp) & _).
  exists s', cmds, t. split; [first [exact E | reflexivity]|]. split; [exact Hs|].
  split; [exact Hg|]. split; [congruence | exact Hl].
Defined.

(** ** Starting up *)



(** X20. [Start], once the trades are loaded and the battery connects, takes
    the price of the most recent charge trade of the ledger as cost basis
    and keeps the one it has when the ledger holds no charge trade; it
    takes today's prices and the prices for tomorrow from the provider
    where it answers and keeps what it has where it fails; it leaves the
    ledger, the state and the configuration alone. *)
Theorem start_restores_cost_basis (env : Env) (np : Scheduler.Provider)
    (sch : Scheduler.Scheduler) :
  let s := sch.(Scheduler.svc) in
  let sch' := Scheduler.Start env np sch in
  let s' := sch'.(Scheduler.svc) in
  s'.(recorder) = s.(recorder) /\ s'.(state) = s.(state) /\ s'.(cfg) = s.(cfg)
  /\ ((exists l1 t l2,
         Ledger.trades s.(recorder) = l1 ++ t :: l2 /\ isCharge t = true
         /\ (forall u, List.In u l2 -> isCharge u = false)
         /\ s'.(lastChargePrice) = t.(Ledger.PriceEUR))
      \/ ((forall u, List.In u (Ledger.trades s.(recorder)) -> isCharge u = false)
          /\ s'.(lastChargePrice) = s.(lastChargePrice)))
  /\ s'.(todayPrices)
     = match Scheduler.FetchTodayPrices np with
       | Some prices => prices
       | None => s.(todayPrices)
       end
  /\ sch'.(Scheduler.tomorrowPrices)
     = match Scheduler.FetchTomorrowPrices np with
       | Some prices => prices
       | None => sch.(Scheduler.tomorrowPrices)
       end.
Proof.
  cbv zeta. destruct (Start_spec env np sch) as (H1 & H2 & H3 & H4 & H5 & H6).
  cbv zeta in H1, H2, H3, H4, H5, H6.
  split; [exact H1|]. split; [exact H2|]. split; [exact H3|].
  split; [|split; [exact H5 | exact H6]].
  unfold Ledger.GetLastChargeTrade in H4.
  pose proof (find_rev_last isCharge (Ledger.trades (recorder (Scheduler.svc sch)))) as Hfind.
  change (fun t : Ledger.Trade =>
            match Ledger.Action t with Ledger.ActionCharge => true | _ => false end)
    with isCharge in H4.
  destruct (find isCharge (rev (Ledger.trades (recorder (Scheduler.svc sch))))) as [t|].
  - left. destruct Hfind as (l1 & l2 & Hl & Ht & Hl2). exists l1, t, l2. auto.
  - right. auto.
Qed.

(** ** The summary of today *)

Lemma GetTodaySummary_summarize (r : Recorder) (now : Time) :
  let today := time.civilDay (time.In now r.(loc)) in
  GetTodaySummary r now = summarize today (tradesOn today r.(trades)).
Proof.
  cbv zeta. unfold GetTodaySummary.
  set (today := time.civilDay (time.In now (loc r))).
  destruct (find _ _) as [d|] eqn:Ef.
  - apply find_some in Ef as (Hin & Hd). apply Z.eqb_eq in Hd.
    apply GetHistory_days in Hin as (k & Hk & ->).
    unfold summarize in Hd. cbn [Date] in Hd. now subst k.
  - destruct (tradesOn today (trades r)) as [|t l] eqn:Et; [reflexivity|].
    exfalso.
    assert (Hin : List.In (summarize today (tradesOn today (trades r)))
                          (GetHistory r).(Days)).
    { apply GetHistory_days. exists today. split; [|reflexivity]. now rewrite Et. }
    pose proof (find_none _ _ Ef _ Hin) as Hno.
    unfold summarize in Hno. cbn [Date] in Hno. apply Z.eqb_neq in Hno. lia.
Qed.

(** X21. [GetTodaySummary] is dated today, the calendar day of the current time
    in the recorder's location, and summarises the trades whose timestamp
    prints that date (in the zone the timestamp carries): their energies,
    their numbers and the profit, the sum of what the discharges earned
    less what the charges cost. Without such trades it is the empty
    summary of today. *)
Theorem today_summary (r : Recorder) (now : Time) :
  let today := time.civilDay (time.In now r.(loc)) in
  let ts := tradesOn today r.(trades) in
  let d := GetTodaySummary r now in
  d.(Date) = today /\ d.(Trades) = ts
  /\ d.(ChargedKWh) = decimalSum (map EnergyKWh (List.filter isCharge ts))
  /\ d.(DischargedKWh) = decimalSum (map EnergyKWh (List.filter isDischarge ts))
  /\ d.(ChargeCycles) = len (List.filter isCharge ts)
  /\ d.(DischargeCycles) = len (List.filter isDischarge ts)
  /\ (d.(PnLEUR) == sumQ (map signedValue ts))%Q.
Proof.
  cbv zeta. rewrite GetTodaySummary_summarize.
  destruct (summarize_spec (time.civilDay (time.In now (loc r)))
              (tradesOn (time.civilDay (time.In now (loc r))) (trades r)))
    as (H1 & H2 & H3 & H4 & H5 & H6 & _).
  cbv zeta in H1, H2, H3, H4, H5, H6.
  repeat split; try assumption. apply summarize_PnL.
Qed.

(** ** Counts and extreme prices of a day *)

Lemma GreaterThan_false (a b : Decimal) : decimal.GreaterThan a b = false -> (a <= b)%Q.
Proof.
  intros H. destruct (Qlt_le_dec b a) as [Hlt|Hle]; [|exact Hle].
  apply GreaterThan_spec in Hlt. congruence.
Qed.

Lemma LessThan_false (a b : Decimal) : decimal.LessThan a b = false -> (b <= a)%Q.
Proof.
  intros H. destruct (Qlt_le_dec a b) as [Hlt|Hle]; [|exact Hle].
  apply LessThan_spec in Hlt. congruence.
Qed.

Lemma accLoop_max (ts : list Trade) :
  let a := fold_left accStep ts accInit in
  (0 <= a.(maxDischargePrice))%Q
  /\ (forall t, List.In t (List.filter isDischarge ts) ->
        (t.(PriceEUR) <= a.(maxDischargePrice))%Q)
  /\ (a.(maxDischargePrice) = decimal.Zero
      \/ exists t, List.In t (List.filter isDischarge ts)
                   /\ a.(maxDischargePrice) = t.(PriceEUR)).
Proof.
  cbv zeta. induction ts as [|x ts IH] using rev_ind.
  - cbn. split; [apply Qle_refl|]. split; [intros t []|]. now left.
  - rewrite fold_left_app, List.filter_app. cbn [fold_left].
    destruct IH as (H0 & Hall & Hex).
    set (a := fold_left accStep ts accInit) in *.
    assert (Hfx : List.filter isDischarge [x] = if isDischarge x then [x] else [])
      by reflexivity.
    assert (Hd : isDischarge x
                 = match Action x with ActionDischarge => true | _ => false end)
      by reflexivity.
    rewrite Hfx, Hd. unfold accStep.
    destruct (Action x) eqn:Ea; cbv iota; cbn [maxDischargePrice].
    + rewrite app_nil_r. auto.
    + destruct (decimal.GreaterThan (PriceEUR x) (maxDischargePrice a)) eqn:Eg.
      * apply GreaterThan_spec in Eg. split; [|split].
        -- apply Qlt_le_weak. eapply Qle_lt_trans; eassumption.
        -- intros t Ht. apply in_app_or in Ht as [Ht|[<-|[]]]; [|apply Qle_refl].
           apply Qlt_le_weak. eapply Qle_lt_trans; [apply Hall, Ht | exact Eg].
        -- right. exists x. split; [apply in_or_app; right; now left | reflexivity].
      * apply GreaterThan_false in Eg. split; [exact H0|]. split.
        -- intros t Ht. apply in_app_or in Ht as [Ht|[<-|[]]]; auto.
        -- destruct Hex as [Hz|(t & Ht & He)]; [now left|].
           right. exists t. split; [apply in_or_app; now left | exact He].
    + rewrite app_nil_r. auto.
Qed.

Lemma accLoop_min (ts : list Trade) :
  let a := fold_left accStep ts accInit in
  (List.filter isCharge ts = [] -> a.(minChargePrice) = decimal.Zero)
  /\ (List.filter isCharge ts <> [] ->
      exists t, List.In t (List.filter isCharge ts)
                /\ a.(minChargePrice) = t.(PriceEUR))
  /\ ((forall t, List.In t (List.filter isCharge ts) -> ~ (t.(PriceEUR) == 0)%Q) ->
      forall t, List.In t (List.filter isCharge ts) ->
        (a.(minChargePrice) <= t.(PriceEUR))%Q).
Proof.
  cbv zeta. induction ts as [|x ts IH] using rev_ind.
  - cbn. split; [reflexivity|]. split; [congruence|]. intros _ t [].
  - rewrite fold_left_app, List.filter_app. cbn [fold_left].
    destruct IH as (Hnil & Hex & Hmin).
    set (a := fold_left accStep ts accInit) in *.
    assert (Hfx : List.filter isCharge [x] = if isCharge x then [x] else [])
      by reflexivity.
    assert (Hd : isCharge x
                 = match Action x with ActionCharge => true | _ => false end)
      by reflexivity.
    rewrite Hfx, Hd. unfold accStep.
    destruct (Action x) eqn:Ea; cbv iota; cbn [minChargePrice].
    + split; [intros H; now destruct (List.filter _ ts)|]. split.
      * intros _.
        destruct (decimal.IsZero (minChargePrice a) || _) eqn:Eb.
        -- exists x. split; [apply in_or_app; right; now left | reflexivity].
        -- apply orb_false_iff in Eb as (Ez & _).
           destruct (List.filter _ ts) as [|c cs] eqn:Ef.
           { rewrite Hnil in Ez by reflexivity. discriminate. }
           destruct Hex as (t & Ht & He); [discriminate|].
           exists t. split; [apply in_or_app; left; exact Ht | exact He].
      * intros Hnz t Ht.
        assert (Hnz' : forall u, List.In u (List.filter isCharge ts)
                 -> ~ (PriceEUR u == 0)%Q).
        { intros u Hu. apply Hnz, in_or_app. now left. }
        specialize (Hmin Hnz').
        destruct (decimal.IsZero (minChargePrice a)) eqn:Ez; cbn [orb].
        -- destruct (List.filter _ ts) as [|c cs] eqn:Ef.
           { destruct Ht as [<-|[]]. apply Qle_refl. }
           destruct Hex as (u & Hu & He); [discriminate|].
           apply IsZero_spec in Ez. rewrite He in Ez. destruct (Hnz' u Hu Ez).
        -- destruct (decimal.LessThan (PriceEUR x) (minChargePrice a)) eqn:El.
           ++ apply LessThan_spec in El.
              apply in_app_or in Ht as [Ht|[<-|[]]]; [|apply Qle_refl].
              apply Qlt_le_weak. eapply Qlt_le_trans; [exact El | apply Hmin, Ht].
           ++ apply LessThan_false in El.
              apply in_app_or in Ht as [Ht|[<-|[]]]; [apply Hmin, Ht | exact El].
    + rewrite app_nil_r. auto.
    + rewrite app_nil_r. auto.
Qed.

(** X22. In every day of the history the cycle counts are the numbers of charge
    and of discharge trades of the day. The maximum discharge price is not
    negative, no discharge of the day sold above it, and it is zero or the
    price of a discharge of the day. The minimum charge price is zero on a
    day without charges and otherwise the price of a charge of the day;
    when no charge of the day was made at price zero, no charge of the day
    was made below it. *)
Theorem summary_extremes (r : Recorder) (d : DailySummary) :
  List.In d (GetHistory r).(Days) ->
  let charges := List.filter isCharge d.(Trades) in
  let discharges := List.filter isDischarge d.(Trades) in
  d.(ChargeCycles) = len charges /\ d.(DischargeCycles) = len discharges
  /\ (0 <= d.(MaxDischargePrice))%Q
  /\ (forall t, List.In t discharges -> (t.(PriceEUR) <= d.(MaxDischargePrice))%Q)
  /\ (d.(MaxDischargePrice) = decimal.Zero
      \/ exists t, List.In t discharges /\ d.(MaxDischargePrice) = t.(PriceEUR))
  /\ (charges = [] -> d.(MinChargePrice) = decimal.Zero)
  /\ (charges <> [] ->
      exists t, List.In t charges /\ d.(MinChargePrice) = t.(PriceEUR))
  /\ ((forall t, List.In t charges -> ~ (t.(PriceEUR) == 0)%Q) ->
      forall t, List.In t charges -> (d.(MinChargePrice) <= t.(PriceEUR))%Q).
Proof.
  intros Hin. apply GetHistory_days in Hin as (k & _ & ->). cbv zeta.
  set (ts := tradesOn k (trades r)).
  destruct (summarize_spec k ts) as (_ & H2 & _ & _ & H5 & H6 & _).
  cbv zeta in H2, H5, H6. rewrite H2.
  split; [exact H5|]. split; [exact H6|].
  unfold summarize. cbn [MaxDischargePrice MinChargePrice].
  destruct (accLoop_max ts) as (M1 & M2 & M3).
  destruct (accLoop_min ts) as (N1 & N2 & N3).
  repeat split; assumption.
Qed.

Lemma summary_extremes_witness :
  let d := summarize 19737 [tradeA] in
  List.In d (GetHistory recorderCET).(Days)
  /\ d.(ChargeCycles) = 1 /\ d.(DischargeCycles) = 0
  /\ d.(MinChargePrice) = (5 # 100)%Q.
Proof.
  cbv zeta.
  assert (Hin : List.In (summarize 19737 [tradeA]) (GetHistory recorderCET).(Days)).
  { apply GetHistory_days. exists 19737.
    split; [vm_compute; discriminate | vm_compute; reflexivity]. }
  destruct (summary_extremes recorderCET _ Hin) as (H1 & H2 & _).
  split; [exact Hin|]. split; [rewrite H1; reflexivity|].
  split; [rewrite H2; reflexivity | reflexivity].
Defined.

(** ** The span of the history *)

Lemma firstTradeOf_spec (ts : list Trade) :
  (forall t, List.In t ts -> time.IsZero t.(Timestamp) = false) ->
  match ts with
  | [] => firstTradeOf ts = time.zero
  | _ => (exists t, List.In t ts /\ firstTradeOf ts = t.(Timestamp))
         /\ forall t, List.In t ts ->
              time.unixNano (firstTradeOf ts) <= time.unixNano t.(Timestamp)
  end.
Proof.
  unfold firstTradeOf. induction ts as [|x ts IH] using rev_ind; intros Hnz; [reflexivity|].
  assert (Hnz' : forall t, List.In t ts -> time.IsZero t.(Timestamp) = false).
  { intros t Ht. apply Hnz, in_or_app. now left. }
  specialize (IH Hnz'). rewrite fold_left_app. cbn [fold_left].
  set (f := fold_left _ ts time.zero) in *.
  assert (Hgoal : (exists t, List.In t (ts ++ [x])
                     /\ (if time.IsZero f || time.Before (Timestamp x) f
                         then Timestamp x else f) = Timestamp t)
                  /\ forall t, List.In t (ts ++ [x]) ->
                       time.unixNano (if time.IsZero f || time.Before (Timestamp x) f
                                      then Timestamp x else f)
                       <= time.unixNano (Timestamp t)).
  { destruct ts as [|y ts'].
    - rewrite IH. replace (time.IsZero time.zero) with true by reflexivity.
      cbn [orb app]. split; [exists x; split; [now left | reflexivity]|].
      intros t [<-|[]]. lia.
    - destruct IH as ((u & Hu & Hf) & Hmin).
      assert (Hz : time.IsZero f = false) by (rewrite Hf; apply Hnz', Hu).
      rewrite Hz. cbn [orb]. unfold time.Before.
      destruct (Z.ltb_spec (time.unixNano (Timestamp x)) (time.unixNano f)) as [Hlt|Hge].
      + split; [exists x; split; [apply in_or_app; right; now left | reflexivity]|].
        intros t Ht. apply in_app_or in Ht as [Ht|[<-|[]]]; [|lia].
        specialize (Hmin t Ht). lia.
      + split; [exists u; split; [apply in_or_app; now left | exact Hf]|].
        intros t Ht. apply in_app_or in Ht as [Ht|[<-|[]]]; [apply Hmin, Ht | lia]. }
  destruct (ts ++ [x]) eqn:E; [now destruct ts|]. exact Hgoal.
Qed.

Lemma lastTradeOf_spec (ts : list Trade) :
  (forall t, List.In t ts -> time.IsZero t.(Timestamp) = false) ->
  match ts with
  | [] => lastTradeOf ts = time.zero
  | _ => (exists t, List.In t ts /\ lastTradeOf ts = t.(Timestamp))
         /\ forall t, List.In t ts ->
              time.unixNano t.(Timestamp) <= time.unixNano (lastTradeOf ts)
  end.
Proof.
  unfold lastTradeOf. induction ts as [|x ts IH] using rev_ind; intros Hnz; [reflexivity|].
  assert (Hnz' : forall t, List.In t ts -> time.IsZero t.(Timestamp) = false).
  { intros t Ht. apply Hnz, in_or_app. now left. }
  specialize (IH Hnz'). rewrite fold_left_app. cbn [fold_left].
  set (f := fold_left _ ts time.zero) in *.
  assert (Hgoal : (exists t, List.In t (ts ++ [x])
                     /\ (if time.IsZero f || time.After (Timestamp x) f
                         then Timestamp x else f) = Timestamp t)
                  /\ forall t, List.In t (ts ++ [x]) ->
                       time.unixNano (Timestamp t)
                       <= time.unixNano (if time.IsZero f || time.After (Timestamp x) f
                                         then Timestamp x else f)).
  { destruct ts as [|y ts'].
    - rewrite IH. replace (time.IsZero time.zero) with true by reflexivity.
      cbn [orb app]. split; [exists x; split; [now left | reflexivity]|].
      intros t [<-|[]]. lia.
    - destruct IH as ((u & Hu & Hf) & Hmax).
      assert (Hz : time.IsZero f = false) by (rewrite Hf; apply Hnz', Hu).
      rewrite Hz. cbn [orb]. unfold time.After.
      destruct (Z.ltb_spec (time.unixNano f) (time.unixNano (Timestamp x))) as [Hlt|Hge].
      + split; [exists x; split; [apply in_or_app; right; now left | reflexivity]|].
        intros t Ht. apply in_app_or in Ht as [Ht|[<-|[]]]; [|lia].
        specialize (Hmax t Ht). lia.
      + split; [exists u; split; [apply in_or_app; now left | exact Hf]|].
        intros t Ht. apply in_app_or in Ht as [Ht|[<-|[]]]; [apply Hmax, Ht | lia]. }
  destruct (ts ++ [x]) eqn:E; [now destruct ts|]. exact Hgoal.
Qed.

(** X23. For a ledger that is not empty and whose trades carry timestamps other
    than the zero time, the history reports as first and last trade the
    timestamps of trades of the ledger, and every trade lies between them.
    The history of an empty ledger has no days and no first or last
    trade. *)
Theorem history_span (r : Recorder) :
  (r.(trades) = [] ->
   GetHistory r = {| Days := []; TotalPnL := decimal.Zero; TotalDays := 0;
                     FirstTrade := None; LastTrade := None |})
  /\ (r.(trades) <> [] ->
      (forall t, List.In t r.(trades) -> time.IsZero t.(Timestamp) = false) ->
      exists first last tf tl,
        (GetHistory r).(FirstTrade) = Some first
        /\ (GetHistory r).(LastTrade) = Some last
        /\ List.In tf r.(trades) /\ first = tf.(Timestamp)
        /\ List.In tl r.(trades) /\ last = tl.(Timestamp)
        /\ forall t, List.In t r.(trades) ->
             time.unixNano first <= time.unixNano t.(Timestamp) <= time.unixNano last).
Proof.
  split.
  - intros Hnil. unfold GetHistory. now rewrite Hnil.
  - intros Hne Hnz. unfold GetHistory.
    destruct (Z.eqb_spec (len (trades r)) 0) as [H0|_].
    { destruct (trades r); [congruence|]. rewrite len_cons in H0.
      pose proof (len_nonneg l). lia. }
    cbn [FirstTrade LastTrade].
    pose proof (firstTradeOf_spec _ Hnz) as Hf.
    pose proof (lastTradeOf_spec _ Hnz) as Hl.
    destruct (trades r) as [|t0 l] eqn:E; [congruence|].
    destruct Hf as ((tf & Htf & Hf) & Hmin). destruct Hl as ((tl & Htl & Hl) & Hmax).
    exists (firstTradeOf (t0 :: l)), (lastTradeOf (t0 :: l)), tf, tl.
    repeat split; auto.
Qed.

Lemma history_span_witness :
  recorderCET.(trades) <> []
  /\ (forall t, List.In t recorderCET.(trades) -> time.IsZero t.(Timestamp) = false)
  /\ exists first last,
       (GetHistory recorderCET).(FirstTrade) = Some first
       /\ (GetHistory recorderCET).(LastTrade) = Some last
       /\ first = tradeA.(Timestamp) /\ last = tradeB.(Timestamp).
Proof.
  assert (Hne : recorderCET.(trades) <> []) by discriminate.
  assert (Hnz : forall t, List.In t recorderCET.(trades) ->
                  time.IsZero t.(Timestamp) = false).
  { intros t [<-|[<-|[]]]; reflexivity. }
  split; [exact Hne|]. split; [exact Hnz|].
  destruct (proj2 (history_span recorderCET) Hne Hnz)
    as (first & last & tf & tl & H1 & H2 & _).
  exists first, last. split; [exact H1|]. split; [exact H2|].
  vm_compute in H1, H2. injection H1 as <-. injection H2 as <-.
  split; reflexivity.
Defined.

(** ** The order of the days *)

Lemma swapIfLater_lookups (i j : nat) (l : list DailySummary) di dj :
  l !! i = Some di -> l !! j = Some dj ->
  swapIfLater i j l
  = if di.(Date) <? dj.(Date) then <[i := dj]> (<[j := di]> l) else l.
Proof. intros Hi Hj. unfold swapIfLater. now rewrite Hi, Hj. Qed.

(** The inner loop for position [i], after it has looked at the [m]
    positions after [i]: the positions before [i] are untouched, no day it
    looked at is later than the day now at [i], and every day at or after
    [i] was at or after [i] before. *)
Lemma sortDays_inner (i : nat) (l : list DailySummary) (m : nat) :
  (i + 1 + m <= length l)%nat ->
  let l' := fold_left (fun ds j => swapIfLater i j ds) (seq (i + 1) m) l in
  length l' = length l
  /\ (forall a, (a < i)%nat -> l' !! a = l !! a)
  /\ (forall b di db, (i < b < i + 1 + m)%nat ->
        l' !! i = Some di -> l' !! b = Some db -> db.(Date) <= di.(Date))
  /\ (forall b x, (i <= b)%nat -> l' !! b = Some x ->
        exists b', (i <= b')%nat /\ l !! b' = Some x).
Proof.
  cbv zeta. induction m as [|m IH]; intros Hlen.
  - cbn [seq fold_left]. split; [reflexivity|]. split; [reflexivity|].
    split; [intros; lia|]. intros b x Hb Hx. exists b. auto.
  - rewrite seq_S, fold_left_app. cbn [fold_left].
    destruct IH as (Hl & Hbefore & Hmax & Hfrom); [lia|].
    set (l1 := fold_left _ (seq (i + 1) m) l) in *.
    set (j := (i + 1 + m)%nat).
    destruct (lookup_lt_is_Some_2 l1 i ltac:(lia)) as (di & Hdi).
    destruct (lookup_lt_is_Some_2 l1 j ltac:(unfold j; lia)) as (dj & Hdj).
    rewrite (swapIfLater_lookups i j l1 di dj Hdi Hdj).
    destruct (Z.ltb_spec (Date di) (Date dj)) as [Hlt|Hge].
    + split; [now rewrite !length_insert|]. split; [|split].
      * intros a Ha. rewrite !list_lookup_insert_ne by (unfold j; lia). now apply Hbefore.
      * intros b d0 db Hb Hd0 Hdb.
        rewrite list_lookup_insert_eq in Hd0 by (rewrite length_insert; lia).
        injection Hd0 as <-.
        rewrite list_lookup_insert_ne in Hdb by lia.
        destruct (Nat.eq_dec b j) as [->|Hne].
        -- rewrite list_lookup_insert_eq in Hdb by (unfold j; lia).
           injection Hdb as <-. lia.
        -- rewrite list_lookup_insert_ne in Hdb by lia.
           pose proof (Hmax b di db ltac:(unfold j in Hne; lia) Hdi Hdb). lia.
      * intros b x Hb Hx.
        destruct (Nat.eq_dec b i) as [->|Hni].
        -- rewrite list_lookup_insert_eq in Hx by (rewrite length_insert; lia).
           injection Hx as <-. apply (Hfrom j); [unfold j; lia | exact Hdj].
        -- rewrite list_lookup_insert_ne in Hx by lia.
           destruct (Nat.eq_dec b j) as [->|Hnj].
           ++ rewrite list_lookup_insert_eq in Hx by (unfold j; lia).
              injection Hx as <-. apply (Hfrom i); [lia | exact Hdi].
           ++ rewrite list_lookup_insert_ne in Hx by lia. now apply (Hfrom b).
    + split; [exact Hl|]. split; [exact Hbefore|]. split; [|exact Hfrom].
      intros b d0 db Hb Hd0 Hdb. rewrite Hdi in Hd0. injection Hd0 as <-.
      destruct (Nat.eq_dec b j) as [->|Hne].
      * rewrite Hdj in Hdb. injection Hdb as <-. lia.
      * apply (Hmax b di db); [unfold j in Hne; lia | exact Hdi | exact Hdb].
Qed.

(** The outer loop, after its first [k] rounds: no day after one of the
    first [k] positions is later than the day at that position. *)
Lemma sortDays_outer (l : list DailySummary) (k : nat) :
  (k <= length l - 1)%nat ->
  let n := length l in
  let l' := fold_left (fun ds i =>
                         fold_left (fun ds j => swapIfLater i j ds)
                                   (seq (i + 1) (n - (i + 1))) ds)
                      (seq 0 k) l in
  length l' = length l
  /\ forall a b da db, (a < k)%nat -> (a < b)%nat ->
       l' !! a = Some da -> l' !! b = Some db -> db.(Date) <= da.(Date).
Proof.
  cbv zeta. induction k as [|k IH]; intros Hk.
  - cbn [seq fold_left]. split; [reflexivity|]. intros; lia.
  - rewrite seq_S, fold_left_app. cbn [fold_left]. rewrite Nat.add_0_l.
    destruct IH as (Hl & Hsorted); [lia|].
    set (l1 := fold_left _ (seq 0 k) l) in *.
    destruct (sortDays_inner k l1 (length l - (k + 1)) ltac:(lia))
      as (Hl2 & Hbefore & Hmax & Hfrom).
    set (l2 := fold_left _ (seq (k + 1) (length l - (k + 1))) l1) in *.
    split; [congruence|].
    intros a b da db Ha Hab Hda Hdb.
    assert (Hblt : (b < length l)%nat).
    { apply lookup_lt_Some in Hdb. lia. }
    destruct (Nat.eq_dec a k) as [->|Hne].
    + apply (Hmax b da db); [lia | exact Hda | exact Hdb].
    + rewrite Hbefore in Hda by lia.
      destruct (Nat.lt_ge_cases b k) as [Hbk|Hbk].
      * rewrite Hbefore in Hdb by lia.
        apply (Hsorted a b da db); [lia | lia | exact Hda | exact Hdb].
      * destruct (Hfrom b db Hbk Hdb) as (b' & Hb' & Hdb').
        apply (Hsorted a b' da db); [lia | lia | exact Hda | exact Hdb'].
Qed.

Lemma sortDays_descending (l : list DailySummary) :
  forall a b da db, (a < b)%nat ->
    sortDays l !! a = Some da -> sortDays l !! b = Some db ->
    db.(Date) <= da.(Date).
Proof.
  intros a b da db Hab Hda Hdb. unfold sortDays in *.
  destruct (sortDays_outer l (length l - 1) ltac:(lia)) as (Hl & Hsorted).
  cbv zeta in Hl, Hsorted.
  apply (Hsorted a b da db); [|exact Hab | exact Hda | exact Hdb].
  apply lookup_lt_Some in Hdb. rewrite Hl in Hdb. lia.
Qed.

Lemma GetHistory_dates_NoDup (r : Recorder) : NoDup (map Date (GetHistory r).(Days)).
Proof.
  unfold GetHistory. destruct (len (trades r) =? 0); [constructor|].
  cbn [Days]. rewrite sortDays_perm, map_map.
  rewrite (map_ext _ fst) by (intros [k ts]; reflexivity).
  apply NoDup_fst_map_to_list.
Qed.

(** X24. The days of the history are in order of date, latest first, and no
    two carry the same date; [TotalDays] counts them; a date has a day
    exactly when the ledger has a trade whose timestamp prints it. *)
Theorem history_days_sorted (r : Recorder) :
  let days := (GetHistory r).(Days) in
  (forall i j di dj, (i < j)%nat ->
     days !! i = Some di -> days !! j = Some dj -> dj.(Date) < di.(Date))
  /\ (GetHistory r).(TotalDays) = len days
  /\ (forall k, (exists d, List.In d days /\ d.(Date) = k)
                <-> tradesOn k r.(trades) <> []).
Proof.
  cbv zeta. split; [|split].
  - intros i j di dj Hij Hi Hj.
    assert (Hle : Date dj <= Date di).
    { unfold GetHistory in Hi, Hj. destruct (len (trades r) =? 0); [discriminate|].
      cbn [Days] in Hi, Hj. eapply sortDays_descending; eassumption. }
    assert (Hne : Date dj <> Date di).
    { intros Heq. pose proof (GetHistory_dates_NoDup r) as Hnd.
      assert (i = j); [|lia].
      apply (NoDup_lookup _ i j (Date di) Hnd).
      - change (map Date ?l) with (Date <$> l). now rewrite list_lookup_fmap, Hi.
      - change (map Date ?l) with (Date <$> l). rewrite list_lookup_fmap, Hj.
        cbn. congruence. }
    lia.
  - unfold GetHistory. destruct (len (trades r) =? 0); reflexivity.
  - intros k. split.
    + intros (d & Hd & <-). apply GetHistory_days in Hd as (k & Hk & ->). exact Hk.
    + intros Hk. exists (summarize k (tradesOn k (trades r))).
      split; [|reflexivity]. apply GetHistory_days. exists k. auto.
Qed.
